(** * SJJP Requests Portal: the persistence and synchronisation core of app.py

    A shallow embedding of the functions of [app.py] that load, normalise,
    persist and synchronise the JSON collections (users, schools, materials,
    requests, stock), followed by the properties established about them.

    Conventions of the embedding.
    - A Python value read from or written to a JSON file is a [pyval].
      JSON numbers with a fraction or an exponent are not modelled: numbers
      are integers.
    - Python strings are Rocq strings; the character-level functions
      ([strip], [upper], [lower], [int] on a text) follow Python on ASCII
      text.
    - A Python [dict] is an association list in insertion order with
      pairwise distinct keys; assignment to a present key keeps its place.
      The collections handed to the normalizers, to [list_user_schools] and
      to the Manage Requests handlers are lists of records.
    - Code that touches files, the remote store or [uuid.uuid4] runs in the
      monad [M]: it threads a [world] and may raise an exception.  Writing a
      file always succeeds, and so does [os_remove]; the handlers that the
      source puts around [os.remove] are kept, and the migration of the
      legacy coaches file is also given with the removal as a parameter, to
      cover a removal that the operating system refuses.
    - Paths are file names inside the data directory. *)

From Stdlib Require Import Ascii String.
From stdpp Require Import base option list strings gmap pretty.

Set Warnings "-register-all".
Open Scope string_scope.

(** ** Python strings *)

Module PyStr.

(** [str.isspace] on ASCII: TAB, LF, VT, FF, CR, FS, GS, RS, US, space. *)
Definition is_space (c : ascii) : bool :=
  let n := N_of_ascii c in
  ((9 <=? n) && (n <=? 13) || (28 <=? n) && (n <=? 32))%N.

Definition upper_char (c : ascii) : ascii :=
  let n := N_of_ascii c in
  if ((97 <=? n) && (n <=? 122))%N then ascii_of_N (n - 32) else c.

Definition lower_char (c : ascii) : ascii :=
  let n := N_of_ascii c in
  if ((65 <=? n) && (n <=? 90))%N then ascii_of_N (n + 32) else c.

Fixpoint map_chars (f : ascii → ascii) (s : string) : string :=
  match s with
  | EmptyString => EmptyString
  | String c r => String (f c) (map_chars f r)
  end.

(** [s.upper()] and [s.lower()]. *)
Definition upper : string → string := map_chars upper_char.
Definition lower : string → string := map_chars lower_char.

Fixpoint lstrip (s : string) : string :=
  match s with
  | EmptyString => EmptyString
  | String c r => if is_space c then lstrip r else s
  end.

Fixpoint rstrip (s : string) : string :=
  match s with
  | EmptyString => EmptyString
  | String c r =>
      match rstrip r with
      | EmptyString => if is_space c then EmptyString else String c EmptyString
      | t => String c t
      end
  end.

(** [s.strip()]. *)
Definition strip (s : string) : string := rstrip (lstrip s).

Fixpoint has_char (c : ascii) (s : string) : bool :=
  match s with
  | EmptyString => false
  | String d r => if decide (c = d) then true else has_char c r
  end.

Fixpoint is_prefix (p s : string) : bool :=
  match p, s with
  | EmptyString, _ => true
  | String a p', String b s' => if decide (a = b) then is_prefix p' s' else false
  | String _ _, EmptyString => false
  end.

(** [p in s] for two strings: [p] occurs as a substring of [s]. *)
Fixpoint is_substring (p s : string) : bool :=
  is_prefix p s ||
  match s with
  | EmptyString => false
  | String _ r => is_substring p r
  end.

Fixpoint join (sep : string) (l : list string) : string :=
  match l with
  | [] => ""
  | [x] => x
  | x :: r => x +:+ sep +:+ join sep r
  end.

Definition digit_value (c : ascii) : option Z :=
  let n := N_of_ascii c in
  if ((48 <=? n) && (n <=? 57))%N then Some (Z.of_N (n - 48)) else None.

(** The digit part of an integer literal accepted by [int(s)]: decimal
    digits, single underscores allowed between two digits. *)
Fixpoint parse_digits (acc : Z) (after_digit : bool) (s : string) : option Z :=
  match s with
  | EmptyString => if after_digit then Some acc else None
  | String c r =>
      match digit_value c with
      | Some d => parse_digits (10 * acc + d) true r
      | None =>
          if decide (c = "_"%char) then
            if after_digit then parse_digits acc false r else None
          else None
      end
  end.

(** The characters [int] skips around a numeral: TAB, LF, VT, FF, CR and
    space.  The separators FS, GS, RS and US, which [str.strip] removes, are
    not among them: a text that holds one is not a numeral. *)
Definition is_int_space (c : ascii) : bool :=
  let n := N_of_ascii c in
  ((9 <=? n) && (n <=? 13) || (n =? 32))%N.

Fixpoint skip_int_space (s : string) : string :=
  match s with
  | EmptyString => EmptyString
  | String c r => if is_int_space c then skip_int_space r else s
  end.

Fixpoint drop_int_space (s : string) : string :=
  match s with
  | EmptyString => EmptyString
  | String c r =>
      match drop_int_space r with
      | EmptyString => if is_int_space c then EmptyString else String c EmptyString
      | t => String c t
      end
  end.

(** [int(s)] for a string, [None] standing for [ValueError]. *)
Definition int_of_string (s : string) : option Z :=
  match drop_int_space (skip_int_space s) with
  | String "+" r => parse_digits 0 false r
  | String "-" r => Z.opp <$> parse_digits 0 false r
  | t => parse_digits 0 false t
  end.

Definition hex_digit (n : N) : ascii :=
  let d := (n mod 16)%N in
  if (d <? 10)%N then ascii_of_N (48 + d) else ascii_of_N (87 + d).

Definition quote1 : ascii := ascii_of_N 39.
Definition quote2 : ascii := ascii_of_N 34.
Definition backslash : ascii := ascii_of_N 92.

Definition repr_char (q c : ascii) : string :=
  let n := N_of_ascii c in
  if decide (c = q) then String backslash (String c "")
  else if decide (c = backslash) then String backslash (String c "")
  else if (n =? 9)%N then String backslash "t"
  else if (n =? 10)%N then String backslash "n"
  else if (n =? 13)%N then String backslash "r"
  else if ((n <? 32) || (n =? 127))%N then
    String backslash (String "x" (String (hex_digit (n / 16)) (String (hex_digit n) "")))
  else String c "".

Fixpoint repr_chars (q : ascii) (s : string) : string :=
  match s with
  | EmptyString => EmptyString
  | String c r => repr_char q c +:+ repr_chars q r
  end.

(** [repr(s)] for a string: single quotes unless the text holds a single
    quote and no double quote. *)
Definition repr (s : string) : string :=
  let q := if has_char quote1 s && negb (has_char quote2 s) then quote2 else quote1 in
  String q (repr_chars q s) +:+ String q "".

End PyStr.

(** ** Python values *)

Inductive pyval :=
| VNone
| VBool (b : bool)
| VInt (z : Z)
| VStr (s : string)
| VList (l : list pyval)
| VDict (d : list (string * pyval)).

(** A record of a collection: a JSON object. *)
Abbreviation row := (list (string * pyval)).

Inductive exn :=
| TypeError
| ValueError
| AttributeError
| KeyError
| NameError
| IndexError
| FileNotFoundError
| JSONDecodeError
| OSError
| RemoteError.

Inductive res (A : Type) :=
| Ok (a : A)
| Raise (e : exn).
Arguments Ok {A} a.
Arguments Raise {A} e.

(** Truth value of a Python object, as [if x] and [x or y] test it. *)
Definition truthy (v : pyval) : bool :=
  match v with
  | VNone => false
  | VBool b => b
  | VInt z => negb (z =? 0)%Z
  | VStr s => negb (String.eqb s "")
  | VList l => negb (bool_decide (length l = 0))
  | VDict d => negb (bool_decide (length d = 0))
  end.

(** [x or y]. *)
Definition py_or (x y : pyval) : pyval := if truthy x then x else y.

Fixpoint py_repr (v : pyval) : string :=
  match v with
  | VNone => "None"
  | VBool true => "True"
  | VBool false => "False"
  | VInt z => pretty z
  | VStr s => PyStr.repr s
  | VList l => "[" +:+ PyStr.join ", " (map py_repr l) +:+ "]"
  | VDict d =>
      "{" +:+ PyStr.join ", "
                (map (λ kv, PyStr.repr (fst kv) +:+ ": " +:+ py_repr (snd kv)) d)
          +:+ "}"
  end.

(** [str(x)]. *)
Definition py_str (v : pyval) : string :=
  match v with
  | VStr s => s
  | _ => py_repr v
  end.

(** [int(x)]. *)
Definition py_int (v : pyval) : res Z :=
  match v with
  | VInt z => Ok z
  | VBool b => Ok (if b then 1 else 0)%Z
  | VStr s =>
      match PyStr.int_of_string s with
      | Some z => Ok z
      | None => Raise ValueError
      end
  | VNone | VList _ | VDict _ => Raise TypeError
  end.

(** [x in c] for a string [x]: membership in a list, substring of a string,
    key of a dict; other right operands are not containers. *)
Definition py_in_str (x : string) (c : pyval) : res bool :=
  match c with
  | VList l => Ok (existsb (λ v, match v with VStr s => String.eqb x s | _ => false end) l)
  | VStr s => Ok (PyStr.is_substring x s)
  | VDict d => Ok (existsb (λ kv, String.eqb x (fst kv)) d)
  | VNone | VBool _ | VInt _ => Raise TypeError
  end.

(** ** Dictionaries in insertion order *)

Section odict.
Context {K V : Type} `{EqDecision K}.

Fixpoint od_get (k : K) (d : list (K * V)) : option V :=
  match d with
  | [] => None
  | (k', v) :: r => if decide (k = k') then Some v else od_get k r
  end.

(** [d[k] = v]. *)
Fixpoint od_set (k : K) (v : V) (d : list (K * V)) : list (K * V) :=
  match d with
  | [] => [(k, v)]
  | (k', v') :: r => if decide (k = k') then (k', v) :: r else (k', v') :: od_set k v r
  end.

Definition od_has (k : K) (d : list (K * V)) : bool := bool_decide (is_Some (od_get k d)).

(** [d.setdefault(k, v)]. *)
Definition od_setdefault (k : K) (v : V) (d : list (K * V)) : list (K * V) :=
  if od_has k d then d else od_set k v d.

(** [list(d.values())]. *)
Definition od_values (d : list (K * V)) : list V := map snd d.

(** [{k: v for k, v in d.items() if keep k}]. *)
Definition od_filter_keys (keep : K → bool) (d : list (K * V)) : list (K * V) :=
  List.filter (λ kv, keep (fst kv)) d.

End odict.

(** [r.get(k)], [r.get(k, dflt)], [k in r] for a record. *)
Definition get (k : string) (r : row) : option pyval := od_get k r.
Definition get_or (k : string) (dflt : pyval) (r : row) : pyval := default dflt (get k r).
Definition has (k : string) (r : row) : bool := od_has k r.

(** ** The world: local files, remote tables, randomness, remote faults *)

(** What a path holds: text that [json.load] rejects, or a parsed value. *)
Inductive file :=
| Corrupt
| Json (v : pyval).

Inductive remote_op :=
| OpSelect (table : string)
| OpUpsert (table : string) (payload : list row) (on_conflict : option string)
| OpDeleteNeq (table : string) (key : string).

(** A report shown to the user by [notify], [st.warning] or [st.error]. *)
Inductive note :=
| NotFound (filename : string)
| CheckFailed (table : string)
| Skipped (table : string)
| InvalidFormat (table : string)
| Cleared (table : string)
| ClearFailed (table : string)
| Synced (table : string) (n : nat)
| LocalDeleted (filename : string)
| DeleteFailed (filename : string)
| Mirrored (n : nat)
| MirrorSkipped
| SyncFailed (table : string) (e : exn)
| Pulled (table : string) (n : nat)
| PullFailed (table : string)
| NotConfigured
| Summary (synced skipped errors : nat)
| SavedNotSynced
| ChangesSaved (updated : nat).

Inductive event :=
| FileWrite (path : string)
| FileRemove (path : string)
| Remote (op : remote_op) (ok : bool)
| Notify (n : note).

(** [supabase] tells whether the client object exists; [faults] lists, for
    the remote calls to come, whether each one raises (a call beyond the list
    succeeds); [entropy] is the source [uuid.uuid4] draws from and
    [uuid_next] the number of draws made; [trace] holds the effects so far,
    most recent first. *)
Record world := World {
  files : gmap string file;
  tables : gmap string (list row);
  supabase : bool;
  faults : list bool;
  entropy : nat → N;
  uuid_next : nat;
  trace : list event
}.

Definition with_files (f : gmap string file) (w : world) : world :=
  World f (tables w) (supabase w) (faults w) (entropy w) (uuid_next w) (trace w).
Definition with_tables (t : gmap string (list row)) (w : world) : world :=
  World (files w) t (supabase w) (faults w) (entropy w) (uuid_next w) (trace w).
Definition with_supabase (b : bool) (w : world) : world :=
  World (files w) (tables w) b (faults w) (entropy w) (uuid_next w) (trace w).
Definition with_faults (fl : list bool) (w : world) : world :=
  World (files w) (tables w) (supabase w) fl (entropy w) (uuid_next w) (trace w).
Definition with_uuid_next (n : nat) (w : world) : world :=
  World (files w) (tables w) (supabase w) (faults w) (entropy w) n (trace w).
Definition emit (e : event) (w : world) : world :=
  World (files w) (tables w) (supabase w) (faults w) (entropy w) (uuid_next w) (e :: trace w).

(** Computations: a state transformer that may raise. *)
Definition M (A : Type) : Type := world → res A * world.

Definition ret {A} (a : A) : M A := λ w, (Ok a, w).
Definition raise {A} (e : exn) : M A := λ w, (Raise e, w).
Definition bind {A B} (m : M A) (k : A → M B) : M B :=
  λ w, match m w with
       | (Ok a, w') => k a w'
       | (Raise e, w') => (Raise e, w')
       end.
(** [try: m except Exception as e: h e]. *)
Definition try_except {A} (m : M A) (h : exn → M A) : M A :=
  λ w, match m w with
       | (Ok a, w') => (Ok a, w')
       | (Raise e, w') => h e w'
       end.
Definition lift {A} (r : res A) : M A := λ w, (r, w).
Definition act (f : world → world) : M unit := λ w, (Ok tt, f w).
Definition gets {A} (f : world → A) : M A := λ w, (Ok (f w), w).
Definition notify (n : note) : M unit := act (emit (Notify n)).

Global Instance M_ret : MRet M := @ret.
Global Instance M_bind : MBind M := λ A B k m, bind m k.

(** *** Local store (section 2 of app.py) *)

Definition FILES (name : string) : string :=
  if decide (name = "stock") then "stock_kimonos.json" else name +:+ ".json".

(** [os.path.exists(path)]. *)
Definition path_exists (path : string) (w : world) : bool :=
  bool_decide (is_Some (files w !! path)).

Definition load_json (path : string) : M pyval :=
  λ w, match files w !! path with
       | Some (Json v) => (Ok v, w)
       | Some Corrupt | None => (Ok (VList []), w)
       end.

Definition save_json (path : string) (data : pyval) : M unit :=
  act (λ w, emit (FileWrite path) (with_files (<[path := Json data]> (files w)) w)).

(** [with open(path) as f: data = json.load(f)], not guarded by the caller. *)
Definition json_load (path : string) : M pyval :=
  λ w, match files w !! path with
       | Some (Json v) => (Ok v, w)
       | Some Corrupt => (Raise JSONDecodeError, w)
       | None => (Raise FileNotFoundError, w)
       end.

(** [os.remove(path)]. *)
Definition os_remove (path : string) : M unit :=
  act (λ w, emit (FileRemove path) (with_files (delete path (files w)) w)).

(** *** Remote store adapter

    The Supabase client is an external service; its calls are modelled from
    section 4.3 of the specification. *)

Definition table_rows (table : string) (w : world) : list row :=
  default [] (tables w !! table).

(** Modelled from the spec: how a call to the Supabase client ends.  A
    call consumes the next fault flag, raises when the flag is set, and is
    recorded in the trace with its outcome; a call that raises leaves the
    tables as they were. *)
Definition remote_call (op : remote_op) : M unit :=
  λ w, match faults w with
       | true :: fl => (Raise RemoteError, emit (Remote op false) (with_faults fl w))
       | false :: fl => (Ok tt, emit (Remote op true) (with_faults fl w))
       | [] => (Ok tt, emit (Remote op true) w)
       end.

(** Modelled from the spec: when a stored row matches an incoming row on
    the conflict key [k] (the Supabase tables are not in the repository):
    both carry the same text or the same integer in column [k]. *)
Definition same_key (k : string) (v : pyval) (r : row) : bool :=
  match v, get k r with
  | VStr a, Some (VStr b) => String.eqb a b
  | VInt a, Some (VInt b) => (a =? b)%Z
  | _, _ => false
  end.

(** Modelled from the spec: the upsert of one row into a remote table.
    With a conflict key the row replaces the stored rows matching it on the
    key and is appended when there is none; without a conflict key it is
    appended. *)
Definition upsert_row (on_conflict : option string) (t : list row) (r : row) : list row :=
  match on_conflict with
  | None => t ++ [r]
  | Some k =>
      match get k r with
      | Some v =>
          if existsb (same_key k v) t
          then map (λ old, if same_key k v old then r else old) t
          else t ++ [r]
      | None => t ++ [r]
      end
  end.

(** The first [n] rows of a list. *)
Definition first_rows (n : N) (l : list row) : list row :=
  if (N.of_nat (length l) <=? n)%N then l else take (N.to_nat n) l.

(** Modelled from the spec: the select of the Supabase client,
    [supabase.table(t).select(...).limit(n).execute().data] and
    [....range(0, n - 1)....]: the first [n] rows of the table. *)
Definition remote_select (table : string) (n : N) : M (list row) :=
  remote_call (OpSelect table) ;;
  rows ← gets (table_rows table);
  ret (first_rows n rows).

(** Modelled from the spec: the upsert of the Supabase client,
    [supabase.table(t).upsert(payload, on_conflict=k).execute()]. *)
Definition remote_upsert (table : string) (payload : list row) (on_conflict : option string)
  : M unit :=
  remote_call (OpUpsert table payload on_conflict) ;;
  act (λ w, with_tables
              (<[table := foldl (upsert_row on_conflict) (table_rows table w) payload]>
                 (tables w)) w).

(** Modelled from the spec: the delete of the Supabase client,
    [supabase.table(t).delete().neq(key, "").execute()]: removes the rows
    whose [key] column holds a value other than the empty string. *)
Definition remote_delete_neq (table key : string) : M unit :=
  remote_call (OpDeleteNeq table key) ;;
  act (λ w, with_tables
              (<[table := List.filter
                            (λ r, match get key r with
                                  | None | Some VNone | Some (VStr "") => true
                                  | Some _ => false
                                  end)
                            (table_rows table w)]> (tables w)) w).

(** *** uuid.uuid4 *)

(** The 128-bit value of a version 4 UUID built from 128 random bits. *)
Definition uuid4_int (r : N) : N :=
  let v := (r mod 2 ^ 128)%N in
  let v := N.lor (N.ldiff v (N.shiftl 49152 48)) (N.shiftl 32768 48) in
  N.lor (N.ldiff v (N.shiftl 61440 64)) (N.shiftl 4 76).

Definition hex_at (v : N) (i : nat) : ascii :=
  PyStr.hex_digit (N.shiftr v (4 * N.of_nat (31 - i))).

Definition hex_run (v : N) (from len : nat) : list ascii :=
  map (hex_at v) (seq from len).

(** [str(u)] for a UUID: 8-4-4-4-12 lower-case hexadecimal digits. *)
Definition uuid_str (v : N) : string :=
  string_of_list_ascii
    (hex_run v 0 8 ++ "-"%char :: hex_run v 8 4 ++ "-"%char :: hex_run v 12 4 ++
     "-"%char :: hex_run v 16 4 ++ "-"%char :: hex_run v 20 12).

(** The string of the [n]-th UUID drawn in a world. *)
Definition uuid_of (w : world) (n : nat) : string := uuid_str (uuid4_int (entropy w n)).

(** [str(uuid.uuid4())]. *)
Definition uuid4 : M string :=
  λ w, (Ok (uuid_of w (uuid_next w)), with_uuid_next (S (uuid_next w)) w).

(** ** Section 4 of app.py: helpers *)

(** A [for r in rows] loop whose body may mutate [r] and the flag
    [changed]. *)
Fixpoint for_rows (body : row → bool → M (row * bool)) (rows : list row) (changed : bool)
  : M (list row * bool) :=
  match rows with
  | [] => ret ([], changed)
  | r :: rest =>
      '(r', c) ← body r changed;
      '(rest', c') ← for_rows body rest c;
      ret (r' :: rest', c')
  end.

Definition request_defaults (r : row) (changed : bool) : M (row * bool) :=
  '(r, changed) ←
    (if has "id" r then ret (r, changed)
     else u ← uuid4; ret (od_set "id" (VStr u) r, true));
  '(r, changed) ←
    (if has "status" r then ret (r, changed)
     else ret (od_set "status" (VStr "Pending") r, true));
  if has "ps_number" r then ret (r, changed)
  else ret (od_set "ps_number" (VStr "unknown") r, true).

Definition ensure_request_id_and_defaults (rows : list row) : M (list row) :=
  '(rows, changed) ← for_rows request_defaults rows false;
  (if changed : bool then save_json (FILES "requests") (VList (map VDict rows)) else ret tt) ;;
  ret rows.

Definition stock_defaults (r : row) (changed : bool) : M (row * bool) :=
  '(r, changed) ←
    (if has "id" r then ret (r, changed)
     else u ← uuid4; ret (od_set "id" (VStr u) r, true));
  (* quantity must be int *)
  '(r, changed) ←
    match get "quantity" r with
    | None => ret (od_set "quantity" (VInt 0) r, true)
    | Some q =>
        match py_int q with
        | Ok z => ret (od_set "quantity" (VInt z) r, changed)
        | Raise _ => ret (od_set "quantity" (VInt 0) r, true)
        end
    end;
  (* normalize project label *)
  match get "project" r with
  | Some (VStr p) => ret (od_set "project" (VStr (PyStr.upper (PyStr.strip p))) r, changed)
  | _ => ret (r, changed)
  end.

Definition ensure_stock_id_and_defaults (rows : list row) : M (list row) :=
  '(rows, changed) ← for_rows stock_defaults rows false;
  (if changed : bool then save_json (FILES "stock") (VList (map VDict rows)) else ret tt) ;;
  ret rows.

(** The session identity built by [authenticate]: [ps_number] is the text
    typed at login. *)
Record user := User {
  ps_number : string;
  credential : pyval;
  name : pyval
}.

(** [x == "text"] for a Python value [x]. *)
Definition eq_str (x : pyval) (s : string) : bool :=
  match x with
  | VStr t => String.eqb t s
  | _ => false
  end.

(** [[s for s in l if test s]] where the test may raise. *)
Fixpoint comprehension_if (test : row → res bool) (l : list row) : res (list row) :=
  match l with
  | [] => Ok []
  | s :: rest =>
      match test s with
      | Raise e => Raise e
      | Ok b =>
          match comprehension_if test rest with
          | Raise e => Raise e
          | Ok r => Ok (if b then s :: r else r)
          end
      end
  end.

Definition list_user_schools (u : user) (schools : list row) : res (list row) :=
  if eq_str (credential u) "Admin" then Ok schools
  else
    let ps := ps_number u in
    comprehension_if (λ s, py_in_str ps (get_or "coaches" (VList []) s)) schools.

Record persist_result := PersistResult {
  saved : nat;
  synced : nat;
  error : option exn
}.

(** The loop [for row in existing] of [persist_requests], after
    [existing = load_json(...) or []].  Iterating a number raises
    [TypeError]; an element that is not a dict has no [get]. *)
Definition py_iter (v : pyval) : res (list pyval) :=
  match v with
  | VList l => Ok l
  | VStr s => Ok (map (λ c, VStr (String c "")) (list_ascii_of_string s))
  | VDict d => Ok (map (λ kv, VStr (fst kv)) d)
  | VNone | VBool _ | VInt _ => Raise TypeError
  end.

Fixpoint index_existing (by_id : list (string * row)) (existing : list pyval)
  : res (list (string * row)) :=
  match existing with
  | [] => Ok by_id
  | VDict r :: rest =>
      let rid := PyStr.strip (py_str (get_or "id" (VStr "") r)) in
      index_existing (if truthy (VStr rid) then od_set rid r by_id else by_id) rest
  | _ :: _ => Raise AttributeError
  end.

Definition request_fields : list string :=
  ["id"; "school_id"; "category"; "material"; "quantity"; "date"; "ps_number"; "status"].

(** [{k: item.get(k) for k in fields}]. *)
Definition project_get (fields : list string) (r : row) : row :=
  map (λ k, (k, get_or k VNone r)) fields.

(** [dict(rec) if isinstance(rec, dict) else {}]. *)
Definition as_dict (rec : pyval) : row :=
  match rec with
  | VDict d => d
  | _ => []
  end.

(** [str(item.get("id") or "").strip()]. *)
Definition given_id (item : row) : string :=
  PyStr.strip (py_str (py_or (get_or "id" VNone item) (VStr ""))).

(** [int(row["quantity"])] under [try ... except: pass]. *)
Definition coerce_quantity (r : row) : row :=
  match get "quantity" r with
  | Some q =>
      match py_int q with
      | Ok z => od_set "quantity" (VInt z) r
      | Raise _ => r
      end
  | None => r
  end.

(** The item once its identifier [rid] is known: [item["id"] = rid], the
    two [setdefault] calls and the quantity made an integer when possible. *)
Definition item_with_id (rid : string) (item : row) : row :=
  let item := od_set "id" (VStr rid) item in
  let item := od_setdefault "status" (VStr "Pending") item in
  let item := od_setdefault "ps_number" (VStr "unknown") item in
  coerce_quantity item.

(** One turn of [for rec in records] up to [by_id[rid] = item]: the
    identifier and the item stored for [rec]. *)
Definition request_item (rec : pyval) : M (string * row) :=
  let item := as_dict rec in
  rid ← (if truthy (VStr (given_id item)) then ret (given_id item) else uuid4);
  ret (rid, item_with_id rid item).

Fixpoint merge_records (records : list pyval) (by_id : list (string * row))
    (payload : list row) (saved : nat) : M (list (string * row) * list row * nat) :=
  match records with
  | [] => ret (by_id, payload, saved)
  | rec :: rest =>
      '(rid, item) ← request_item rec;
      merge_records rest (od_set rid item by_id)
        (payload ++ [project_get request_fields item]) (S saved)
  end.

(** The statements of [persist_requests] that follow [save_json]: the
    upsert of the payload when a client exists, and the result. *)
Definition push_payload (payload : list row) (saved : nat) : M persist_result :=
  configured ← gets supabase;
  if (configured : bool) && negb (bool_decide (length payload = 0)) then
    try_except
      (remote_upsert "requests" payload (Some "id") ;;
       ret (PersistResult saved (length payload) None))
      (λ exc, ret (PersistResult saved 0 (Some exc)))
  else ret (PersistResult saved 0 None).

Definition persist_requests (records : list pyval) : M persist_result :=
  if bool_decide (length records = 0) then ret (PersistResult 0 0 None)
  else
    loaded ← load_json (FILES "requests");
    existing ← lift (py_iter (py_or loaded (VList [])));
    by_id ← lift (index_existing [] existing);
    '(by_id, payload, saved) ← merge_records records by_id [] 0;
    save_json (FILES "requests") (VList (map VDict (od_values by_id))) ;;
    push_payload payload saved.

(** ** Section 5 of app.py: Supabase sync *)

(** Local file -> logical source name, in the order the loops visit them. *)
Definition TABLES : list (string * string) :=
  [("users", "users.json"); ("schools", "schools.json"); ("materials", "materials.json");
   ("requests", "requests.json"); ("stock_kimonos", "stock_kimonos.json")].

Definition allowed_fields (table : string) : option (list string) :=
  if decide (table = "users") then Some ["ps_number"; "password"; "credential"; "name"]
  else if decide (table = "schools") then Some ["id"; "nome"; "city"; "coaches"]
  else if decide (table = "materials") then Some ["category"; "subcategory"; "item"]
  else if decide (table = "requests") then Some request_fields
  else if decide (table = "stock_kimonos") then
    Some ["id"; "school_id"; "project"; "type"; "size"; "quantity"]
  else None.

Definition conflict_targets (table : string) : option string :=
  if decide (table = "users") then Some "ps_number"
  else if decide (table = "schools") then Some "id"
  else if decide (table = "requests") then Some "id"
  else if decide (table = "stock_kimonos") then Some "id"
  else None.

(** The dict of keys used by the replace branch. *)
Definition clear_key (table : string) : option string :=
  if decide (table = "users") then Some "ps_number"
  else if decide (table = "schools") then Some "id"
  else if decide (table = "materials") then Some "category"
  else if decide (table = "requests") then Some "id"
  else None.

(** The body of [for row in data] in the shaping step; [None] is
    [continue]. *)
Definition shape_row (table : string) (cols : list string) (v : pyval) : option row :=
  match v with
  | VDict r =>
      let shaped_row := od_filter_keys (λ k, bool_decide (k ∈ cols)) r in
      if decide (table = "coaches") then
        if has "ps_number" shaped_row
        then Some (od_setdefault "name" (VStr "") shaped_row)
        else None
      else if decide (table = "requests") then Some (coerce_quantity shaped_row)
      else Some shaped_row
  | _ => None
  end.

(** The shaping step.  Every name of [TABLES] has an entry in
    [allowed_fields]; for a name without one the source pushes [data] as it
    is, which the model renders by the records of [data]. *)
Definition shape_rows (table : string) (data : list pyval) : list row :=
  match allowed_fields table with
  | Some cols => omap (shape_row table cols) data
  | None => omap (λ v, match v with VDict r => Some r | _ => None end) data
  end.

(** The local variables of [sync_local_to_supabase] that live across the
    turns of its loop.  [first_time_sync] is unbound until a remote check
    has succeeded once. *)
Record sync_vars := SyncVars {
  first_time_sync : option bool;
  total_synced : nat;
  total_skipped : nat;
  total_errors : nat
}.

Definition mirror_rows (shaped : list row) : list row :=
  map (λ r, [("ps_number", get_or "ps_number" VNone r);
             ("password", get_or "password" VNone r);
             ("credential", get_or "credential" (VStr "Coach") r)])
      (List.filter (λ r, truthy (get_or "ps_number" VNone r)) shaped).

(** Step 1 of a turn: the remote existence check.  Returns the value of
    [first_time_sync] after it and whether the turn ends here (skip). *)
Definition check_existing (force replace : bool) (table : string) (v : sync_vars)
  : M (option bool * bool) :=
  try_except
    (existing ← remote_select table 1;
     let existing_count := length existing in
     let fts := bool_decide (existing_count = 0) && negb force && negb replace in
     if negb force && bool_decide (0 < existing_count)
     then notify (Skipped table) ;; ret (Some fts, true)
     else ret (Some fts, false))
    (λ e, notify (CheckFailed table) ;; ret (first_time_sync v, false)).

(** The inner [try] of the replace branch. *)
Definition clear_remote (table : string) : M unit :=
  try_except
    (match clear_key table with
     | Some key => remote_delete_neq table key ;; notify (Cleared table)
     | None => ret tt
     end)
    (λ de, notify (ClearFailed table)).

(** The mirror of users into the table coaches. *)
Definition mirror_users (shaped : list row) : M unit :=
  try_except
    (let mirrored := mirror_rows shaped in
     if bool_decide (length mirrored = 0) then ret tt
     else remote_upsert "coaches" mirrored (Some "ps_number") ;;
          notify (Mirrored (length mirrored)))
    (λ e, notify MirrorSkipped).

(** The outer [try] of a turn.  The counter [total_synced] is raised right
    after the upsert, so it keeps its increment when the statements after
    it raise: reading an unbound [first_time_sync] is a [NameError], caught
    by the same handler as a failed upsert. *)
Definition push_rows (replace : bool) (table filename : string) (shaped : list row)
    (v : sync_vars) : M sync_vars :=
  upserted ← try_except
    ((if replace then clear_remote table else ret tt) ;;
     remote_upsert table shaped (conflict_targets table) ;;
     notify (Synced table (length shaped)) ;;
     ret None)
    (λ e, ret (Some e));
  match upserted with
  | Some e =>
      notify (SyncFailed table e) ;;
      ret (SyncVars (first_time_sync v) (total_synced v) (total_skipped v) (S (total_errors v)))
  | None =>
      let v := SyncVars (first_time_sync v) (S (total_synced v)) (total_skipped v) (total_errors v) in
      match first_time_sync v with
      | None =>
          notify (SyncFailed table NameError) ;;
          ret (SyncVars (first_time_sync v) (total_synced v) (total_skipped v) (S (total_errors v)))
      | Some fts =>
          (if fts then
             try_except (os_remove filename ;; notify (LocalDeleted filename))
               (λ de, notify (DeleteFailed filename))
           else ret tt) ;;
          (if decide (table = "users") then mirror_users shaped else ret tt) ;;
          ret v
      end
  end.

(** One turn of [for table, filename in TABLES.items()]. *)
Definition sync_table (force replace : bool) (table filename : string) (v : sync_vars)
  : M sync_vars :=
  present ← gets (path_exists filename);
  if negb present then notify (NotFound filename) ;; ret v
  else
    '(fts, skip) ← check_existing force replace table v;
    let v := SyncVars fts (total_synced v) (total_skipped v) (total_errors v) in
    if skip : bool then
      ret (SyncVars (first_time_sync v) (total_synced v) (S (total_skipped v)) (total_errors v))
    else
      data ← json_load filename;
      match data with
      | VList rows => push_rows replace table filename (shape_rows table rows) v
      | _ => notify (InvalidFormat table) ;; ret v
      end.

Fixpoint sync_tables (force replace : bool) (ts : list (string * string)) (v : sync_vars)
  : M sync_vars :=
  match ts with
  | [] => ret v
  | (table, filename) :: rest =>
      v ← sync_table force replace table filename v;
      sync_tables force replace rest v
  end.

Definition sync_local_to_supabase (force replace : bool) : M unit :=
  configured ← gets supabase;
  if negb configured then notify NotConfigured
  else
    v ← sync_tables force replace TABLES (SyncVars None 0 0 0);
    notify (Summary (total_synced v) (total_skipped v) (total_errors v)).

(** [{k: r.get(k) for k in cols}]; [cols] is a Python set, whose iteration
    order is not specified: the model takes the order of the declaration. *)
Definition pull_shape (table : string) (r : row) : row :=
  project_get (default [] (allowed_fields table)) r.

(** One turn of the loop of [pull_supabase_to_local]; the pair counts
    [pulled] and [errors]. *)
Definition pull_table (table path : string) (c : nat * nat) : M (nat * nat) :=
  try_except
    (rows ← remote_select table 100001;
     let shaped := map (pull_shape table) rows in
     save_json path (VList (map VDict shaped)) ;;
     notify (Pulled table (length shaped)) ;;
     ret (S (fst c), snd c))
    (λ e, notify (PullFailed table) ;; ret (fst c, S (snd c))).

Fixpoint pull_tables (ts : list (string * string)) (c : nat * nat) : M (nat * nat) :=
  match ts with
  | [] => ret c
  | (table, path) :: rest => c ← pull_table table path c; pull_tables rest c
  end.

Definition pull_supabase_to_local : M unit :=
  configured ← gets supabase;
  if negb configured then notify NotConfigured
  else
    c ← pull_tables TABLES (0, 0);
    notify (Summary (fst c) 0 (snd c)).

(** The three buttons of the Data Sync section and the two checkboxes
    above them: the second checkbox is only shown when the first is ticked. *)
Inductive sync_button :=
| SyncButton (force_box replace_box : bool)
| ForceUpsertAll
| ReplaceRemoteWithLocal.

Definition button_flags (b : sync_button) : bool * bool :=
  match b with
  | SyncButton force_box replace_box =>
      let force := force_box in
      let replace := if force then replace_box else false in
      (force, replace)
  | ForceUpsertAll => (true, false)
  | ReplaceRemoteWithLocal => (true, true)
  end.

Definition data_sync_click (b : sync_button) : M unit :=
  let '(force, replace) := button_flags b in
  sync_local_to_supabase force replace.

(** ** Section 6 of app.py: Manage Requests *)

(** [str(r.get("status", "")).lower() == "pending"]. *)
Definition is_pending (r : row) : bool :=
  String.eqb (PyStr.lower (py_str (get_or "status" (VStr "") r))) "pending".

(** The editable and the read-only set of the section. *)
Definition pending_of (visible : list row) : list row := List.filter is_pending visible.
Definition finalized_of (visible : list row) : list row :=
  List.filter (λ r, negb (is_pending r)) visible.

(** Keys of a dict whose keys are Python values: hashable values up to
    Python equality ([True == 1], [False == 0]). *)
Inductive hkey :=
| HNone
| HInt (z : Z)
| HStr (s : string).

Global Instance hkey_eq_dec : EqDecision hkey.
Proof. solve_decision. Defined.

Definition py_hash (v : pyval) : res hkey :=
  match v with
  | VNone => Ok HNone
  | VBool b => Ok (HInt (if b then 1 else 0))
  | VInt z => Ok (HInt z)
  | VStr s => Ok (HStr s)
  | VList _ | VDict _ => Raise TypeError
  end.

(** [r["id"]] used as a dict key. *)
Definition id_key (r : row) : res hkey :=
  match get "id" r with
  | None => Raise KeyError
  | Some v => py_hash v
  end.

(** [{r["id"]: r for r in rows}]. *)
Fixpoint index_by_id (by_id : list (hkey * row)) (rows : list row) : res (list (hkey * row)) :=
  match rows with
  | [] => Ok by_id
  | r :: rest =>
      match id_key r with
      | Raise e => Raise e
      | Ok k => index_by_id (od_set k r by_id) rest
      end
  end.

(** [for k in keys: if k in er: by_id[rid][k] = er[k]]. *)
Definition apply_edit (keys : list string) (er : row) (r : row) : row :=
  foldl (λ r k, match get k er with Some v => od_set k v r | None => r end) r keys.

Definition editable_keys (is_admin : bool) : list string :=
  ["school_id"; "category"; "material"; "quantity"] ++ (if is_admin then ["status"] else []).

(** [for idx, er in edited_df.iterrows()], the rows of the grid taken with
    their positions [idx], [idx + 1], ...; returns [by_id] and
    [updated_ids] (in order of first insertion). *)
Fixpoint apply_edits (is_admin : bool) (pending : list row) (idx : nat) (edits : list row)
    (by_id : list (hkey * row)) (updated_ids : list hkey)
  : res (list (hkey * row) * list hkey) :=
  match edits with
  | [] => Ok (by_id, updated_ids)
  | er :: rest =>
      match pending !! idx with
      | None => Raise IndexError
      | Some p =>
          match id_key p with
          | Raise e => Raise e
          | Ok rid =>
              match od_get rid by_id with
              | Some r =>
                  apply_edits is_admin pending (S idx) rest
                    (od_set rid (apply_edit (editable_keys is_admin) er r) by_id)
                    (if bool_decide (rid ∈ updated_ids) then updated_ids else updated_ids ++ [rid])
              | None => apply_edits is_admin pending (S idx) rest by_id updated_ids
              end
          end
      end
  end.

(** The payload of the sync that follows the save. *)
Definition save_payload (by_id : list (hkey * row)) (updated_ids : list hkey) : list row :=
  omap (λ rid, (λ r, coerce_quantity (od_filter_keys (λ k, bool_decide (k ∈ request_fields)) r))
                 <$> od_get rid by_id) updated_ids.

(** The sync to Supabase that follows the save. *)
Definition push_updates (by_id : list (hkey * row)) (updated_ids : list hkey) : M unit :=
  configured ← gets supabase;
  if (configured : bool) && negb (bool_decide (length updated_ids = 0)) then
    try_except
      (let payload := save_payload by_id updated_ids in
       if bool_decide (length payload = 0) then ret tt
       else remote_upsert "requests" payload (Some "id"))
      (λ e, notify SavedNotSynced)
  else ret tt.

(** The handler of the button Save Changes: [rows] is the loaded
    collection, [pending] the editable set shown in the grid, [edits] the
    rows of the grid as the user left them.  Returns the stored list. *)
Definition save_changes (is_admin : bool) (rows pending edits : list row) : M (list row) :=
  by_id ← lift (index_by_id [] rows);
  '(by_id, updated_ids) ← lift (apply_edits is_admin pending 0 edits by_id []);
  let stored := od_values by_id in
  save_json (FILES "requests") (VList (map VDict stored)) ;;
  push_updates by_id updated_ids ;;
  notify (ChangesSaved (length updated_ids)) ;;
  ret stored.

(** ** Predicates used by the statements *)

(** A text in which no character is white space. *)
Fixpoint no_space (s : string) : Prop :=
  match s with
  | EmptyString => True
  | String c r => PyStr.is_space c = false ∧ no_space r
  end.

(** [s.get("coaches", [])]. *)
Definition coaches_of (s : row) : pyval := get_or "coaches" (VList []) s.

(** *** Sample data *)

Definition coach_ps1 : user := User "PS1" (VStr "Coach") (VStr "Ana").

Definition school_a : row :=
  [("id", VStr "1565"); ("nome", VStr "Escola A"); ("city", VStr "Recife");
   ("coaches", VList [VStr "PS1"; VStr "PS2"])].

Definition school_b : row :=
  [("id", VStr "1570"); ("nome", VStr "Escola B"); ("city", VStr "Olinda");
   ("coaches", VList [VStr "PS2"])].

(** *** Pure readings of the two normalizers

    What one turn of each loop does to a record, given the text [u] of the
    UUID it would draw, and which records raise the flag [changed]. *)

Definition fill_request (u : string) (r : row) : row :=
  let r := if has "id" r then r else od_set "id" (VStr u) r in
  let r := if has "status" r then r else od_set "status" (VStr "Pending") r in
  if has "ps_number" r then r else od_set "ps_number" (VStr "unknown") r.

Definition request_flagged (r : row) : bool :=
  negb (has "id" r) || negb (has "status" r) || negb (has "ps_number" r).

Definition fill_stock (u : string) (r : row) : row :=
  let r := if has "id" r then r else od_set "id" (VStr u) r in
  let r :=
    match get "quantity" r with
    | None => od_set "quantity" (VInt 0) r
    | Some q =>
        match py_int q with
        | Ok z => od_set "quantity" (VInt z) r
        | Raise _ => od_set "quantity" (VInt 0) r
        end
    end in
  match get "project" r with
  | Some (VStr p) => od_set "project" (VStr (PyStr.upper (PyStr.strip p))) r
  | _ => r
  end.

Definition stock_flagged (r : row) : bool :=
  negb (has "id" r) ||
  match get "quantity" r with
  | None => true
  | Some q => match py_int q with Ok _ => false | Raise _ => true end
  end.

(** The records after a loop that starts with [n] UUIDs already drawn. *)
Fixpoint fill_all (fill : string → row → row) (w : world) (n : nat) (rows : list row)
  : list row :=
  match rows with
  | [] => []
  | r :: rest => fill (uuid_of w n) r :: fill_all fill w (if has "id" r then n else S n) rest
  end.

(** Number of records without an [id] key. *)
Definition missing_ids (rows : list row) : nat :=
  length (List.filter (λ r, negb (has "id" r)) rows).

Definition draw_if (b : bool) (w : world) : world :=
  if b then with_uuid_next (S (uuid_next w)) w else w.

(** The record has the key [id], whatever it holds. *)
Definition has_id (r : row) : Prop := is_Some (get "id" r).

(** The values found under the key [id] in a collection. *)
Definition ids_of (rows : list row) : list pyval := omap (get "id") rows.

(** The identifiers drawn from [uuid.uuid4] between two worlds. *)
Definition drawn (w w' : world) : list pyval :=
  map (λ n, VStr (uuid_of w n)) (seq (uuid_next w) (uuid_next w' - uuid_next w)).

(** Every record has the key [id] and no two records hold the same value
    under it. *)
Definition unique_ids (rows : list row) : Prop :=
  Forall has_id rows ∧ NoDup (ids_of rows).

(** The identifiers the next draws would yield for the records of a
    collection that lack one. *)
Definition fresh_ids (w : world) (rows : list row) : list pyval :=
  map (λ n, VStr (uuid_of w n)) (seq (uuid_next w) (missing_ids rows)).

(** The integer a stock row ends up with. *)
Definition stock_quantity (r : row) : Z :=
  match get "quantity" r with
  | Some q => match py_int q with Ok z => z | Raise _ => 0%Z end
  | None => 0%Z
  end.

(** A stock row after the first and after the second step of a turn. *)
Definition stock_with_id (u : string) (r : row) : row :=
  if has "id" r then r else od_set "id" (VStr u) r.
Definition stock_with_quantity (u : string) (r : row) : row :=
  od_set "quantity" (VInt (stock_quantity r)) (stock_with_id u r).

(** An upper-case trimmed label. *)
Definition upper_trimmed (s : string) : Prop :=
  PyStr.strip s = s ∧ PyStr.upper s = s.

(** A stock row on which the normalizer has nothing left to do. *)
Definition stock_normal (r : row) : Prop :=
  has "id" r = true ∧
  (∃ z, get "quantity" r = Some (VInt z)) ∧
  (∀ p, get "project" r = Some (VStr p) → PyStr.upper (PyStr.strip p) = p).

(** A world without files, remote rows or client. *)
Definition offline_world : world :=
  World ∅ ∅ false [] (λ n, N.of_nat n) 0 [].

Definition legacy_requests : list row :=
  [[("school_id", VStr "1565"); ("material", VStr "Kimono A1"); ("quantity", VInt 2)];
   [("id", VStr "r-1"); ("school_id", VStr "1570"); ("status", VStr "Approved");
    ("ps_number", VStr "PS1")]].

(** Requests and stock rows stored with an [id] field that holds no
    identifier: an empty text, or null.  Every other field is as the
    normalizers leave it. *)
Definition blank_id_requests : list row :=
  [[("id", VStr ""); ("school_id", VStr "1565"); ("material", VStr "Belt");
    ("quantity", VInt 1); ("ps_number", VStr "PS1"); ("status", VStr "Pending")];
   [("id", VStr ""); ("school_id", VStr "1570"); ("material", VStr "Kimono A1");
    ("quantity", VInt 2); ("ps_number", VStr "PS2"); ("status", VStr "Pending")];
   [("id", VNone); ("school_id", VStr "1570"); ("material", VStr "Rashguard");
    ("quantity", VInt 4); ("ps_number", VStr "PS2"); ("status", VStr "Approved")]].

(** A world without a client whose requests file holds these records. *)
Definition blank_id_world : world :=
  World {[ "requests.json" := Json (VList (map VDict blank_id_requests)) ]} ∅ false []
        (λ n, N.of_nat n) 0 [].

Definition blank_id_stock : list row :=
  [[("id", VStr ""); ("school_id", VStr "1565"); ("project", VStr "MOE");
    ("type", VStr "KIMONO"); ("size", VStr "A1"); ("quantity", VInt 3)];
   [("id", VNone); ("school_id", VStr "1570"); ("project", VStr "ESE");
    ("type", VStr "KIMONO"); ("size", VStr "A2"); ("quantity", VInt 5)]].

Definition legacy_stock : list row :=
  [[("school_id", VStr "1565"); ("project", VStr " moe "); ("type", VStr "KIMONO");
    ("size", VStr "A1"); ("quantity", VStr "x")];
   [("id", VStr "s-1"); ("school_id", VStr "1570"); ("project", VStr "ESE")]].

(** The world after [save_json(path, data)]. *)
Definition after_save (path : string) (data : pyval) (w : world) : world :=
  emit (FileWrite path) (with_files (<[path := Json data]> (files w)) w).

(** A stock file whose only row has its identifier, a quantity written as
    text and a project label in lower case with blanks around it. *)
Definition text_stock : list row :=
  [[("id", VStr "s-7"); ("school_id", VStr "1565"); ("project", VStr " moe ");
    ("type", VStr "KIMONO"); ("size", VStr "A1"); ("quantity", VStr "5")]].

Definition text_stock_world : world :=
  World {[ "stock_kimonos.json" := Json (VList (map VDict text_stock)) ]} ∅ false []
        (λ n, N.of_nat n) 0 [].

(** *** Predicates and pure readings for [persist_requests] *)

Definition is_dict (v : pyval) : Prop := ∃ d, v = VDict d.

(** The requests file is absent, unreadable, or holds an array of objects. *)
Definition rows_file (f : option file) : Prop :=
  match f with
  | None | Some Corrupt => True
  | Some (Json (VList l)) => Forall is_dict l
  | Some (Json _) => False
  end.

(** The elements the loop over the stored collection visits. *)
Definition existing_of (f : option file) : list pyval :=
  match f with
  | Some (Json (VList l)) => l
  | _ => []
  end.

(** [str(row.get("id", "")).strip()], the identifier [persist_requests]
    reads off a stored record. *)
Definition row_id_text (r : row) : string :=
  PyStr.strip (py_str (get_or "id" (VStr "") r)).

(** The [id] field is missing or blank. *)
Definition blank_id (r : row) : Prop := row_id_text r = "".

(** A request as the Submit Request section builds it: a trimmed non-empty
    text as [id], a [status], a [ps_number], and an integer quantity if
    any. *)
Definition complete_request (d : row) : Prop :=
  ∃ i, get "id" d = Some (VStr i) ∧ PyStr.strip i = i ∧ i ≠ "" ∧
       has "status" d = true ∧ has "ps_number" d = true ∧
       (get "quantity" d = None ∨ ∃ z, get "quantity" d = Some (VInt z)).

(** The identifier and item of one record, and the number of UUIDs drawn
    after it, when [n] were drawn before it from the source [e]. *)
Definition next_item (e : nat → N) (n : nat) (rec : pyval) : string * row * nat :=
  let item := as_dict rec in
  let g := given_id item in
  if truthy (VStr g) then (g, item_with_id g item, n)
  else let u := uuid_str (uuid4_int (e n)) in (u, item_with_id u item, S n).

Fixpoint merge_pure (e : nat → N) (n : nat) (records : list pyval)
    (by_id : list (string * row)) (payload : list row)
  : list (string * row) * list row * nat :=
  match records with
  | [] => (by_id, payload, n)
  | rec :: rest =>
      let '(rid, item, n') := next_item e n rec in
      merge_pure e n' rest (od_set rid item by_id) (payload ++ [project_get request_fields item])
  end.

(** A request as Submit Request builds it, and a world whose client exists
    while the remote store is unreachable. *)
Definition new_request : row :=
  [("id", VStr "7d9f2c1e-0000-4000-8000-00000000abcd"); ("school_id", VStr "1565");
   ("category", VStr "Kimono"); ("material", VStr "Kimono A1"); ("quantity", VInt 2);
   ("date", VStr "2025-11-09 10:00:00"); ("ps_number", VStr "PS1");
   ("status", VStr "Pending")].

Definition stored_requests : list row :=
  [[("id", VStr "r-1"); ("school_id", VStr "1570"); ("status", VStr "Approved");
    ("ps_number", VStr "PS2")];
   [("school_id", VStr "1570"); ("material", VStr "Belt"); ("status", VStr "Pending")];
   [("id", VStr "  "); ("school_id", VStr "1565"); ("status", VStr "Pending")]].

Definition unreachable_world : world :=
  World {[ "requests.json" := Json (VList (map VDict stored_requests)) ]} ∅ true [true]
        (λ n, N.of_nat n) 0 [].

(** A request stored with a null [id], and a world without a client whose
    requests file holds it. *)
Definition null_id_request : row :=
  [("id", VNone); ("school_id", VStr "1570"); ("material", VStr "Belt");
   ("quantity", VInt 1); ("ps_number", VStr "PS2"); ("status", VStr "Pending")].

Definition null_id_world : world :=
  World {[ "requests.json" := Json (VList [VDict null_id_request]) ]} ∅ false []
        (λ n, N.of_nat n) 0 [].

(** *** Relating the world before and after a computation *)

(** [m] takes every world to one related to it by [R], whether it returns
    or raises. *)
Definition keeps {A} (R : world → world → Prop) (m : M A) : Prop :=
  ∀ w, R w (snd (m w)).

(** The destructive clear of a remote table, as it shows in the trace. *)
Definition is_clear (e : event) : Prop :=
  ∃ table key ok, e = Remote (OpDeleteNeq table key) ok.

(** No clear was executed between [w] and [w']. *)
Definition no_new_clear (w w' : world) : Prop :=
  ∀ e, is_clear e → e ∈ trace w' → e ∈ trace w.

(** A user file next to a remote table that holds another user, with a
    remote store whose first call fails. *)
Definition flaky_world : world :=
  World {[ "users.json" := Json (VList [VDict [("ps_number", VStr "PS5");
                                                 ("password", VStr "pw5");
                                                 ("credential", VStr "Coach");
                                                 ("name", VStr "Bia")]]) ]}
        {[ "users" := [[("ps_number", VStr "PS9"); ("password", VStr "pw9");
                        ("credential", VStr "Admin"); ("name", VStr "Root")]] ]}
        true [true] (λ n, N.of_nat n) 0 [].

(** No file became unreadable between [w] and [w']. *)
Definition no_new_corrupt (w w' : world) : Prop :=
  ∀ path, files w' !! path = Some Corrupt → files w !! path = Some Corrupt.

(** [m] returns in every world. *)
Definition always_ok {A} (m : M A) : Prop := ∀ w, ∃ a, fst (m w) = Ok a.

(** The local files of the tables can all be parsed (or are absent). *)
Definition files_parse (w : world) : Prop :=
  ∀ table filename, (table, filename) ∈ TABLES → files w !! filename ≠ Some Corrupt.

(** A schools file next to a remote table schools that already has a row. *)
Definition seeded_world : world :=
  World {[ "schools.json" := Json (VList [VDict school_a; VDict school_b]) ]}
        {[ "schools" := [school_a] ]}
        true [] (λ n, N.of_nat n) 0 [].

(** An unreadable users file next to a good schools file; the remote store
    is empty and reachable. *)
Definition broken_users_world : world :=
  World {[ "users.json" := Corrupt;
           "schools.json" := Json (VList [VDict school_a; VDict school_b]) ]}
        ∅ true [] (λ n, N.of_nat n) 0 [].

(** The local files are the same in [w] and [w']. *)
Definition same_files (w w' : world) : Prop := files w' = files w.

(** *** Sample data for Manage Requests *)

Definition pending_twin : row :=
  [("id", VStr "r-1"); ("school_id", VStr "1565"); ("quantity", VInt 1);
   ("ps_number", VStr "PS1"); ("status", VStr "Pending")].

Definition approved_twin : row :=
  [("id", VStr "r-1"); ("school_id", VStr "1565"); ("quantity", VInt 2);
   ("ps_number", VStr "PS2"); ("status", VStr "Approved")].

Definition pending_request : row :=
  [("id", VStr "r-2"); ("school_id", VStr "1565"); ("quantity", VInt 1);
   ("ps_number", VStr "PS1"); ("status", VStr "Pending")].

Definition approved_request : row :=
  [("id", VStr "r-3"); ("school_id", VStr "1565"); ("quantity", VInt 2);
   ("ps_number", VStr "PS2"); ("status", VStr "Approved")].

(** The grid with the quantity of its only row changed to 9. *)
Definition quantity_edit : list row := [[("quantity", VInt 9)]].

(** *** Round trip *)

(** No two rows of a payload carry the same value of the conflict key. *)
Definition distinct_keys (on_conflict : option string) (rows : list row) : Prop :=
  match on_conflict with
  | None => True
  | Some k =>
      ∀ i j ri rj v, i < j → rows !! i = Some ri → rows !! j = Some rj →
                     get k rj = Some v → same_key k v ri = false
  end.

(** The fields a table accepts. *)
Definition fields_of (table : string) : list string := default [] (allowed_fields table).

(** Whether the upsert of [r'] replaces a stored row [r]: both carry the
    same value of the conflict key. *)
Definition replaces (on_conflict : option string) (r' r : row) : bool :=
  match on_conflict with
  | Some k => match get k r' with Some v => same_key k v r | None => false end
  | None => false
  end.

(** What a successful clear leaves of the rows of a table: the rows whose
    key column is absent, null or the empty text; every row when the replace
    branch has no key for the table. *)
Definition cleared_table (table : string) (t : list row) : list row :=
  match clear_key table with
  | Some key =>
      List.filter (λ r, match get key r with
                        | None | Some VNone | Some (VStr "") => true
                        | Some _ => false
                        end) t
  | None => t
  end.

(** The rows of one remote table are the same in [w] and [w']. *)
Definition same_rows (table : string) (w w' : world) : Prop :=
  table_rows table w' = table_rows table w.

(** A schools file whose only record has no city and no coaches, and a
    field the table does not accept; the remote store is empty and
    reachable. *)
Definition partial_school : row :=
  [("id", VStr "1565"); ("nome", VStr "Escola A"); ("phone", VStr "555")].

Definition roundtrip_world : world :=
  World {[ "schools.json" := Json (VList [VDict partial_school]) ]} ∅ true []
        (λ n, N.of_nat n) 0 [].

(** A schools file that holds one school while the remote table schools
    holds another; the remote store answers every call. *)
Definition two_sided_world : world :=
  World {[ "schools.json" := Json (VList [VDict school_a]) ]}
        {[ "schools" := [school_b] ]}
        true [] (λ n, N.of_nat n) 0 [].

(** A requests file that holds an object instead of an array, and a
    school whose [coaches] field is null. *)
Definition object_file_world : world :=
  World {[ "requests.json" := Json (VDict [("a", VInt 1)]) ]} ∅ true []
        (λ n, N.of_nat n) 0 [].

Definition school_without_coaches : row :=
  [("id", VStr "1580"); ("nome", VStr "Escola C"); ("city", VNone); ("coaches", VNone)].

(** A school whose [coaches] field was stored as a comma-separated text,
    the form the Admin Schools section shows for editing and expects it may
    find stored. *)
Definition school_text_coaches : row :=
  [("id", VStr "1590"); ("nome", VStr "Escola D"); ("city", VStr "Recife");
   ("coaches", VStr "PS10,PS2")].

(** * Further code of app.py and supa.py *)

(** ** More about [persist_requests] *)

(** The identifiers under which a batch is stored, in order. *)
Fixpoint batch_ids (e : nat → N) (n : nat) (records : list pyval) : list string :=
  match records with
  | [] => []
  | rec :: rest =>
      let '(rid, _, n') := next_item e n rec in
      rid :: batch_ids e n' rest
  end.

(** A dict of records in which every record is filed under the identifier
    [persist_requests] reads off it, no identifier being blank or filed
    twice. *)
Definition keyed (by_id : list (string * row)) : Prop :=
  NoDup (map fst by_id) ∧
  Forall (λ kv, row_id_text (snd kv) = fst kv ∧ fst kv ≠ "") by_id.

(** The record brings its identifier: [str(item.get("id") or "").strip()]
    is not empty, so no UUID is drawn for it. *)
Definition carries_id (rec : pyval) : Prop := given_id (as_dict rec) ≠ "".

(** The identifier and the item of a record that brings its identifier. *)
Definition stored_item (rec : pyval) : string * row :=
  (given_id (as_dict rec), item_with_id (given_id (as_dict rec)) (as_dict rec)).

(** [by_id] after [by_id[rid] = item] for each pair of a list. *)
Definition file_items (by_id : list (string * row)) (items : list (string * row))
  : list (string * row) :=
  foldl (λ b kv, od_set (fst kv) (snd kv) b) by_id items.

(** The value last assigned to the key [k] by a list of assignments. *)
Fixpoint last_set (k : string) (items : list (string * row)) : option row :=
  match items with
  | [] => None
  | (k', v) :: rest =>
      match last_set k rest with
      | Some v' => Some v'
      | None => if decide (k = k') then Some v else None
      end
  end.

(** Two complete requests, each with its own identifier. *)
Definition second_request : row :=
  [("id", VStr "9a000000-0000-4000-8000-00000000beef"); ("school_id", VStr "1570");
   ("category", VStr "Belt"); ("material", VStr "Belt White"); ("quantity", VInt 5);
   ("date", VStr "2025-11-09 10:05:00"); ("ps_number", VStr "PS1");
   ("status", VStr "Pending")].

Definition kept_request : row :=
  [("id", VStr "r-1"); ("school_id", VStr "1570"); ("status", VStr "Approved");
   ("ps_number", VStr "PS2")].

(** ** Section 2 of app.py: bootstrap defaults *)

(** [ensure_json]: the file is written only when the path does not exist. *)
Definition ensure_json (path : string) (default_content : pyval) : M unit :=
  present ← gets (path_exists path);
  if present : bool then ret tt else save_json path default_content.

(** The user written into a missing users file. *)
Definition default_admin : row :=
  [("ps_number", VStr "PS1724"); ("password", VStr "PS1724");
   ("credential", VStr "Admin"); ("name", VStr "Administrator")].

(** The path of the legacy coaches file. *)
Definition coaches_path : string := "coaches.json".

(** The value stored for a user [u] in the dict comprehension of
    [migrate_coaches_into_users]. *)
Definition user_entry (u : row) : row :=
  [("ps_number", VStr (PyStr.strip (py_str (get_or "ps_number" (VStr "") u))));
   ("password", VStr (py_str (get_or "password" (VStr "") u)));
   ("credential", py_or (get_or "credential" (VStr "Coach") u) (VStr "Coach"));
   ("name", VStr (py_str (get_or "name" (VStr "") u)))].

(** [{ps(u): entry(u) for u in users if ps(u)}]; an element that is not a
    dict has no [get]. *)
Fixpoint index_users (by_ps : list (string * row)) (users : list pyval)
  : res (list (string * row)) :=
  match users with
  | [] => Ok by_ps
  | VDict u :: rest =>
      let ps := PyStr.strip (py_str (get_or "ps_number" (VStr "") u)) in
      index_users (if truthy (VStr ps) then od_set ps (user_entry u) by_ps else by_ps) rest
  | _ :: _ => Raise AttributeError
  end.

(** The record [merged] built for a coach [c] with the identifier [ps],
    [curr] being [by_ps.get(ps, {})]. *)
Definition merged_coach (ps : string) (curr c : row) : row :=
  [("ps_number", VStr ps);
   ("password", py_or (get_or "password" VNone curr)
                  (VStr (py_str (get_or "password" (VStr ps) c))));
   ("credential", py_or (py_or (get_or "credential" VNone curr)
                           (get_or "credential" (VStr "Coach") c))
                    (VStr "Coach"));
   ("name", py_or (get_or "name" VNone curr) (VStr (py_str (get_or "name" (VStr "") c))))].

(** The loop [for c in coaches]. *)
Fixpoint merge_coaches (by_ps : list (string * row)) (coaches : list pyval)
  : res (list (string * row)) :=
  match coaches with
  | [] => Ok by_ps
  | VDict c :: rest =>
      let ps := PyStr.strip (py_str (get_or "ps_number" (VStr "") c)) in
      if truthy (VStr ps)
      then merge_coaches (od_set ps (merged_coach ps (default [] (od_get ps by_ps)) c) by_ps) rest
      else merge_coaches by_ps rest
  | _ :: _ => Raise AttributeError
  end.

(** The body of [migrate_coaches_into_users], the call [os.remove] being
    taken as [remove]: the removal of the legacy file is the one step whose
    failure the function provides for on its own ([try ... except: pass]
    around it). *)
Definition migrate_coaches_into_users_by (remove : string → M unit) : M unit :=
  present ← gets (path_exists coaches_path);
  if negb present then ret tt
  else
    try_except
      (users ← load_json (FILES "users");
       coaches ← load_json coaches_path;
       users ← lift (py_iter (py_or users (VList [])));
       by_ps ← lift (index_users [] users);
       coaches ← lift (py_iter (py_or coaches (VList [])));
       by_ps ← lift (merge_coaches by_ps coaches);
       save_json (FILES "users") (VList (map VDict (od_values by_ps))) ;;
       try_except (remove coaches_path) (λ _, ret tt))
      (λ _, ret tt).

Definition migrate_coaches_into_users : M unit :=
  migrate_coaches_into_users_by os_remove.

(** What a call of [os.remove] may do: remove the file, or raise and leave
    everything as it is. *)
Definition removal (remove : string → M unit) : Prop :=
  ∀ path w, remove path w = os_remove path w ∨ ∃ e, remove path w = (Raise e, w).

(** A removal that the operating system refuses. *)
Definition refused_removal (path : string) : M unit := raise OSError.

(** The statements run at the start of every run of the script: the five
    [ensure_json] calls and the call of [migrate_coaches_into_users]. *)
Definition bootstrap_defaults : M unit :=
  ensure_json (FILES "users") (VList [VDict default_admin]) ;;
  ensure_json (FILES "schools") (VList []) ;;
  ensure_json (FILES "materials") (VList []) ;;
  ensure_json (FILES "requests") (VList []) ;;
  ensure_json (FILES "stock") (VList []) ;;
  migrate_coaches_into_users.

(** ** Section 3 of app.py: authentication *)

(** The loop of [authenticate] over the stored users.  The returned
    [ps_number] is [u["ps_number"]], which the test has found equal to the
    text given. *)
Fixpoint find_user (ps password : string) (users : list pyval) : res (option user) :=
  match users with
  | [] => Ok None
  | VDict u :: rest =>
      if eq_str (get_or "ps_number" VNone u) ps
         && String.eqb (py_str (get_or "password" (VStr "") u)) password
      then Ok (Some (User ps (get_or "credential" (VStr "Coach") u)
                       (get_or "name" (VStr ps) u)))
      else find_user ps password rest
  | _ :: _ => Raise AttributeError
  end.

Definition authenticate (ps password : string) : M (option user) :=
  loaded ← load_json (FILES "users");
  users ← lift (py_iter (py_or loaded (VList [])));
  lift (find_user ps password users).

(** The call made by [require_login] once the form is submitted. *)
Definition require_login (ps pw : string) : M (option user) :=
  authenticate (PyStr.strip ps) (PyStr.strip pw).

(** ** Section 6 of app.py: Admin Users *)

Definition is_digit (c : ascii) : bool := bool_decide (is_Some (PyStr.digit_value c)).

(** What may follow [PS] for the pattern to match: one or more digits, then
    the end of the text or one line feed that ends the text. *)
Fixpoint digits_to_end (after_digit : bool) (s : string) : bool :=
  match s with
  | EmptyString => after_digit
  | String c r =>
      if is_digit c then digits_to_end true r
      else after_digit && bool_decide (c = ascii_of_N 10) && bool_decide (r = "")
  end.

(** [re.match(r"^PS\d+$", s)], on ASCII text. *)
Definition is_ps_number (s : string) : bool :=
  match s with
  | String "P" (String "S" r) => digits_to_end false r
  | _ => false
  end.

(** The lists and sets filled by the loop of Save User Changes. *)
Record users_scan := UsersScan {
  shaped_users : list row;
  invalid_rows : list string;
  duplicated : gset string;
  seen : gset string
}.

(** [cred = r.get("credential", "Coach") or "Coach"], replaced by
    ["Coach"] when it is neither ["Coach"] nor ["Admin"]. *)
Definition user_credential (r : row) : pyval :=
  let cred := py_or (get_or "credential" (VStr "Coach") r) (VStr "Coach") in
  if eq_str cred "Coach" || eq_str cred "Admin" then cred else VStr "Coach".

(** One turn of [for r in rows]. *)
Definition scan_user (s : users_scan) (r : row) : users_scan :=
  let raw_ps := PyStr.upper (PyStr.strip (py_str (get_or "ps_number" (VStr "") r))) in
  if negb (truthy (VStr raw_ps)) then s
  else if negb (is_ps_number raw_ps) then
    UsersScan (shaped_users s) (invalid_rows s ++ [raw_ps]) (duplicated s) (seen s)
  else if bool_decide (raw_ps ∈ seen s) then
    UsersScan (shaped_users s) (invalid_rows s) ({[raw_ps]} ∪ duplicated s) (seen s)
  else
    UsersScan
      (shaped_users s ++
         [[("ps_number", VStr raw_ps);
           ("password", VStr (py_str (get_or "password" (VStr "") r)));
           ("credential", user_credential r);
           ("name", VStr (py_str (get_or "name" (VStr "") r)))]])
      (invalid_rows s) (duplicated s) ({[raw_ps]} ∪ seen s).

(** What a save handler reports in its summary: it stopped on invalid
    rows before writing anything, or it stored [saved] records, of which
    [synced] reached the remote store. *)
Inductive save_report :=
| Stopped (errors : nat)
| Stored (saved synced : nat) (error : option exn).

(** The handler of the button Save User Changes; [rows] are the records of
    the grid.  The reports of success are the value returned. *)
Definition save_users (rows : list row) : M save_report :=
  let s := foldl scan_user (UsersScan [] [] ∅ ∅) rows in
  let shaped := shaped_users s in
  if negb (bool_decide (invalid_rows s = [])) || negb (bool_decide (duplicated s = ∅)) then
    ret (Stopped (length (invalid_rows s) + size (duplicated s)))
  else
    save_json (FILES "users") (VList (map VDict shaped)) ;;
    configured ← gets supabase;
    if (configured : bool) && negb (bool_decide (length shaped = 0)) then
      try_except
        (remote_upsert "users" shaped (Some "ps_number") ;;
         try_except (remote_upsert "coaches" (mirror_rows shaped) (Some "ps_number"))
           (λ me, notify MirrorSkipped) ;;
         ret (Stored (length shaped) (length shaped) None))
        (λ e, notify SavedNotSynced ;; ret (Stored (length shaped) 0 (Some e)))
    else ret (Stored (length shaped) 0 None).

(** A stored user: the four fields, [ps_number], [password] and [name]
    being texts. *)
Definition user_row (ps pw : string) (cred : pyval) (name : string) : row :=
  [("ps_number", VStr ps); ("password", VStr pw); ("credential", cred); ("name", VStr name)].

(** The users collection as Save User Changes leaves it. *)
Definition users_table (users : list row) : Prop :=
  NoDup (map (get_or "ps_number" VNone) users) ∧
  Forall (λ u, ∃ ps pw cred name,
            u = user_row ps pw (VStr cred) name ∧
            is_ps_number ps = true ∧ PyStr.upper (PyStr.strip ps) = ps ∧
            (cred = "Coach" ∨ cred = "Admin")) users.

(** No file was created between [w] and [w']. *)
Definition no_new_file (w w' : world) : Prop :=
  ∀ path, files w !! path = None → files w' !! path = None.

(** The loop of Save User Changes keeps its lists in step: the accepted
    rows form a users collection and [seen] holds their identifiers. *)
Definition scan_ok (s : users_scan) : Prop :=
  users_table (shaped_users s) ∧
  ∀ ps, ps ∈ seen s ↔ VStr ps ∈ map (get_or "ps_number" VNone) (shaped_users s).

(** A world without a client whose users file holds the default user. *)
Definition default_users_world : world :=
  with_files {[ "users.json" := Json (VList [VDict default_admin]) ]} offline_world.

(** The grid of Admin Users with a second user typed in lower case and a
    blank row. *)
Definition users_grid : list row :=
  [default_admin;
   [("ps_number", VStr " ps77 "); ("password", VStr "secret"); ("credential", VNone);
    ("name", VStr "Caio")];
   [("ps_number", VStr ""); ("password", VStr ""); ("credential", VStr "Coach");
    ("name", VStr "")]].

(** A users file with the default user and a coach, next to an empty
    remote store that answers every call. *)
Definition coach_account : row := user_row "PS5" "pw5" (VStr "Coach") "Bia".

Definition first_sync_world : world :=
  World {[ "users.json" := Json (VList [VDict default_admin; VDict coach_account]) ]}
        ∅ true [] (λ n, N.of_nat n) 0 [].

(** A dict of users in which every record is filed under its own
    [ps_number], a trimmed text that is not empty. *)
Definition ps_keyed (by_ps : list (string * row)) : Prop :=
  NoDup (map fst by_ps) ∧
  Forall (λ kv, get "ps_number" (snd kv) = Some (VStr (fst kv)) ∧ fst kv ≠ "") by_ps.

(** The identifier under which the migration files a record. *)
Definition ps_text (r : row) : string :=
  PyStr.strip (py_str (get_or "ps_number" (VStr "") r)).

(** A users file and a legacy coaches file: PS5 is in both, PS6 is a coach
    without a password. *)
Definition legacy_world : world :=
  World {[ "users.json" := Json (VList [VDict default_admin; VDict coach_account]);
           "coaches.json" := Json (VList [VDict [("ps_number", VStr "PS5");
                                                  ("password", VStr "other")];
                                          VDict [("ps_number", VStr "PS6")]]) ]}
        ∅ false [] (λ n, N.of_nat n) 0 [].

(** ** Section 4 of app.py: load_requests_data *)

(** The body of the loop of [ensure_request_id_and_defaults] on an element
    that is not a dict.  ["k" not in r] is a substring test on a text and a
    membership test on a list, and raises on other values; where the key is
    found missing, the assignment that follows raises, for [id] after the
    UUID was drawn. *)
Definition check_defaults (r : pyval) : M unit :=
  b ← lift (py_in_str "id" r);
  (if b : bool then ret tt else uuid4 ;; raise TypeError) ;;
  b ← lift (py_in_str "status" r);
  (if b : bool then ret tt else raise TypeError) ;;
  b ← lift (py_in_str "ps_number" r);
  if b : bool then ret tt else raise TypeError.

Definition request_defaults_any (r : pyval) (changed : bool) : M (pyval * bool) :=
  match r with
  | VDict d => '(d', c) ← request_defaults d changed; ret (VDict d', c)
  | _ => check_defaults r ;; ret (r, changed)
  end.

Fixpoint for_values (body : pyval → bool → M (pyval * bool)) (rows : list pyval)
    (changed : bool) : M (list pyval * bool) :=
  match rows with
  | [] => ret ([], changed)
  | r :: rest =>
      '(r', c) ← body r changed;
      '(rest', c') ← for_values body rest c;
      ret (r' :: rest', c')
  end.

(** [ensure_request_id_and_defaults] on whatever the requests file holds:
    a list is updated in place, any other container is returned as it
    is. *)
Definition ensure_request_value (rows : pyval) : M pyval :=
  elements ← lift (py_iter rows);
  '(elements, changed) ← for_values request_defaults_any elements false;
  let rows := match rows with VList _ => VList elements | _ => rows end in
  (if changed : bool then save_json (FILES "requests") rows else ret tt) ;;
  ret rows.

Inductive data_source :=
| SourceLocal
| SourceSupabase.

(** Returns [rows], [source] and [error]. *)
Definition load_requests_data : M (pyval * data_source * option exn) :=
  configured ← gets supabase;
  '(rows, source, error) ←
    (if configured : bool then
       try_except
         (rows ← remote_select "requests" 100001;
          save_json (FILES "requests") (VList (map VDict rows)) ;;
          ret (rows, SourceSupabase, None))
         (λ exc, ret ([], SourceLocal, Some exc))
     else ret ([], SourceLocal, None));
  '(rows, source) ←
    (if bool_decide (length rows = 0)
     then loaded ← load_json (FILES "requests"); ret (py_or loaded (VList []), SourceLocal)
     else ret (VList (map VDict rows), source));
  rows ← ensure_request_value rows;
  ret (rows, source, error).

(** A requests file with a record that was stored locally only, next to a
    remote store that answers and whose requests table is empty. *)
Definition unsynced_world : world :=
  World {[ "requests.json" := Json (VList [VDict new_request]) ]} ∅ true []
        (λ n, N.of_nat n) 0 [].

(** ** Section 6 of app.py: what a user sees *)



(** The stock rows shown by Kimono Stock: [visible_schools] is what
    [list_user_schools] returned, [selected_school_id] the identifier read
    off the school chosen, empty when none is. *)
Definition visible_stock (u : user) (visible_schools : list row) (selected_school_id : string)
    (stock_rows : list row) : list row :=
  let chosen (r : row) :=
    String.eqb (py_str (get_or "school_id" VNone r)) selected_school_id in
  if eq_str (credential u) "Admin" then
    if negb (truthy (VStr selected_school_id)) then stock_rows
    else List.filter chosen stock_rows
  else
    let allowed_ids := map (λ s, py_str (get_or "id" VNone s)) visible_schools in
    let filtered_rows :=
      List.filter (λ r, bool_decide (py_str (get_or "school_id" VNone r) ∈ allowed_ids))
        stock_rows in
    if truthy (VStr selected_school_id) then List.filter chosen filtered_rows
    else filtered_rows.


(** Two requests, of the schools A and B. *)
Definition request_of_a : row :=
  [("id", VStr "q-1"); ("school_id", VInt 1565); ("status", VStr "Pending");
   ("ps_number", VStr "PS9")].

Definition request_of_b : row :=
  [("id", VStr "q-2"); ("school_id", VStr "1570"); ("status", VStr "Pending");
   ("ps_number", VStr "PS9")].

(** ** Manage Requests: Update Status for Selected Requests *)

(** [{r.get("id"): r for r in rows if r.get("id")}]. *)
Fixpoint index_by_truthy_id (by_id : list (hkey * row)) (rows : list row)
  : res (list (hkey * row)) :=
  match rows with
  | [] => Ok by_id
  | r :: rest =>
      let rid := get_or "id" VNone r in
      if truthy rid then
        match py_hash rid with
        | Raise e => Raise e
        | Ok k => index_by_truthy_id (od_set k r by_id) rest
        end
      else index_by_truthy_id by_id rest
  end.

(** [for idx in selected_indices], the indices being labels of the grid,
    which are not negative; returns [by_id] and [updated_ids]. *)
Fixpoint mark_selected (new_status : string) (pending : list row) (selected_indices : list nat)
    (by_id : list (hkey * row)) (updated_ids : list hkey)
  : res (list (hkey * row) * list hkey) :=
  match selected_indices with
  | [] => Ok (by_id, updated_ids)
  | idx :: rest =>
      match pending !! idx with
      | None => mark_selected new_status pending rest by_id updated_ids
      | Some p =>
          let rid := get_or "id" VNone p in
          if truthy rid then
            match py_hash rid with
            | Raise e => Raise e
            | Ok k =>
                match od_get k by_id with
                | Some r =>
                    mark_selected new_status pending rest
                      (od_set k (od_set "status" (VStr new_status) r) by_id)
                      (updated_ids ++ [k])
                | None => mark_selected new_status pending rest by_id updated_ids
                end
            end
          else mark_selected new_status pending rest by_id updated_ids
      end
  end.

(** [for r in rows: updated_rows.append(by_id[rid] if rid in by_id else r)]. *)
Fixpoint updated_rows (by_id : list (hkey * row)) (rows : list row) : res (list row) :=
  match rows with
  | [] => Ok []
  | r :: rest =>
      match py_hash (get_or "id" VNone r) with
      | Raise e => Raise e
      | Ok k =>
          match updated_rows by_id rest with
          | Raise e => Raise e
          | Ok l => Ok (default r (od_get k by_id) :: l)
          end
      end
  end.

(** The row sent for an updated record; the keys are taken in the order
    of the declaration of the fields. *)
Definition batch_shape (record : row) : row :=
  let shaped := project_get request_fields record in
  match get "quantity" shaped with
  | Some VNone | None => shaped
  | Some _ => coerce_quantity shaped
  end.

Definition batch_payload (by_id : list (hkey * row)) (updated_ids : list hkey) : list row :=
  omap (λ rid, match od_get rid by_id with
               | Some record => if truthy (VDict record) then Some (batch_shape record) else None
               | None => None
               end) updated_ids.

(** What the handler reports. *)
Inductive batch_report :=
| NothingSelected
| NoValidRequests
| StatusUpdated (updated synced : nat) (error : option exn).

(** The handler of the button Update Status for Selected Requests: [rows]
    is the loaded collection, [pending] the editable set shown in the grid,
    [selected_indices] the labels of the rows ticked. *)
Definition update_status_for_selected (new_status : string) (rows pending : list row)
    (selected_indices : list nat) : M batch_report :=
  if bool_decide (length selected_indices = 0) then ret NothingSelected
  else
    by_id ← lift (index_by_truthy_id [] rows);
    '(by_id, updated_ids) ← lift (mark_selected new_status pending selected_indices by_id []);
    if bool_decide (length updated_ids = 0) then ret NoValidRequests
    else
      stored ← lift (updated_rows by_id rows);
      save_json (FILES "requests") (VList (map VDict stored)) ;;
      configured ← gets supabase;
      '(synced_count, error) ←
        (if configured : bool then
           try_except
             (let payload := batch_payload by_id updated_ids in
              if bool_decide (length payload = 0) then ret (0, None)
              else remote_upsert "requests" payload (Some "id") ;;
                   ret (length payload, None))
             (λ e, ret (0, Some e))
         else ret (0, None));
      ret (StatusUpdated (length updated_ids) synced_count error).

(** The key under which a record is filed by its identifier, if the
    identifier is truthy and hashable. *)
Definition truthy_key (r : row) : option hkey :=
  let rid := get_or "id" VNone r in
  if truthy rid then
    match py_hash rid with
    | Ok k => Some k
    | Raise _ => None
    end
  else None.

(** The identifier of the record can be hashed: it is not a list or a
    dict. *)
Definition hashable_id (r : row) : Prop := ∃ k, py_hash (get_or "id" VNone r) = Ok k.

(** The keys of the rows ticked in the grid. *)
Definition selected_keys (pending : list row) (selected_indices : list nat) : list hkey :=
  omap (λ idx, pending !! idx ≫= truthy_key) selected_indices.

(** A record with its status set when its key is among [keys]. *)
Definition status_set (new_status : string) (keys : list hkey) (r : row) : row :=
  match truthy_key r with
  | Some k => if bool_decide (k ∈ keys) then od_set "status" (VStr new_status) r else r
  | None => r
  end.

(** The same on an entry of [by_id]. *)
Definition status_entry (new_status : string) (keys : list hkey) (kr : hkey * row)
  : hkey * row :=
  (fst kr, if bool_decide (fst kr ∈ keys) then od_set "status" (VStr new_status) (snd kr)
           else snd kr).

(** The entry of [by_id] for a record. *)
Definition id_entry (r : row) : option (hkey * row) := (λ k, (k, r)) <$> truthy_key r.

(** ** Section 6 of app.py: Admin Schools *)

(** [s.split(sep)] for a separator of one character. *)
Fixpoint split_on (sep : ascii) (s : string) : list string :=
  match s with
  | EmptyString => [EmptyString]
  | String c r =>
      if decide (c = sep) then EmptyString :: split_on sep r
      else match split_on sep r with
           | piece :: pieces => String c piece :: pieces
           | [] => [String c EmptyString]
           end
  end.

(** The texts among [l] that are not empty. *)
Definition non_empty (l : list string) : list string :=
  List.filter (λ x, truthy (VStr x)) l.

(** The list assigned to [r["coaches"]] at the start of a turn of the
    loop of Save Changes. *)
Definition coaches_list (r : row) : list string :=
  match get "coaches" r with
  | Some (VStr s) => non_empty (map PyStr.strip (split_on "," s))
  | Some (VList l) => non_empty (map (λ x, PyStr.strip (py_str x)) l)
  | _ => []
  end.

(** The entries of [raw_list] that match the pattern once trimmed and put
    in upper case, and those that do not. *)
Definition valid_ps (raw_list : list string) : list string :=
  List.filter is_ps_number (map (λ ps, PyStr.upper (PyStr.strip ps)) raw_list).

Definition invalid_ps (raw_list : list string) : list string :=
  List.filter (λ ps, negb (is_ps_number (PyStr.upper (PyStr.strip ps)))) raw_list.

(** [str(r.get("id", "")).strip()]. *)
Definition school_sid (r : row) : string := PyStr.strip (py_str (get_or "id" (VStr "") r)).

(** One turn of the loop: the record as it is left. *)
Definition school_record (r : row) : row :=
  let raw_list := coaches_list r in
  let r := od_set "coaches" (VList (map VStr raw_list)) r in
  if negb (truthy (VStr (school_sid r))) then r
  else od_set "coaches" (VList (map VStr (valid_ps raw_list))) r.

(** The 1-based positions of the records without identifier. *)
Fixpoint invalid_id_rows (idx : nat) (records : list row) : list nat :=
  match records with
  | [] => []
  | r :: rest =>
      if negb (truthy (VStr (school_sid r))) then S idx :: invalid_id_rows (S idx) rest
      else invalid_id_rows (S idx) rest
  end.

(** The warnings of the loop: for each school with entries removed, its
    identifier and the entries. *)
Definition school_warnings (records : list row) : list (string * list string) :=
  omap (λ r, if truthy (VStr (school_sid r)) && negb (bool_decide (invalid_ps (coaches_list r) = []))
             then Some (school_sid r, invalid_ps (coaches_list r)) else None) records.

(** The handler of the button Save Changes of Admin Schools; [records]
    are the records of the grid.  Returns the summary and the warnings. *)
Definition save_schools (records : list row) : M (save_report * list (string * list string)) :=
  let invalid := invalid_id_rows 0 records in
  if negb (bool_decide (length invalid = 0)) then ret (Stopped (length invalid), [])
  else
    let records' := map school_record records in
    save_json (FILES "schools") (VList (map VDict records')) ;;
    configured ← gets supabase;
    report ←
      (if (configured : bool) && negb (bool_decide (length records' = 0)) then
         try_except
           (remote_upsert "schools"
              (map (project_get ["id"; "nome"; "city"; "coaches"]) records') (Some "id") ;;
            ret (Stored (length records') (length records') None))
           (λ e, notify SavedNotSynced ;; ret (Stored (length records') 0 (Some e)))
       else ret (Stored (length records') 0 None));
    ret (report, school_warnings records).

(** A school as Save Changes stores it: [coaches] is a list of texts of
    the form PS followed by digits. *)
Definition stored_school (s : row) : Prop :=
  ∃ l, get "coaches" s = Some (VList (map VStr l)) ∧
       Forall (λ ps, is_ps_number ps = true) l.

(** The grid of Admin Schools with the coaches typed as text. *)
Definition schools_grid : list row :=
  [[("id", VStr "1565"); ("nome", VStr "Escola A"); ("city", VStr "Recife");
    ("coaches", VStr "ps1, PS2 ,x9,")];
   [("id", VInt 1570); ("nome", VStr "Escola B"); ("city", VStr ""); ("coaches", VStr "")]].

(** ** Section 6 of app.py: Kimono Stock, Save Stock Changes *)

(** The record as the validation loop leaves it: the quantity made an
    integer when [int] accepts it, the project label in upper case. *)
Definition stock_checked (r : row) : row :=
  let r := match py_int (py_or (get_or "quantity" VNone r) (VInt 0)) with
           | Ok z => od_set "quantity" (VInt z) r
           | Raise _ => r
           end in
  od_set "project" (VStr (PyStr.upper (py_str (py_or (get_or "project" VNone r) (VStr ""))))) r.

(** The number of messages the validation loop adds for a record. *)
Definition stock_invalid (r : row) : nat :=
  (if truthy (VStr (PyStr.strip (py_str (get_or "school_id" (VStr "") r)))) then 0 else 1) +
  (match py_int (py_or (get_or "quantity" VNone r) (VInt 0)) with
   | Ok _ => 0
   | Raise _ => 1
   end).

(** [{r.get("id"): r for r in existing if r.get("id")}] on the elements of
    the stock file. *)
Fixpoint index_stock (by_id : list (hkey * row)) (existing : list pyval)
  : res (list (hkey * row)) :=
  match existing with
  | [] => Ok by_id
  | VDict r :: rest =>
      let rid := get_or "id" VNone r in
      if truthy rid then
        match py_hash rid with
        | Raise e => Raise e
        | Ok k => index_stock (od_set k r by_id) rest
        end
      else index_stock by_id rest
  | _ :: _ => Raise AttributeError
  end.

(** [old.update(r)]. *)
Definition dict_update (old r : row) : row := foldl (λ d kv, od_set (fst kv) (snd kv) d) old r.

(** The loop [for r in recs] that merges the grid into [by_id]. *)
Fixpoint merge_stock (recs : list row) (by_id : list (hkey * row)) : M (list (hkey * row)) :=
  match recs with
  | [] => ret by_id
  | r :: rest =>
      let rid := get_or "id" VNone r in
      if truthy rid then
        k ← lift (py_hash rid);
        match od_get k by_id with
        | Some old => merge_stock rest (od_set k (dict_update old r) by_id)
        | None => merge_stock rest (od_set k r by_id)
        end
      else
        u ← uuid4;
        merge_stock rest (od_set (HStr u) (od_set "id" (VStr u) r) by_id)
  end.

(** The handler of the button Save Stock Changes; [recs] are the records
    of the grid.  Nothing is sent to the remote store. *)
Definition save_stock (recs : list row) : M save_report :=
  let invalid := foldr Nat.add 0 (map stock_invalid recs) in
  if negb (bool_decide (invalid = 0)) then ret (Stopped invalid)
  else
    let recs := map stock_checked recs in
    loaded ← load_json (FILES "stock");
    existing ← lift (py_iter (py_or loaded (VList [])));
    by_id ← lift (index_stock [] existing);
    by_id ← merge_stock recs by_id;
    save_json (FILES "stock") (VList (map VDict (od_values by_id))) ;;
    ret (Stored (length recs) 0 None).

(** The keys the merge assigns to, in order, when [n] UUIDs were drawn
    before it from the source [e]. *)
Fixpoint stock_keys (e : nat → N) (n : nat) (recs : list row) : list hkey :=
  match recs with
  | [] => []
  | r :: rest =>
      match truthy_key r with
      | Some k => k :: stock_keys e n rest
      | None =>
          if truthy (get_or "id" VNone r) then stock_keys e n rest
          else HStr (uuid_str (uuid4_int (e n))) :: stock_keys e (S n) rest
      end
  end.

(** The stock of two schools, the grid a coach of the first one sends
    back with a quantity changed, and the row of the other school. *)
Definition stock_of_a : row :=
  [("id", VStr "k-1"); ("school_id", VStr "1565"); ("project", VStr "MOE");
   ("type", VStr "A1"); ("size", VStr "C0"); ("quantity", VInt 3)].

Definition stock_of_b : row :=
  [("id", VStr "k-2"); ("school_id", VStr "1570"); ("project", VStr "ESE");
   ("type", VStr "A1"); ("size", VStr "C1"); ("quantity", VInt 7)].

Definition stock_world : world :=
  World {[ "stock_kimonos.json" := Json (VList [VDict stock_of_a; VDict stock_of_b]) ]}
        ∅ true [] (λ n, N.of_nat n) 0 [].

Definition stock_grid : list row :=
  [[("id", VStr "k-1"); ("school_id", VStr "1565"); ("project", VStr "moe");
    ("type", VStr "A1"); ("size", VStr "C0"); ("quantity", VStr "5")];
   [("id", VStr ""); ("school_id", VStr "1565"); ("project", VStr "");
    ("type", VStr "A2"); ("size", VStr "C2"); ("quantity", VStr "")]].

(** ** Kimono Stock: the aggregated summary *)

(** The project label, the type, the size and the quantity the loop reads
    off a row, in the order it evaluates them; the type and the size are
    then used as keys. *)
Definition stock_cell (r : row) : res (string * hkey * hkey * Z) :=
  match py_or (get_or "project" VNone r) (VStr "") with
  | VStr p =>
      let proj := py_str (py_or (VStr (PyStr.upper p)) (VStr "UNKNOWN")) in
      let typ := py_or (py_or (get_or "type" VNone r) (get_or "item" VNone r)) (VStr "UNKNOWN") in
      let size := py_or (get_or "size" VNone r) (VStr "UNKNOWN") in
      match py_int (py_or (get_or "quantity" VNone r) (VInt 0)) with
      | Raise e => Raise e
      | Ok qty =>
          match py_hash typ with
          | Raise e => Raise e
          | Ok t =>
              match py_hash size with
              | Raise e => Raise e
              | Ok s => Ok (proj, t, s, qty)
              end
          end
      end
  | _ => Raise AttributeError
  end.

(** [agg.setdefault(proj, {}).setdefault(typ, {}).setdefault(size, 0)]
    followed by [agg[proj][typ][size] += qty]. *)
Definition agg_add (proj : string) (typ size : hkey) (qty : Z)
    (agg : list (string * list (hkey * list (hkey * Z))))
  : list (string * list (hkey * list (hkey * Z))) :=
  let types := default [] (od_get proj agg) in
  let sizes := default [] (od_get typ types) in
  let q := default 0%Z (od_get size sizes) in
  od_set proj (od_set typ (od_set size (q + qty)%Z sizes) types) agg.

(** The loop [for r in filtered_rows]. *)
Fixpoint aggregate (agg : list (string * list (hkey * list (hkey * Z)))) (rows : list row)
  : res (list (string * list (hkey * list (hkey * Z)))) :=
  match rows with
  | [] => Ok agg
  | r :: rest =>
      match stock_cell r with
      | Raise e => Raise e
      | Ok (proj, typ, size, qty) => aggregate (agg_add proj typ size qty agg) rest
      end
  end.

(** [agg[proj][typ][size]], zero when the cell does not exist. *)
Definition agg_cell (proj : string) (typ size : hkey)
    (agg : list (string * list (hkey * list (hkey * Z)))) : Z :=
  match od_get proj agg with
  | Some types =>
      match od_get typ types with
      | Some sizes => default 0%Z (od_get size sizes)
      | None => 0%Z
      end
  | None => 0%Z
  end.

(** The quantity a row adds to the cell [(proj, typ, size)]. *)
Definition cell_share (proj : string) (typ size : hkey) (r : row) : Z :=
  match stock_cell r with
  | Ok (p, t, s, qty) =>
      if bool_decide (p = proj ∧ t = typ ∧ s = size) then qty else 0%Z
  | Raise _ => 0%Z
  end.

(** ** sync_local_to_supabase: when a local file is removed *)

(** Every effect recorded in [w] is still recorded in [w']. *)
Definition trace_grows (w w' : world) : Prop := ∀ e, e ∈ trace w → e ∈ trace w'.

(** ** Section 6 of app.py: Submit Request *)

(** The session state the section keeps: the current batch and the
    identifiers of the requests the remote store has not received. *)
Record session := Session {
  pending_items : list row;
  unsynced_request_ids : gset string
}.

(** The item built by Add Another Item. *)
Definition build_item (uid selected_school_id : string) (category : pyval)
    (material_choice : string) (qty : Z) (now : string) (u : user) : row :=
  [("id", VStr uid); ("school_id", VStr selected_school_id); ("category", category);
   ("material", VStr material_choice); ("quantity", VInt qty); ("date", VStr now);
   ("ps_number", VStr (ps_number u)); ("status", VStr "Pending")].

(** The handler of the button Add Another Item: the item is put in the
    batch and persisted at once. *)
Definition add_another_item (selected_school_id : string) (category : pyval)
    (material_choice : string) (qty : Z) (now : string) (u : user) (s : session)
  : M session :=
  uid ← uuid4;
  let new_item := build_item uid selected_school_id category material_choice qty now u in
  let pending := (pending_items s ++ [new_item])%list in
  result ← persist_requests [VDict new_item];
  match error result with
  | Some _ => ret (Session pending ({[uid]} ∪ unsynced_request_ids s))
  | None => ret (Session pending (unsynced_request_ids s ∖ {[uid]}))
  end.

(** The number of messages the validation of Submit Request adds for an
    item. *)
Definition item_errors (valid_school_ids : list string) (it : row) : nat :=
  let sid := PyStr.strip (py_str (get_or "school_id" (VStr "") it)) in
  (if negb (truthy (VStr sid)) || negb (bool_decide (sid ∈ valid_school_ids)) then 1 else 0) +
  (match py_int (get_or "quantity" (VInt 0) it) with
   | Ok z => if (z <=? 0)%Z then 1 else 0
   | Raise _ => 1
   end).

(** [{str(item.get("id")) for item in pending if item.get("id")}]. *)
Definition batch_id_set (pending : list row) : gset string :=
  list_to_set (map (λ it, py_str (get_or "id" VNone it))
                 (List.filter (λ it, truthy (get_or "id" VNone it)) pending)).

(** The handler of the button Submit Request; [schools] is the schools
    collection.  Returns the summary and the session state. *)
Definition submit_request (schools : list row) (s : session) : M (save_report * session) :=
  let valid_school_ids := map (λ sc, py_str (get_or "id" VNone sc)) schools in
  let errors := foldr Nat.add 0 (map (item_errors valid_school_ids) (pending_items s)) in
  if negb (bool_decide (errors = 0)) then ret (Stopped errors, s)
  else
    result ← persist_requests (map VDict (pending_items s));
    let batch_ids := batch_id_set (pending_items s) in
    let unsynced :=
      match error result with
      | Some _ => unsynced_request_ids s ∪ batch_ids
      | None => unsynced_request_ids s ∖ batch_ids
      end in
    ret (Stored (saved result) (synced result) (error result), Session [] unsynced).

(** A world whose remote store fails the next call and answers the one
    after it. *)
Definition retry_world : world :=
  World {[ "requests.json" := Json (VList (map VDict stored_requests)) ]} ∅ true
        [true; false] (λ n, N.of_nat n) 0 [].

(** * Properties *)

(** ** Strings *)

Lemma is_space_upper_char (c : ascii) :
  PyStr.is_space (PyStr.upper_char c) = PyStr.is_space c.
Proof. destruct c as [[] [] [] [] [] [] [] []]; reflexivity. Qed.

Lemma upper_char_idem (c : ascii) :
  PyStr.upper_char (PyStr.upper_char c) = PyStr.upper_char c.
Proof. destruct c as [[] [] [] [] [] [] [] []]; reflexivity. Qed.

Lemma upper_idem (s : string) : PyStr.upper (PyStr.upper s) = PyStr.upper s.
Proof.
  unfold PyStr.upper. induction s as [|c s IH]; simpl; [done|].
  by rewrite upper_char_idem, IH.
Qed.

Lemma lstrip_upper (s : string) :
  PyStr.lstrip (PyStr.upper s) = PyStr.upper (PyStr.lstrip s).
Proof.
  unfold PyStr.upper. induction s as [|c s IH]; simpl; [done|].
  rewrite is_space_upper_char. by destruct (PyStr.is_space c).
Qed.

Lemma rstrip_upper (s : string) :
  PyStr.rstrip (PyStr.upper s) = PyStr.upper (PyStr.rstrip s).
Proof.
  unfold PyStr.upper. induction s as [|c s IH]; simpl; [done|].
  rewrite IH, is_space_upper_char.
  destruct (PyStr.rstrip s); simpl; [|done].
  by destruct (PyStr.is_space c).
Qed.

Lemma strip_upper (s : string) :
  PyStr.strip (PyStr.upper s) = PyStr.upper (PyStr.strip s).
Proof. unfold PyStr.strip. by rewrite lstrip_upper, rstrip_upper. Qed.

Lemma rstrip_idem (s : string) : PyStr.rstrip (PyStr.rstrip s) = PyStr.rstrip s.
Proof.
  induction s as [|c s IH]; simpl; [done|].
  destruct (PyStr.rstrip s) as [|a t] eqn:E.
  - destruct (PyStr.is_space c) eqn:Ec; simpl; [done|]. by rewrite Ec.
  - change (PyStr.rstrip (String c (String a t))) with
      (match PyStr.rstrip (String a t) with
       | EmptyString => if PyStr.is_space c then EmptyString else String c EmptyString
       | u => String c u
       end).
    by rewrite IH.
Qed.

Lemma lstrip_head (s : string) :
  PyStr.lstrip s = EmptyString ∨
  ∃ c r, PyStr.lstrip s = String c r ∧ PyStr.is_space c = false.
Proof.
  induction s as [|c s IH]; simpl; [by left|].
  destruct (PyStr.is_space c) eqn:E; [done|]. right. eauto.
Qed.

Lemma rstrip_head (c : ascii) (r : string) :
  PyStr.is_space c = false → ∃ t, PyStr.rstrip (String c r) = String c t.
Proof.
  intros Hc. simpl. destruct (PyStr.rstrip r); [|eauto].
  rewrite Hc. eauto.
Qed.

Lemma strip_idem (s : string) : PyStr.strip (PyStr.strip s) = PyStr.strip s.
Proof.
  unfold PyStr.strip.
  destruct (lstrip_head s) as [->|(c & r & -> & Hc)]; [done|].
  destruct (rstrip_head c r Hc) as [t Ht]. rewrite Ht.
  simpl PyStr.lstrip. rewrite Hc, <- Ht. apply rstrip_idem.
Qed.

Lemma rstrip_no_space (s : string) : no_space s → PyStr.rstrip s = s.
Proof.
  induction s as [|c s IH]; simpl; [done|]. intros [Hc Hs].
  rewrite (IH Hs). destruct s; [by rewrite Hc|done].
Qed.

Lemma strip_no_space (s : string) : no_space s → PyStr.strip s = s.
Proof.
  intros Hs. unfold PyStr.strip.
  assert (PyStr.lstrip s = s) as ->; [|by apply rstrip_no_space].
  destruct s; simpl in *; [done|]. by destruct Hs as [-> _].
Qed.

Lemma is_space_hex_digit (n : N) : PyStr.is_space (PyStr.hex_digit n) = false.
Proof.
  unfold PyStr.hex_digit.
  assert (n mod 16 < 16)%N as Hlt by (apply N.mod_lt; lia).
  destruct (n mod 16)%N as [|p]; [reflexivity|].
  do 4 (destruct p as [p|p|]; try reflexivity; try lia).
Qed.

Lemma no_space_hex_run (v : N) (from len : nat) (rest : list ascii) :
  no_space (string_of_list_ascii rest) →
  no_space (string_of_list_ascii (hex_run v from len ++ rest)).
Proof.
  intros Hrest. unfold hex_run. revert from.
  induction len as [|len IH]; intros from; simpl; [done|].
  split; [apply is_space_hex_digit | apply IH].
Qed.

Lemma uuid_str_no_space (v : N) : no_space (uuid_str v).
Proof.
  unfold uuid_str. rewrite <- (app_nil_r (hex_run v 20 12)).
  do 4 (apply no_space_hex_run; cbn [string_of_list_ascii no_space]; split; [reflexivity|]).
  by apply no_space_hex_run.
Qed.

Lemma uuid_str_nonempty (v : N) : uuid_str v ≠ "".
Proof. unfold uuid_str. simpl. discriminate. Qed.

Lemma uuid_str_strip (v : N) : PyStr.strip (uuid_str v) = uuid_str v.
Proof. apply strip_no_space, uuid_str_no_space. Qed.

(** ** Dictionaries *)

Section odict_facts.
Context {K V : Type} `{EqDecision K}.
Implicit Types (k : K) (v : V) (d : list (K * V)).

Lemma od_get_set_eq k v d : od_get k (od_set k v d) = Some v.
Proof.
  induction d as [|[k' v'] d IH]; simpl.
  - by rewrite decide_True.
  - destruct (decide (k = k')) as [->|Hne]; simpl.
    + by rewrite decide_True.
    + by rewrite decide_False.
Qed.

Lemma od_get_set_ne k k' v d : k ≠ k' → od_get k' (od_set k v d) = od_get k' d.
Proof.
  intros Hne. induction d as [|[k0 v0] d IH]; simpl.
  - by rewrite decide_False.
  - destruct (decide (k = k0)) as [->|Hk]; simpl.
    + by rewrite !decide_False.
    + destruct (decide (k' = k0)); [done|apply IH].
Qed.

Lemma od_set_id k v d : od_get k d = Some v → od_set k v d = d.
Proof.
  induction d as [|[k0 v0] d IH]; simpl; [done|].
  destruct (decide (k = k0)) as [->|Hk]; [by intros [= ->]|].
  intros Hg. by rewrite IH.
Qed.

Lemma od_get_values k v d : od_get k d = Some v → v ∈ od_values d.
Proof.
  induction d as [|[k0 v0] d IH]; simpl; [done|].
  destruct (decide (k = k0)).
  - intros [= ->]. apply list_elem_of_here.
  - intros Hg. apply list_elem_of_further, IH, Hg.
Qed.

Lemma od_values_set (P : V → Prop) k v d :
  P v → Forall P (od_values d) → Forall P (od_values (od_set k v d)).
Proof.
  intros Hv. induction d as [|[k0 v0] d IH]; simpl.
  - intros _. by repeat constructor.
  - intros Hd. apply Forall_cons in Hd as [H0 Hd].
    destruct (decide (k = k0)); simpl; apply Forall_cons; auto.
Qed.

Lemma od_has_true k d : od_has k d = true ↔ is_Some (od_get k d).
Proof. unfold od_has. apply bool_decide_eq_true. Qed.

Lemma od_has_false k d : od_has k d = false ↔ od_get k d = None.
Proof.
  unfold od_has. rewrite bool_decide_eq_false, <- eq_None_not_Some. done.
Qed.

Lemma od_has_set_eq k v d : od_has k (od_set k v d) = true.
Proof. apply od_has_true. rewrite od_get_set_eq. eauto. Qed.

Lemma od_has_set_ne k k' v d : k ≠ k' → od_has k' (od_set k v d) = od_has k' d.
Proof. intros Hne. unfold od_has. by rewrite od_get_set_ne. Qed.

Lemma od_setdefault_get_ne k k' v d :
  k ≠ k' → od_get k' (od_setdefault k v d) = od_get k' d.
Proof.
  intros Hne. unfold od_setdefault. destruct (od_has k d); [done|].
  by apply od_get_set_ne.
Qed.

Lemma od_setdefault_id k v d : od_has k d = true → od_setdefault k v d = d.
Proof. intros Hh. unfold od_setdefault. by rewrite Hh. Qed.

End odict_facts.

(** ** Visibility of schools *)

Lemma comprehension_if_sublist (test : row → res bool) (l visible : list row) :
  comprehension_if test l = Ok visible → sublist visible l.
Proof.
  revert visible. induction l as [|s l IH]; simpl; intros visible.
  - intros [= <-]. constructor.
  - destruct (test s) as [b|]; [|done].
    destruct (comprehension_if test l) as [r|]; [|done].
    intros [= <-]. destruct b; [apply sublist_skip|apply sublist_cons]; by apply IH.
Qed.

Lemma comprehension_if_elem (test : row → res bool) (l visible : list row) (s : row) :
  comprehension_if test l = Ok visible →
  s ∈ visible ↔ s ∈ l ∧ test s = Ok true.
Proof.
  revert visible. induction l as [|x l IH]; simpl; intros visible.
  - intros [= <-]. rewrite !elem_of_nil. tauto.
  - destruct (test x) as [b|] eqn:Ex; [|done].
    destruct (comprehension_if test l) as [r|]; [|done].
    intros [= <-]. specialize (IH r eq_refl).
    destruct b; rewrite ?elem_of_cons, IH; split.
    + intros [->|[? ?]]; auto.
    + intros [[->|?] ?]; auto.
    + intros [? ?]; auto.
    + intros [[->|?] ?]; [congruence|auto].
Qed.

Lemma comprehension_if_total (test : row → res bool) (l : list row) :
  Forall (λ s, ∃ b, test s = Ok b) l → ∃ visible, comprehension_if test l = Ok visible.
Proof.
  induction 1 as [|s l [b Hb] _ [r IH]]; simpl; [eauto|].
  rewrite Hb, IH. eauto.
Qed.

Lemma py_in_str_list (x : string) (l : list pyval) :
  py_in_str x (VList l) = Ok true ↔ VStr x ∈ l.
Proof.
  simpl. split.
  - intros [= Hex]. apply existsb_exists in Hex as (v & Hin & Hv).
    destruct v; try done. apply String.eqb_eq in Hv as ->. by apply list_elem_of_In.
  - intros Hin. f_equal. apply existsb_exists. exists (VStr x).
    split; [by apply list_elem_of_In | apply String.eqb_refl].
Qed.

Lemma eq_str_true (x : pyval) (s : string) : eq_str x s = true ↔ x = VStr s.
Proof.
  destruct x; simpl; try (split; [discriminate|congruence]).
  rewrite String.eqb_eq. split; congruence.
Qed.

(** On schools whose [coaches] field is a list the listing is right.  It
    returns the whole collection when the credential is Admin.  For any
    other credential it returns a result whenever every [coaches] field is a
    list, and what it returns is a sub-collection that holds a school with a
    [coaches] list exactly when that list contains the user's [ps_number]. *)
Lemma list_user_schools_visibility (u : user) (schools : list row) :
  (credential u = VStr "Admin" → list_user_schools u schools = Ok schools) ∧
  (credential u ≠ VStr "Admin" →
     (Forall (λ s, ∃ l, coaches_of s = VList l) schools →
        ∃ visible, list_user_schools u schools = Ok visible) ∧
     (∀ visible, list_user_schools u schools = Ok visible →
        sublist visible schools ∧
        ∀ s l, coaches_of s = VList l →
          (s ∈ visible ↔ s ∈ schools ∧ VStr (ps_number u) ∈ l))).
Proof.
  unfold list_user_schools. split.
  - intros Hadm. apply eq_str_true in Hadm. by rewrite Hadm.
  - intros Hcoach.
    assert (eq_str (credential u) "Admin" = false) as ->.
    { destruct (eq_str (credential u) "Admin") eqn:E; [|done].
      by apply eq_str_true in E. }
    split.
    + intros Hwf. apply comprehension_if_total.
      eapply Forall_impl; [exact Hwf|]. intros s [l Hl].
      unfold coaches_of in Hl. rewrite Hl. simpl. eauto.
    + intros visible Hres. split; [by eapply comprehension_if_sublist|].
      intros s l Hl. rewrite (comprehension_if_elem _ _ _ s Hres).
      unfold coaches_of in Hl. rewrite Hl, py_in_str_list. done.
Qed.

Lemma list_user_schools_visibility_witness :
  ∃ visible, list_user_schools coach_ps1 [school_a; school_b] = Ok visible.
Proof.
  apply (list_user_schools_visibility coach_ps1 [school_a; school_b]).
  - discriminate.
  - repeat constructor; eexists; reflexivity.
Defined.

(** C4, at the failing input.  The school stores its coaches as the text
    [PS10,PS2], which the Admin Schools section reads as the two entries
    PS10 and PS2.  The test [ps in s.get("coaches", [])] is then a substring
    test: the coach PS1, who is not among the entries, receives the school.
    With a [coaches] field that is null the listing raises instead of
    returning the schools of the coach. *)
Theorem list_user_schools_text_coaches :
  list_user_schools coach_ps1 [school_text_coaches] = Ok [school_text_coaches] ∧
  coaches_list school_text_coaches = ["PS10"; "PS2"] ∧
  (ps_number coach_ps1 ∉ coaches_list school_text_coaches) ∧
  list_user_schools coach_ps1 [school_a; school_without_coaches] = Raise TypeError.
Proof.
  split; [reflexivity|]. split; [reflexivity|]. split; [|reflexivity].
  change (coaches_list school_text_coaches) with ["PS10"; "PS2"].
  rewrite !elem_of_cons, elem_of_nil. by intros [?|[?|[]]].
Qed.

(** ** Running computations *)

Ltac unfold_M :=
  unfold mbind, M_bind, mret, M_ret, bind, ret, raise, lift, gets, act,
    try_except, notify in *.

Lemma with_uuid_next_same (w : world) : with_uuid_next (uuid_next w) w = w.
Proof. by destruct w. Qed.

(** ** The identity and defaults normalizers *)

Lemma request_defaults_run (r : row) (c : bool) (w : world) :
  request_defaults r c w
  = (Ok (fill_request (uuid_of w (uuid_next w)) r, c || request_flagged r),
     draw_if (negb (has "id" r)) w).
Proof.
  unfold request_defaults, fill_request, request_flagged, draw_if, uuid4, has.
  unfold_M.
  destruct (od_has "id" r) eqn:Hid; simpl.
  - destruct (od_has "status" r) eqn:Hst; simpl.
    + destruct (od_has "ps_number" r); simpl; by rewrite ?orb_false_r, ?orb_true_r.
    + rewrite orb_true_r. by destruct (od_has "ps_number" _).
  - rewrite (od_has_set_ne "id" "status") by done.
    destruct (od_has "status" r) eqn:Hst; simpl.
    + rewrite (od_has_set_ne "id" "ps_number") by done.
      rewrite orb_true_r. by destruct (od_has "ps_number" r).
    + rewrite orb_true_r. by destruct (od_has "ps_number" _).
Qed.

Lemma stock_defaults_run (r : row) (c : bool) (w : world) :
  stock_defaults r c w
  = (Ok (fill_stock (uuid_of w (uuid_next w)) r, c || stock_flagged r),
     draw_if (negb (has "id" r)) w).
Proof.
  unfold stock_defaults, fill_stock, stock_flagged, draw_if, uuid4, has, get.
  unfold_M.
  destruct (od_has "id" r) eqn:Hid; simpl.
  - destruct (od_get "quantity" r) as [q|]; simpl.
    + destruct (py_int q); simpl;
        rewrite ?orb_false_r, ?orb_true_r;
        by destruct (od_get "project" _) as [[]|].
    + rewrite orb_true_r. by destruct (od_get "project" _) as [[]|].
  - rewrite (od_get_set_ne "id" "quantity") by done.
    destruct (od_get "quantity" r) as [q|]; simpl.
    + destruct (py_int q); simpl; rewrite ?orb_true_r;
        by destruct (od_get "project" _) as [[]|].
    + rewrite ?orb_true_r. by destruct (od_get "project" _) as [[]|].
Qed.

Section for_rows_facts.
Variable body : row → bool → M (row * bool).
Variable fill : string → row → row.
Variable flagged : row → bool.
Hypothesis body_run : ∀ r c w,
  body r c w = (Ok (fill (uuid_of w (uuid_next w)) r, c || flagged r),
                draw_if (negb (has "id" r)) w).
Hypothesis fill_keeps_id : ∀ u r v, get "id" r = Some v → get "id" (fill u r) = Some v.
Hypothesis fill_sets_id : ∀ u r, get "id" r = None → get "id" (fill u r) = Some (VStr u).

Lemma fill_all_with_uuid_next (w : world) (k n : nat) (rows : list row) :
  fill_all fill (with_uuid_next k w) n rows = fill_all fill w n rows.
Proof.
  revert n. induction rows as [|r rows IH]; intros n; simpl; [done|].
  by rewrite IH.
Qed.

Lemma for_rows_run (rows : list row) (c : bool) (w : world) :
  for_rows body rows c w
  = (Ok (fill_all fill w (uuid_next w) rows, c || existsb flagged rows),
     with_uuid_next (uuid_next w + missing_ids rows) w).
Proof.
  revert c w. induction rows as [|r rows IH]; intros c w; simpl.
  - unfold_M. unfold missing_ids. simpl.
    by rewrite orb_false_r, Nat.add_0_r, with_uuid_next_same.
  - unfold_M. rewrite body_run, IH. unfold missing_ids, draw_if. simpl.
    rewrite orb_assoc. destruct (has "id" r); simpl.
    + done.
    + rewrite fill_all_with_uuid_next. f_equal.
      unfold with_uuid_next; simpl. f_equal. lia.
Qed.

Lemma fill_all_ids (w : world) (n : nat) (rows : list row) :
  ids_of (fill_all fill w n rows)
  ≡ₚ ids_of rows ++ map (λ i, VStr (uuid_of w i)) (seq n (missing_ids rows)).
Proof.
  revert n. induction rows as [|r rows IH]; intros n; [done|].
  unfold ids_of, missing_ids in *. simpl. unfold has.
  destruct (get "id" r) as [v|] eqn:Hid.
  - rewrite (fill_keeps_id _ _ _ Hid).
    assert (od_has "id" r = true) as -> by (apply od_has_true; unfold get in Hid; eauto).
    simpl. by rewrite IH.
  - rewrite (fill_sets_id _ _ Hid).
    assert (od_has "id" r = false) as -> by (by apply od_has_false).
    simpl. rewrite IH. apply Permutation_middle.
Qed.

Lemma fill_all_has_id (w : world) (n : nat) (rows : list row) :
  Forall has_id (fill_all fill w n rows).
Proof.
  revert n. induction rows as [|r rows IH]; intros n; simpl; constructor; [|apply IH].
  unfold has_id. destruct (get "id" r) as [v|] eqn:Hid.
  - rewrite (fill_keeps_id _ _ _ Hid). eauto.
  - rewrite (fill_sets_id _ _ Hid). eauto.
Qed.

Lemma fill_all_Forall2 (P : row → row → Prop) (w : world) (n : nat) (rows : list row) :
  (∀ u r, P r (fill u r)) → Forall2 P rows (fill_all fill w n rows).
Proof.
  intros HP. revert n. induction rows as [|r rows IH]; intros n; simpl; constructor; auto.
Qed.

Lemma fill_all_fixed (w : world) (n : nat) (rows : list row) :
  Forall (λ r, has "id" r = true ∧ ∀ u, fill u r = r) rows →
  fill_all fill w n rows = rows ∧ missing_ids rows = 0.
Proof.
  unfold missing_ids. induction 1 as [|r rows [Hid Hfix] _ [IH1 IH2]]; simpl; [done|].
  rewrite Hid, Hfix. simpl. by rewrite IH1.
Qed.

End for_rows_facts.

Lemma get_set_absent (k k' : string) (x v : pyval) (r : row) :
  has k r = false → get k' r = Some v → get k' (od_set k x r) = Some v.
Proof.
  unfold has, get. intros Hk Hg. destruct (decide (k = k')) as [->|Hne].
  - apply od_has_false in Hk. congruence.
  - by rewrite od_get_set_ne.
Qed.

Lemma fill_request_keeps (u : string) (r : row) (k : string) (v : pyval) :
  get k r = Some v → get k (fill_request u r) = Some v.
Proof.
  unfold fill_request. intros Hg.
  destruct (has "id" r) eqn:H1;
    [|apply (get_set_absent "id" k (VStr u)) in Hg; [|done]];
    (match goal with |- context [has "status" ?x] => destruct (has "status" x) eqn:H2 end;
     [|apply (get_set_absent "status" k (VStr "Pending")) in Hg; [|done]]);
    (match goal with |- context [has "ps_number" ?x] => destruct (has "ps_number" x) eqn:H3 end;
     [done|by apply get_set_absent]).
Qed.

Lemma fill_request_sets_id (u : string) (r : row) :
  get "id" r = None → get "id" (fill_request u r) = Some (VStr u).
Proof.
  intros Hid. unfold fill_request, has.
  assert (od_has "id" r = false) as -> by (by apply od_has_false).
  assert (get "id" (od_set "id" (VStr u) r) = Some (VStr u)) as Hg
    by apply od_get_set_eq.
  match goal with |- context [od_has "status" ?x] => destruct (od_has "status" x) eqn:H2 end;
    [|apply (get_set_absent "status" "id" (VStr "Pending")) in Hg; [|done]];
    (match goal with |- context [od_has "ps_number" ?x] =>
       destruct (od_has "ps_number" x) eqn:H3 end;
     [done|by apply get_set_absent]).
Qed.

Lemma get_setdefault_like (k : string) (dflt : pyval) (r : row) :
  get k (if has k r then r else od_set k dflt r) = Some (default dflt (get k r)).
Proof.
  unfold has, get. destruct (od_has k r) eqn:Hk.
  - apply od_has_true in Hk as [v Hv]. by rewrite Hv.
  - rewrite od_get_set_eq. apply od_has_false in Hk. by rewrite Hk.
Qed.

Lemma fill_request_status (u : string) (r : row) :
  get "status" (fill_request u r) = Some (default (VStr "Pending") (get "status" r)).
Proof.
  unfold fill_request.
  set (r1 := if has "id" r then r else od_set "id" (VStr u) r).
  assert (get "status" r1 = get "status" r) as Hst.
  { unfold r1. destruct (has "id" r); [done|]. by apply od_get_set_ne. }
  rewrite <- Hst.
  set (r2 := if has "status" r1 then r1 else od_set "status" (VStr "Pending") r1).
  assert (get "status" r2 = Some (default (VStr "Pending") (get "status" r1))) as H2
    by apply get_setdefault_like.
  destruct (has "ps_number" r2) eqn:H3; [done|].
  by apply get_set_absent.
Qed.

Lemma fill_request_ps_number (u : string) (r : row) :
  get "ps_number" (fill_request u r)
  = Some (default (VStr "unknown") (get "ps_number" r)).
Proof.
  unfold fill_request.
  set (r1 := if has "id" r then r else od_set "id" (VStr u) r).
  set (r2 := if has "status" r1 then r1 else od_set "status" (VStr "Pending") r1).
  assert (get "ps_number" r2 = get "ps_number" r) as <-.
  { unfold r2, r1. destruct (has "id" r), (has "status" _);
      rewrite ?(od_get_set_ne "status" "ps_number"), ?(od_get_set_ne "id" "ps_number");
      unfold get; rewrite ?(od_get_set_ne "status" "ps_number"), ?(od_get_set_ne "id" "ps_number");
      done. }
  apply get_setdefault_like.
Qed.

Lemma fill_request_fixed (u : string) (r : row) :
  has "id" r = true → has "status" r = true → has "ps_number" r = true →
  fill_request u r = r.
Proof. unfold fill_request. by intros -> -> ->. Qed.

Lemma has_true_get (k : string) (r : row) : has k r = true ↔ is_Some (get k r).
Proof. apply od_has_true. Qed.

Lemma fill_request_complete (u : string) (r : row) :
  has "id" (fill_request u r) = true ∧ has "status" (fill_request u r) = true ∧
  has "ps_number" (fill_request u r) = true.
Proof.
  rewrite !has_true_get, fill_request_status, fill_request_ps_number.
  repeat split; eauto.
  destruct (get "id" r) as [v|] eqn:Hid.
  - rewrite (fill_request_keeps u r "id" v Hid). eauto.
  - rewrite (fill_request_sets_id u r Hid). eauto.
Qed.

Lemma normalized_label (p : string) : upper_trimmed (PyStr.upper (PyStr.strip p)).
Proof.
  split.
  - by rewrite strip_upper, strip_idem.
  - apply upper_idem.
Qed.

Lemma normalized_label_fixed (p : string) :
  upper_trimmed p → PyStr.upper (PyStr.strip p) = p.
Proof. intros [Hs Hu]. by rewrite Hs, Hu. Qed.

Section fill_stock_facts.
Variables (u : string) (r : row).

Abbreviation r1 := (stock_with_id u r).
Abbreviation r2 := (stock_with_quantity u r).

Lemma fill_stock_unfold :
  fill_stock u r =
  match get "project" r with
  | Some (VStr p) => od_set "project" (VStr (PyStr.upper (PyStr.strip p))) r2
  | _ => r2
  end.
Proof.
  unfold fill_stock. fold r1.
  assert (get "quantity" r1 = get "quantity" r) as Hq.
  { unfold r1. destruct (has "id" r); [done|]. by apply od_get_set_ne. }
  assert (get "project" r2 = get "project" r) as Hp.
  { unfold r2, get. rewrite (od_get_set_ne "quantity" "project") by done.
    unfold r1. destruct (has "id" r); [done|]. by apply od_get_set_ne. }
  assert (match get "quantity" r1 with
          | Some q =>
              match py_int q with
              | Ok z => od_set "quantity" (VInt z) r1
              | Raise _ => od_set "quantity" (VInt 0) r1
              end
          | None => od_set "quantity" (VInt 0) r1
          end = r2) as ->.
  { unfold r2, stock_quantity. rewrite Hq.
    destruct (get "quantity" r) as [q|]; [|done]. by destruct (py_int q). }
  by rewrite Hp.
Qed.

Lemma fill_stock_get (k : string) :
  k ≠ "project" →
  get k (fill_stock u r) = get k r2.
Proof.
  intros Hk. rewrite fill_stock_unfold.
  destruct (get "project" r) as [[]|]; try done.
  unfold get. by rewrite od_get_set_ne.
Qed.

Lemma fill_stock_quantity :
  get "quantity" (fill_stock u r) = Some (VInt (stock_quantity r)).
Proof. rewrite fill_stock_get by done. apply od_get_set_eq. Qed.

Lemma fill_stock_id :
  get "id" (fill_stock u r) = Some (default (VStr u) (get "id" r)).
Proof.
  rewrite fill_stock_get by done. unfold r2, get.
  rewrite (od_get_set_ne "quantity" "id") by done. apply get_setdefault_like.
Qed.

Lemma fill_stock_project :
  get "project" (fill_stock u r) =
  match get "project" r with
  | Some (VStr p) => Some (VStr (PyStr.upper (PyStr.strip p)))
  | other => other
  end.
Proof.
  rewrite fill_stock_unfold.
  assert (get "project" r2 = get "project" r) as Hp.
  { unfold r2, get. rewrite (od_get_set_ne "quantity" "project") by done.
    unfold r1. destruct (has "id" r); [done|]. by apply od_get_set_ne. }
  destruct (get "project" r) as [[]|] eqn:E; try done.
  apply od_get_set_eq.
Qed.

Lemma fill_stock_normal : stock_normal (fill_stock u r).
Proof.
  split; [|split].
  - apply has_true_get. rewrite fill_stock_id. eauto.
  - rewrite fill_stock_quantity. eauto.
  - intros p. rewrite fill_stock_project.
    destruct (get "project" r) as [[]|]; try done.
    intros [= <-]. apply normalized_label_fixed, normalized_label.
Qed.

Lemma fill_stock_fixed : stock_normal r → fill_stock u r = r.
Proof.
  intros (Hid & [z Hz] & Hp). rewrite fill_stock_unfold.
  assert (r2 = r) as Hr2.
  { unfold r2, r1, stock_quantity. rewrite Hid, Hz. simpl. by apply od_set_id. }
  rewrite Hr2. destruct (get "project" r) as [[| | |p| |]|] eqn:E; try done.
  rewrite (Hp p eq_refl). by apply od_set_id.
Qed.

End fill_stock_facts.

Lemma ensure_request_run (rows : list row) (w : world) :
  ensure_request_id_and_defaults rows w =
  let rows' := fill_all fill_request w (uuid_next w) rows in
  let w1 := with_uuid_next (uuid_next w + missing_ids rows) w in
  (Ok rows',
   if existsb request_flagged rows
   then after_save (FILES "requests") (VList (map VDict rows')) w1 else w1).
Proof.
  unfold ensure_request_id_and_defaults. unfold_M.
  rewrite (for_rows_run _ _ _ request_defaults_run). simpl.
  destruct (existsb request_flagged rows); reflexivity.
Qed.

Lemma ensure_stock_run (rows : list row) (w : world) :
  ensure_stock_id_and_defaults rows w =
  let rows' := fill_all fill_stock w (uuid_next w) rows in
  let w1 := with_uuid_next (uuid_next w + missing_ids rows) w in
  (Ok rows',
   if existsb stock_flagged rows
   then after_save (FILES "stock") (VList (map VDict rows')) w1 else w1).
Proof.
  unfold ensure_stock_id_and_defaults. unfold_M.
  rewrite (for_rows_run _ _ _ stock_defaults_run). simpl.
  destruct (existsb stock_flagged rows); reflexivity.
Qed.

Lemma ensure_request_again (rows : list row) (w : world) :
  Forall (λ r, has "id" r = true ∧ has "status" r = true ∧ has "ps_number" r = true) rows →
  ensure_request_id_and_defaults rows w = (Ok rows, w).
Proof.
  intros Hall. rewrite ensure_request_run. simpl.
  destruct (fill_all_fixed fill_request w (uuid_next w) rows) as [-> ->].
  { eapply Forall_impl; [exact Hall|]. intros r (H1 & H2 & H3).
    split; [done|]. intros u. by apply fill_request_fixed. }
  assert (existsb request_flagged rows = false) as ->.
  { clear -Hall. induction Hall as [|r rows (H1 & H2 & H3) _ IH]; simpl; [done|].
    rewrite IH. unfold request_flagged. by rewrite H1, H2, H3. }
  by rewrite Nat.add_0_r, with_uuid_next_same.
Qed.

Lemma stock_normal_not_flagged (r : row) : stock_normal r → stock_flagged r = false.
Proof.
  intros (Hid & [z Hz] & _). unfold stock_flagged. by rewrite Hid, Hz.
Qed.

Lemma ensure_stock_again (rows : list row) (w : world) :
  Forall stock_normal rows →
  ensure_stock_id_and_defaults rows w = (Ok rows, w).
Proof.
  intros Hall. rewrite ensure_stock_run. simpl.
  destruct (fill_all_fixed fill_stock w (uuid_next w) rows) as [-> ->].
  { eapply Forall_impl; [exact Hall|]. intros r Hr.
    split; [apply Hr|]. intros u. by apply fill_stock_fixed. }
  assert (existsb stock_flagged rows = false) as ->.
  { clear -Hall. induction Hall as [|r rows Hr _ IH]; simpl; [done|].
    by rewrite (stock_normal_not_flagged r Hr), IH. }
  by rewrite Nat.add_0_r, with_uuid_next_same.
Qed.

Lemma fill_all_Forall (fill : string → row → row) (P : row → Prop) (w : world) (n : nat)
    (rows : list row) :
  (∀ u r, P (fill u r)) → Forall P (fill_all fill w n rows).
Proof.
  intros HP. revert n. induction rows as [|r rows IH]; intros n; simpl; constructor; auto.
Qed.

Lemma fill_stock_keeps_id (u : string) (r : row) (v : pyval) :
  get "id" r = Some v → get "id" (fill_stock u r) = Some v.
Proof. intros Hid. by rewrite fill_stock_id, Hid. Qed.

Lemma fill_stock_sets_id (u : string) (r : row) :
  get "id" r = None → get "id" (fill_stock u r) = Some (VStr u).
Proof. intros Hid. by rewrite fill_stock_id, Hid. Qed.

Lemma fill_all_unique (fill : string → row → row) (w : world) (rows : list row) :
  (∀ u r v, get "id" r = Some v → get "id" (fill u r) = Some v) →
  (∀ u r, get "id" r = None → get "id" (fill u r) = Some (VStr u)) →
  NoDup (ids_of rows ++ fresh_ids w rows) →
  unique_ids (fill_all fill w (uuid_next w) rows).
Proof.
  intros Hkeep Hset Hnd. split.
  - by apply fill_all_has_id.
  - by rewrite (fill_all_ids fill Hkeep Hset).
Qed.

(** What the normalizers do for the records that lack the key [id].  One
    run of either normalizer returns, for every collection, records that all
    have the key [id]; fields already present are kept (requests) and so is
    the value of an [id] key already present (stock); a request gets
    [status] Pending and [ps_number] unknown when it had none.  When the
    values already present and the ones drawn are pairwise distinct, no two
    records share a value afterwards.  A second run on the result returns it
    unchanged and leaves the world as it is: nothing is written and no
    identifier is drawn. *)
Lemma normalizers_fill_ids_idempotent :
  (∀ rows w, ∃ rows' w',
     ensure_request_id_and_defaults rows w = (Ok rows', w') ∧
     Forall2 (λ r r',
        (∀ k v, get k r = Some v → get k r' = Some v) ∧
        has_id r' ∧
        get "status" r' = Some (default (VStr "Pending") (get "status" r)) ∧
        get "ps_number" r' = Some (default (VStr "unknown") (get "ps_number" r)))
       rows rows' ∧
     (NoDup (ids_of rows ++ fresh_ids w rows) → unique_ids rows') ∧
     ensure_request_id_and_defaults rows' w' = (Ok rows', w')) ∧
  (∀ rows w, ∃ rows' w',
     ensure_stock_id_and_defaults rows w = (Ok rows', w') ∧
     Forall2 (λ r r',
        (∀ v, get "id" r = Some v → get "id" r' = Some v) ∧ has_id r') rows rows' ∧
     (NoDup (ids_of rows ++ fresh_ids w rows) → unique_ids rows') ∧
     ensure_stock_id_and_defaults rows' w' = (Ok rows', w')).
Proof.
  split; intros rows w.
  - eexists _, _. split; [apply ensure_request_run|]. simpl. split; [|split].
    + apply fill_all_Forall2. intros u r. split; [|split; [|split]].
      * intros k v. apply fill_request_keeps.
      * apply has_true_get, fill_request_complete.
      * apply fill_request_status.
      * apply fill_request_ps_number.
    + apply fill_all_unique; [intros u r v; apply fill_request_keeps|apply fill_request_sets_id].
    + apply ensure_request_again, fill_all_Forall. intros u r. apply fill_request_complete.
  - eexists _, _. split; [apply ensure_stock_run|]. simpl. split; [|split].
    + apply fill_all_Forall2. intros u r. split.
      * intros v. apply fill_stock_keeps_id.
      * apply has_true_get, fill_stock_normal.
    + apply fill_all_unique; [apply fill_stock_keeps_id|apply fill_stock_sets_id].
    + apply ensure_stock_again, fill_all_Forall. intros u r. apply fill_stock_normal.
Qed.

Ltac find_elem :=
  repeat first [by apply list_elem_of_here | apply list_elem_of_further].

Ltac nodup_strings :=
  repeat (apply NoDup_cons_2;
          [rewrite ?not_elem_of_cons; repeat split; try discriminate; apply not_elem_of_nil|]);
  apply NoDup_nil_2.

Lemma normalizers_fill_ids_idempotent_witness :
  ∃ rows' w',
    ensure_request_id_and_defaults legacy_requests offline_world = (Ok rows', w') ∧
    unique_ids rows'.
Proof.
  destruct (proj1 normalizers_fill_ids_idempotent legacy_requests offline_world)
    as (rows' & w' & Hrun & _ & Hnd & _).
  exists rows', w'. split; [exact Hrun|]. apply Hnd.
  vm_compute. nodup_strings.
Defined.

(** A record without the key [id] gets the identifier drawn for it: the
    first such record of a collection gets the next UUID of the world. *)
Lemma ensure_request_draws_uuid (r : row) (rows : list row) (w : world) :
  get "id" r = None →
  ∃ r' rows' w',
    ensure_request_id_and_defaults (r :: rows) w = (Ok (r' :: rows'), w') ∧
    get "id" r' = Some (VStr (uuid_of w (uuid_next w))) ∧
    uuid_next w < uuid_next w'.
Proof.
  intros Hid. rewrite ensure_request_run. cbn [fill_all].
  eexists _, _, _. split; [reflexivity|]. split.
  - by apply fill_request_sets_id.
  - assert (0 < missing_ids (r :: rows)) as Hpos.
    { unfold missing_ids, has. simpl.
      rewrite (proj2 (od_has_false "id" r) Hid). simpl. lia. }
    destruct (existsb request_flagged (r :: rows)); simpl; lia.
Qed.

(** C2, at the failing input.  Records stored with an [id] field that is an
    empty text or null are returned as they are by both normalizers: no
    identifier is drawn and nothing is written, so the records still have no
    identifier after the run and two of them share the empty text; loading
    a requests file that holds them returns them so and leaves the file as
    it is.  The same records count as having no identifier where the
    application stores a request: [persist_requests] reads an empty [id]
    off each of them and files each under a UUID of its own. *)
Theorem normalizers_keep_blank_ids :
  ensure_request_id_and_defaults blank_id_requests offline_world
  = (Ok blank_id_requests, offline_world) ∧
  load_requests_data blank_id_world
  = (Ok (VList (map VDict blank_id_requests), SourceLocal, None), blank_id_world) ∧
  ensure_stock_id_and_defaults blank_id_stock offline_world
  = (Ok blank_id_stock, offline_world) ∧
  ids_of blank_id_requests = [VStr ""; VStr ""; VNone] ∧
  ids_of blank_id_stock = [VStr ""; VNone] ∧
  ¬ NoDup (ids_of blank_id_requests) ∧
  Forall (λ r, given_id r = "") blank_id_requests ∧
  files (snd (persist_requests (map VDict blank_id_requests) offline_world))
    !! FILES "requests"
  = Some (Json (VList (map VDict
      (zip_with (λ n r, od_set "id" (VStr (uuid_of offline_world n)) r) [0; 1; 2]
         blank_id_requests)))).
Proof.
  split; [reflexivity|]. split; [reflexivity|]. split; [reflexivity|].
  split; [reflexivity|]. split; [reflexivity|]. split; [|split].
  - intros Hnd. apply NoDup_cons in Hnd as [Hnotin _]. apply Hnotin. left.
  - repeat constructor.
  - vm_compute. reflexivity.
Qed.

(** What the stock normalizer does to the fields of every row: an absent
    quantity becomes 0, a present one its integer value or 0 when it has
    none, and a project label that is a text becomes upper-case and
    trimmed. *)
Lemma ensure_stock_values (rows : list row) (w : world) :
  ∃ rows' w',
    ensure_stock_id_and_defaults rows w = (Ok rows', w') ∧
    Forall2 (λ r r',
       get "quantity" r' = Some (VInt (stock_quantity r)) ∧
       ∀ p, get "project" r = Some (VStr p) →
            ∃ l, get "project" r' = Some (VStr l) ∧ l = PyStr.upper (PyStr.strip p) ∧
                 upper_trimmed l) rows rows'.
Proof.
  eexists _, _. split; [apply ensure_stock_run|]. simpl.
  apply fill_all_Forall2. intros u r. split; [apply fill_stock_quantity|].
  intros p Hp. eexists. rewrite fill_stock_project, Hp.
  split; [done|]. split; [done|apply normalized_label].
Qed.

(** The stock file is written exactly when some row lacked an [id] or a
    quantity, or had a quantity without an integer value. *)
Lemma ensure_stock_writes (rows : list row) (w : world) :
  trace (snd (ensure_stock_id_and_defaults rows w)) =
  if existsb stock_flagged rows then FileWrite (FILES "stock") :: trace w else trace w.
Proof.
  rewrite ensure_stock_run. simpl. by destruct (existsb stock_flagged rows).
Qed.

(** C8, at the failing input: the row is changed (quantity 5 as an integer,
    label MOE) and the world is left as it was, so the stock file still
    holds the row as it was read. *)
Theorem ensure_stock_changes_without_saving :
  ensure_stock_id_and_defaults text_stock text_stock_world
  = (Ok [[("id", VStr "s-7"); ("school_id", VStr "1565"); ("project", VStr "MOE");
          ("type", VStr "KIMONO"); ("size", VStr "A1"); ("quantity", VInt 5)]],
     text_stock_world) ∧
  files text_stock_world !! FILES "stock" = Some (Json (VList (map VDict text_stock))).
Proof. split; reflexivity. Qed.

(** ** persist_requests *)

Lemma truthy_str_true (s : string) : truthy (VStr s) = true ↔ s ≠ "".
Proof.
  simpl. rewrite negb_true_iff. apply String.eqb_neq.
Qed.

Lemma request_item_run (rec : pyval) (w : world) :
  request_item rec w =
  let '(rid, item, n') := next_item (entropy w) (uuid_next w) rec in
  (Ok (rid, item), with_uuid_next n' w).
Proof.
  unfold request_item, next_item, uuid4, uuid_of. unfold_M.
  destruct (truthy (VStr (given_id (as_dict rec)))); simpl; [|done].
  by rewrite with_uuid_next_same.
Qed.

Lemma merge_records_run (records : list pyval) (by_id : list (string * row))
    (payload : list row) (saved : nat) (w : world) :
  merge_records records by_id payload saved w =
  let '(b, p, n') := merge_pure (entropy w) (uuid_next w) records by_id payload in
  (Ok (b, p, saved + length records), with_uuid_next n' w).
Proof.
  revert by_id payload saved w.
  induction records as [|rec rest IH]; intros by_id payload saved w; simpl.
  - unfold_M. by rewrite Nat.add_0_r, with_uuid_next_same.
  - unfold_M. rewrite request_item_run.
    destruct (next_item (entropy w) (uuid_next w) rec) as [[rid item] n'].
    rewrite IH. simpl.
    destruct (merge_pure _ _ _ _ _) as [[b p] n'']. simpl.
    do 3 f_equal. lia.
Qed.

Lemma item_with_id_get_id (rid : string) (item : row) :
  get "id" (item_with_id rid item) = Some (VStr rid).
Proof.
  unfold item_with_id, coerce_quantity, get.
  match goal with |- context [od_get "quantity" ?x] => set (it := x) end.
  assert (od_get "id" it = Some (VStr rid)) as Hit.
  { unfold it. rewrite !od_setdefault_get_ne by done. apply od_get_set_eq. }
  destruct (od_get "quantity" it) as [q|]; [|done].
  destruct (py_int q); [|done]. by rewrite od_get_set_ne.
Qed.

Lemma next_item_id (e : nat → N) (n : nat) (rec : pyval) :
  let '(rid, item, _) := next_item e n rec in
  rid ≠ "" ∧ PyStr.strip rid = rid ∧ item = item_with_id rid (as_dict rec).
Proof.
  unfold next_item.
  destruct (truthy (VStr (given_id (as_dict rec)))) eqn:E.
  - apply truthy_str_true in E. split; [done|]. split; [|done].
    unfold given_id. apply strip_idem.
  - split; [apply uuid_str_nonempty|]. split; [apply uuid_str_strip|done].
Qed.

Lemma item_with_id_not_blank (rid : string) (item : row) :
  rid ≠ "" → PyStr.strip rid = rid → ¬ blank_id (item_with_id rid item).
Proof.
  intros Hne Hs. unfold blank_id, row_id_text, get_or.
  rewrite item_with_id_get_id. simpl. by rewrite Hs.
Qed.

Lemma merge_pure_not_blank (e : nat → N) (n : nat) (records : list pyval)
    (by_id : list (string * row)) (payload : list row) :
  Forall (λ r, ¬ blank_id r) (od_values by_id) →
  Forall (λ r, ¬ blank_id r) (od_values (merge_pure e n records by_id payload).1.1).
Proof.
  revert n by_id payload. induction records as [|rec rest IH]; intros n by_id payload; simpl.
  - done.
  - intros Hby. pose proof (next_item_id e n rec) as Hit.
    destruct (next_item e n rec) as [[rid item] n']. destruct Hit as (Hne & Hs & ->).
    apply IH, od_values_set; [|done]. by apply item_with_id_not_blank.
Qed.

Lemma index_existing_dicts (acc : list (string * row)) (l : list pyval) :
  Forall is_dict l →
  ∃ by_id, index_existing acc l = Ok by_id ∧
    (Forall (λ r, ¬ blank_id r) (od_values acc) →
     Forall (λ r, ¬ blank_id r) (od_values by_id)).
Proof.
  intros Hl. revert acc. induction Hl as [|v l [d ->] _ IH]; intros acc; simpl.
  - eauto.
  - destruct (IH (if truthy (VStr (PyStr.strip (py_str (get_or "id" (VStr "") d))))
                  then od_set (PyStr.strip (py_str (get_or "id" (VStr "") d))) d acc
                  else acc)) as (by_id & Hrun & Hkeep).
    exists by_id. split; [done|]. intros Hacc. apply Hkeep.
    destruct (truthy _) eqn:E; [|done].
    apply od_values_set; [|done]. apply truthy_str_true in E. exact E.
Qed.

Lemma load_existing (w : world) :
  rows_file (files w !! FILES "requests") →
  ∃ loaded,
    load_json (FILES "requests") w = (Ok loaded, w) ∧
    py_iter (py_or loaded (VList [])) = Ok (existing_of (files w !! FILES "requests")) ∧
    Forall is_dict (existing_of (files w !! FILES "requests")).
Proof.
  unfold load_json, rows_file, existing_of.
  destruct (files w !! FILES "requests") as [[|v]|]; try (intros _; by eexists).
  destruct v; try done. intros Hl. eexists. split; [done|]. split; [|done].
  by destruct l.
Qed.

Lemma persist_requests_run (records : list pyval) (w : world) (by0 : list (string * row)) :
  records ≠ [] →
  rows_file (files w !! FILES "requests") →
  index_existing [] (existing_of (files w !! FILES "requests")) = Ok by0 →
  persist_requests records w =
  let '(b, payload, n') := merge_pure (entropy w) (uuid_next w) records by0 [] in
  push_payload payload (length records)
    (after_save (FILES "requests") (VList (map VDict (od_values b))) (with_uuid_next n' w)).
Proof.
  intros Hne Hfile Hidx. unfold persist_requests.
  rewrite bool_decide_eq_false_2 by (by destruct records).
  destruct (load_existing w Hfile) as (loaded & Hload & Hiter & _).
  unfold_M. rewrite Hload, Hiter, Hidx, merge_records_run.
  destruct (merge_pure _ _ _ _ _) as [[b p] n']. reflexivity.
Qed.

Lemma push_payload_files (payload : list row) (saved : nat) (w : world) :
  files (snd (push_payload payload saved w)) = files w.
Proof.
  unfold push_payload, remote_upsert, remote_call. unfold_M.
  destruct (supabase w); simpl; [|done].
  destruct (bool_decide (length payload = 0)); simpl; [done|].
  by destruct (faults w) as [|[] fl].
Qed.

Lemma push_payload_ok (payload : list row) (saved : nat) (w : world) :
  ∃ result, fst (push_payload payload saved w) = Ok result.
Proof.
  unfold push_payload, remote_upsert, remote_call. unfold_M.
  destruct (supabase w); simpl; [|eauto].
  destruct (bool_decide (length payload = 0)); simpl; [eauto|].
  destruct (faults w) as [|[] fl]; simpl; eauto.
Qed.

Lemma push_payload_fails (payload : list row) (saved : nat) (w : world) (fl : list bool) :
  supabase w = true → payload ≠ [] → faults w = true :: fl →
  push_payload payload saved w
  = (Ok (PersistResult saved 0 (Some RemoteError)),
     emit (Remote (OpUpsert "requests" payload (Some "id")) false) (with_faults fl w)).
Proof.
  intros Hsup Hne Hfl. unfold push_payload, remote_upsert, remote_call. unfold_M.
  rewrite Hsup. rewrite bool_decide_eq_false_2 by (by destruct payload).
  simpl. rewrite Hfl. reflexivity.
Qed.

Lemma item_with_id_complete (d : row) (i : string) :
  get "id" d = Some (VStr i) → PyStr.strip i = i → i ≠ "" →
  has "status" d = true → has "ps_number" d = true →
  (get "quantity" d = None ∨ ∃ z, get "quantity" d = Some (VInt z)) →
  given_id d = i ∧ item_with_id i d = d.
Proof.
  intros Hid Hs Hne Hst Hps Hq. split.
  - unfold given_id, get_or, py_or. rewrite Hid. simpl.
    apply String.eqb_neq in Hne. rewrite Hne. simpl. exact Hs.
  - unfold item_with_id. rewrite (od_set_id "id" (VStr i) d Hid).
    rewrite (od_setdefault_id "status") by exact Hst.
    rewrite (od_setdefault_id "ps_number") by exact Hps.
    unfold coerce_quantity. destruct Hq as [->|[z Hz]]; [done|].
    rewrite Hz. simpl. by apply od_set_id.
Qed.

(** C1. A call [persist_requests([r])] whose remote upsert raises (the
    client exists, the stored collection could be read, and the remote call
    fails) returns saved = 1, synced = 0 and the exception as error.  The
    requests file then holds a collection that contains the item built from
    [r], which is [r] itself when [r] is a request as the application
    builds it.  The file is written before the upsert is attempted, the
    remote tables are untouched, and the file ends up the same whatever the
    remote store does and whether or not a client exists. *)
Theorem persist_requests_remote_failure (r : pyval) (w : world) :
  supabase w = true →
  rows_file (files w !! FILES "requests") →
  hd false (faults w) = true →
  ∃ w' stored rid payload,
    persist_requests [r] w = (Ok (PersistResult 1 0 (Some RemoteError)), w') ∧
    files w' !! FILES "requests" = Some (Json (VList (map VDict stored))) ∧
    item_with_id rid (as_dict r) ∈ stored ∧
    (∀ d, r = VDict d → complete_request d → d ∈ stored) ∧
    trace w' = Remote (OpUpsert "requests" payload (Some "id")) false
               :: FileWrite (FILES "requests") :: trace w ∧
    tables w' = tables w ∧
    ∀ fl client,
      files (snd (persist_requests [r] (with_faults fl (with_supabase client w)))) = files w'.
Proof.
  intros Hsup Hfile Hfault.
  destruct (faults w) as [|b fl0] eqn:Hfl; simpl in Hfault; [done|subst b].
  destruct (load_existing w Hfile) as (_ & _ & _ & Hdicts).
  destruct (index_existing_dicts [] _ Hdicts) as (by0 & Hidx & _).
  pose proof (next_item_id (entropy w) (uuid_next w) r) as Hitem.
  pose proof (persist_requests_run [r] w by0 ltac:(done) Hfile Hidx) as Hrun.
  pose proof (λ fl client,
    persist_requests_run [r] (with_faults fl (with_supabase client w)) by0
      ltac:(done) Hfile Hidx) as Hany.
  simpl in Hrun, Hany.
  destruct (next_item (entropy w) (uuid_next w) r) as [[rid item] n'] eqn:Hnext.
  destruct Hitem as (Hne & Hstrip & ->).
  eexists _, (od_values (od_set rid (item_with_id rid (as_dict r)) by0)), rid, _.
  split; [|split; [|split; [|split; [|split; [|split]]]]].
  - rewrite Hrun. by apply (push_payload_fails _ _ _ fl0).
  - simpl. apply lookup_insert_eq.
  - eapply od_get_values, od_get_set_eq.
  - intros d -> (i & Hid & Hs & Hi & Hst & Hps & Hq).
    destruct (item_with_id_complete d i Hid Hs Hi Hst Hps Hq) as [Hg Hit].
    assert (rid = i) as ->.
    { clear Hrun Hany. unfold next_item in Hnext. simpl as_dict in Hnext.
      rewrite Hg in Hnext. apply truthy_str_true in Hi. rewrite Hi in Hnext.
      congruence. }
    simpl as_dict. rewrite Hit. eapply od_get_values, od_get_set_eq.
  - reflexivity.
  - reflexivity.
  - intros fl client. rewrite Hany, push_payload_files. reflexivity.
Qed.

Lemma persist_requests_remote_failure_witness :
  ∃ w' stored,
    persist_requests [VDict new_request] unreachable_world
    = (Ok (PersistResult 1 0 (Some RemoteError)), w') ∧
    files w' !! FILES "requests" = Some (Json (VList (map VDict stored))) ∧
    new_request ∈ stored.
Proof.
  destruct (persist_requests_remote_failure (VDict new_request) unreachable_world)
    as (w' & stored & rid & payload & Hrun & Hfile & _ & Hin & _).
  - reflexivity.
  - vm_compute. repeat econstructor.
  - reflexivity.
  - exists w', stored. split; [exact Hrun|]. split; [exact Hfile|].
    apply (Hin new_request eq_refl).
    exists "7d9f2c1e-0000-4000-8000-00000000abcd".
    repeat split; try reflexivity; [discriminate|]. right. by exists 2%Z.
Defined.

(** Records whose [id] is missing or a blank text are dropped.  Every call
    [persist_requests(records)] with a non-empty list, made while the stored
    collection can be read, writes a requests file in which the text
    [str(row.get("id", "")).strip()] of every record is not empty: a record
    that was stored without the key [id], or with a blank text under it, is
    gone from the file. *)
Lemma persist_requests_drops_blank_ids (records : list pyval) (w : world) :
  records ≠ [] →
  rows_file (files w !! FILES "requests") →
  ∃ result w' stored,
    persist_requests records w = (Ok result, w') ∧
    files w' !! FILES "requests" = Some (Json (VList (map VDict stored))) ∧
    Forall (λ r, ¬ blank_id r) stored ∧
    ∀ old, VDict old ∈ existing_of (files w !! FILES "requests") →
           blank_id old → old ∉ stored.
Proof.
  intros Hne Hfile.
  destruct (load_existing w Hfile) as (_ & _ & _ & Hdicts).
  destruct (index_existing_dicts [] _ Hdicts) as (by0 & Hidx & Hkeep).
  rewrite (persist_requests_run records w by0 Hne Hfile Hidx).
  pose proof (merge_pure_not_blank (entropy w) (uuid_next w) records by0 []
                (Hkeep (Forall_nil_2 _))) as Hnb.
  destruct (merge_pure (entropy w) (uuid_next w) records by0 []) as [[b p] n'].
  simpl in Hnb.
  set (w1 := after_save _ _ _).
  destruct (push_payload_ok p (length records) w1) as [result Hres].
  pose proof (push_payload_files p (length records) w1) as Hfiles.
  destruct (push_payload p (length records) w1) as [x w']. simpl in *. subst x.
  exists result, w', (od_values b). split; [done|]. split; [|split].
  - rewrite Hfiles. apply lookup_insert_eq.
  - exact Hnb.
  - intros old _ Hblank Hin. rewrite Forall_forall in Hnb. by apply (Hnb old).
Qed.

Lemma persist_requests_drops_blank_ids_witness :
  ∃ result w' stored,
    persist_requests [VDict new_request] unreachable_world = (Ok result, w') ∧
    files w' !! FILES "requests" = Some (Json (VList (map VDict stored))) ∧
    Forall (λ r, ¬ blank_id r) stored.
Proof.
  destruct (persist_requests_drops_blank_ids [VDict new_request] unreachable_world)
    as (result & w' & stored & Hrun & Hfile & Hnb & _).
  - discriminate.
  - vm_compute. repeat econstructor.
  - by exists result, w', stored.
Defined.

(** C10, at the failing input.  The requests file holds one record whose
    [id] is null.  The loop over the stored collection reads its identifier
    as [str(None)], the text None, which is not empty: the record is filed
    under that text and written back with its null [id], next to the request
    that was saved.  The same record, had it been in the batch, would count
    as having no identifier ([item.get("id") or ""]). *)
Theorem persist_requests_keeps_null_id :
  ∃ w',
    persist_requests [VDict new_request] null_id_world = (Ok (PersistResult 1 0 None), w') ∧
    files w' !! FILES "requests"
    = Some (Json (VList [VDict null_id_request; VDict new_request])) ∧
    get "id" null_id_request = Some VNone ∧
    row_id_text null_id_request = "None" ∧
    given_id null_id_request = "".
Proof. eexists. split; [reflexivity|]. repeat split. Qed.

(** The stored collection of the sample world loses its two records
    without a usable [id] when one new request is persisted. *)
Example persist_requests_blank_ids_sample :
  files (snd (persist_requests [VDict new_request] unreachable_world)) !! FILES "requests"
  = Some (Json (VList (map VDict
      [[("id", VStr "r-1"); ("school_id", VStr "1570"); ("status", VStr "Approved");
        ("ps_number", VStr "PS2")];
       new_request]))).
Proof. reflexivity. Qed.

(** ** Sync: what a pass leaves in the trace *)

Section keeps_rules.
Context (R : world → world → Prop) `{!Reflexive R, !Transitive R}.

Lemma keeps_ret {A} (a : A) : keeps R (mret a).
Proof. intros w. simpl. reflexivity. Qed.

Lemma keeps_lift {A} (r : res A) : keeps R (lift r).
Proof. intros w. simpl. reflexivity. Qed.

Lemma keeps_gets {A} (f : world → A) : keeps R (gets f).
Proof. intros w. simpl. reflexivity. Qed.

Lemma keeps_act (f : world → world) : (∀ w, R w (f w)) → keeps R (act f).
Proof. intros Hf w. apply Hf. Qed.

Lemma keeps_mbind {A B} (m : M A) (k : A → M B) :
  keeps R m → (∀ a, keeps R (k a)) → keeps R (m ≫= k).
Proof.
  intros Hm Hk w. specialize (Hm w). unfold mbind, M_bind, bind.
  destruct (m w) as [[a|e] w']; simpl in *; [|done].
  etrans; [exact Hm|apply Hk].
Qed.

Lemma keeps_try_except {A} (m : M A) (h : exn → M A) :
  keeps R m → (∀ e, keeps R (h e)) → keeps R (try_except m h).
Proof.
  intros Hm Hh w. specialize (Hm w). unfold try_except.
  destruct (m w) as [[a|e] w']; simpl in *; [done|].
  etrans; [exact Hm|apply Hh].
Qed.

End keeps_rules.

Ltac keeps_step :=
  match goal with
  | |- keeps _ (@mbind _ _ _ _ _ _) => refine (keeps_mbind _ _ _ _ _); [|intros ?]
  | |- keeps _ (try_except _ _) => refine (keeps_try_except _ _ _ _ _); [|intros ?]
  | |- keeps _ (@mret _ _ _ _) => refine (keeps_ret _ _)
  | |- keeps _ (ret _) => refine (keeps_ret _ _)
  | |- keeps _ (lift _) => refine (keeps_lift _ _)
  | |- keeps _ (gets _) => refine (keeps_gets _ _)
  | |- keeps _ (if ?b then _ else _) => destruct b
  | |- keeps _ (let '(_, _) := ?x in _) => destruct x
  | |- keeps _ (match ?x with _ => _ end) => destruct x
  end.

Global Instance no_new_clear_refl : Reflexive no_new_clear.
Proof. by intros w e _ He. Qed.

Global Instance no_new_clear_trans : Transitive no_new_clear.
Proof. intros w1 w2 w3 H12 H23 e He Hin. by apply H12, H23. Qed.

Lemma no_new_clear_same_trace (w w' : world) : trace w' = trace w → no_new_clear w w'.
Proof. intros Heq e _. by rewrite Heq. Qed.

Lemma no_new_clear_emit (e : event) (w w' : world) :
  ¬ is_clear e → trace w' = e :: trace w → no_new_clear w w'.
Proof.
  intros Hne Heq e' He'. rewrite Heq, elem_of_cons. intros [->|Hin]; [done|exact Hin].
Qed.

Lemma keeps_notify (n : note) : keeps no_new_clear (notify n).
Proof.
  intros w. apply (no_new_clear_emit (Notify n)); [|done].
  by intros (t & k & ok & ?).
Qed.

Lemma keeps_os_remove (path : string) : keeps no_new_clear (os_remove path).
Proof.
  intros w. apply (no_new_clear_emit (FileRemove path)); [|done].
  by intros (t & k & ok & ?).
Qed.

Lemma keeps_save_json (path : string) (data : pyval) : keeps no_new_clear (save_json path data).
Proof.
  intros w. apply (no_new_clear_emit (FileWrite path)); [|done].
  by intros (t & k & ok & ?).
Qed.

Lemma keeps_json_load (path : string) : keeps no_new_clear (json_load path).
Proof.
  intros w. unfold json_load. apply no_new_clear_same_trace.
  by destruct (files w !! path) as [[]|].
Qed.

Lemma keeps_remote_call (op : remote_op) :
  (∀ t k, op ≠ OpDeleteNeq t k) → keeps no_new_clear (remote_call op).
Proof.
  intros Hop w. unfold remote_call.
  destruct (faults w) as [|[] fl]; simpl;
    (eapply no_new_clear_emit; [|reflexivity]);
    intros (t & k & ok & [= -> _]); by eapply Hop.
Qed.

Lemma keeps_remote_select (table : string) (n : N) :
  keeps no_new_clear (remote_select table n).
Proof.
  unfold remote_select. repeat keeps_step. by apply keeps_remote_call.
Qed.

Lemma keeps_remote_upsert (table : string) (payload : list row) (k : option string) :
  keeps no_new_clear (remote_upsert table payload k).
Proof.
  unfold remote_upsert. keeps_step; [by apply keeps_remote_call|].
  refine (keeps_act _ _ _). intros w. by apply no_new_clear_same_trace.
Qed.

Ltac keeps_with leaf :=
  repeat first [ progress cbv beta iota | leaf | keeps_step ].

Ltac keeps_auto :=
  keeps_with ltac:(first
    [ apply keeps_notify | apply keeps_os_remove | apply keeps_remote_select
    | apply keeps_remote_upsert | apply keeps_json_load | apply keeps_save_json ]).

Lemma keeps_sync_table (force : bool) (table filename : string) (v : sync_vars) :
  keeps no_new_clear (sync_table force false table filename v).
Proof.
  unfold sync_table, check_existing, push_rows, mirror_users. keeps_auto.
Qed.

Lemma keeps_sync_tables (force : bool) (ts : list (string * string)) (v : sync_vars) :
  keeps no_new_clear (sync_tables force false ts v).
Proof.
  revert v. induction ts as [|[table filename] ts IH]; intros v; simpl.
  - keeps_auto.
  - keeps_step; [apply keeps_sync_table|apply IH].
Qed.

(** C7.  Every call of [sync_local_to_supabase] is made by a click of the
    Data Sync section, with the flags [button_flags] gives it.  No click
    passes [replace] without [force], and a click whose flags are not both
    set executes no clear, whatever the local files hold and whatever the
    remote store does: the clear is executed only when both flags are set.
    The function itself executes no clear when [replace] is not set,
    whatever [force] is. *)
Theorem clear_needs_both_flags :
  (∀ b, snd (button_flags b) = true → fst (button_flags b) = true) ∧
  (∀ b w, fst (button_flags b) = false ∨ snd (button_flags b) = false →
          no_new_clear w (snd (data_sync_click b w))) ∧
  (∀ force w, no_new_clear w (snd (sync_local_to_supabase force false w))).
Proof.
  assert (∀ force, keeps no_new_clear (sync_local_to_supabase force false)) as Hsync.
  { intros force. unfold sync_local_to_supabase. keeps_auto. apply keeps_sync_tables. }
  split; [|split; [|exact Hsync]].
  - by intros [[] []| |].
  - intros b w Hflags. unfold data_sync_click.
    destruct b as [[] []| |]; simpl in *; try (by destruct Hflags); apply Hsync.
Qed.

Lemma clear_needs_both_flags_witness :
  no_new_clear flaky_world (snd (data_sync_click (SyncButton false true) flaky_world)).
Proof.
  apply (proj1 (proj2 clear_needs_both_flags) (SyncButton false true) flaky_world).
  by left.
Defined.

(** The guard of the clear inside the function is [if replace:] alone.  A
    direct call with [force = false] and [replace = true], a pair of flags
    that no click produces, made while the existence check raises, clears
    the remote table users. *)
Example clear_guard_tests_replace_alone :
  let w' := snd (sync_local_to_supabase false true flaky_world) in
  Remote (OpDeleteNeq "users" "ps_number") true ∈ trace w' ∧
  ∀ b, button_flags b ≠ (false, true).
Proof.
  split; [vm_compute; find_elem|]. by intros [[] []| |].
Qed.

(** ** Sync: the skip of a table that already has remote rows *)

Lemma first_rows_nonempty (l : list row) : l ≠ [] → length (first_rows 1 l) ≠ 0.
Proof.
  unfold first_rows. destruct l as [|r l]; [done|]. intros _.
  destruct (_ <=? _)%N; simpl; lia.
Qed.

(** C6. A turn of the push loop with [force = false] for a table whose
    local file exists, whose existence check succeeds and whose remote table
    holds at least one row, ends as skipped: the skip counter goes up by
    one, the only remote call made is the select of the check, and neither
    the remote tables nor the local files change. *)
Theorem sync_table_skips_existing (replace : bool) (table filename : string)
    (v : sync_vars) (w : world) :
  path_exists filename w = true →
  hd false (faults w) = false →
  table_rows table w ≠ [] →
  ∃ w',
    sync_table false replace table filename v w
    = (Ok (SyncVars (Some false) (total_synced v) (S (total_skipped v)) (total_errors v)), w') ∧
    trace w' = Notify (Skipped table) :: Remote (OpSelect table) true :: trace w ∧
    tables w' = tables w ∧
    files w' = files w.
Proof.
  intros Hex Hok Hrows.
  pose proof (first_rows_nonempty _ Hrows) as Hlen.
  unfold sync_table, check_existing, remote_select, remote_call. unfold_M.
  rewrite Hex. simpl.
  destruct (faults w) as [|[] fl]; simpl in *; try done.
  - unfold table_rows in *. simpl.
    destruct (length (first_rows 1 (default [] (tables w !! table)))) as [|n] eqn:E; [done|].
    simpl. eexists. split; [reflexivity|]. done.
  - unfold table_rows in *. simpl.
    destruct (length (first_rows 1 (default [] (tables w !! table)))) as [|n] eqn:E; [done|].
    simpl. eexists. split; [reflexivity|]. done.
Qed.

Lemma sync_table_skips_existing_witness :
  ∃ w',
    sync_table false false "schools" "schools.json" (SyncVars None 0 0 0) seeded_world
    = (Ok (SyncVars (Some false) 0 1 0), w') ∧
    trace w' = [Notify (Skipped "schools"); Remote (OpSelect "schools") true] ∧
    tables w' = tables seeded_world ∧
    files w' = files seeded_world.
Proof.
  apply (sync_table_skips_existing false "schools" "schools.json"
           (SyncVars None 0 0 0) seeded_world).
  - reflexivity.
  - reflexivity.
  - discriminate.
Defined.

(** ** Sync: which failures a pass survives *)

(** C5, at the failing input: the users file cannot be parsed; the pass
    raises out of [sync_local_to_supabase] after the check of the first
    table, so the schools table is never looked at and no summary is
    shown. *)
Theorem sync_aborts_on_unreadable_file :
  ∃ w',
    sync_local_to_supabase false false broken_users_world = (Raise JSONDecodeError, w') ∧
    trace w' = [Remote (OpSelect "users") true] ∧
    tables w' = tables broken_users_world.
Proof. eexists. split; [reflexivity|]. split; reflexivity. Qed.

Global Instance same_files_refl : Reflexive same_files.
Proof. by intros w. Qed.

Global Instance same_files_trans : Transitive same_files.
Proof. intros w1 w2 w3 H12 H23. unfold same_files in *. congruence. Qed.

Global Instance no_new_corrupt_refl : Reflexive no_new_corrupt.
Proof. by intros w path. Qed.

Global Instance no_new_corrupt_trans : Transitive no_new_corrupt.
Proof. intros w1 w2 w3 H12 H23 path Hc. by apply H12, H23. Qed.

Lemma same_files_notify (n : note) : keeps same_files (notify n).
Proof. by intros w. Qed.

Lemma same_files_remote_call (op : remote_op) : keeps same_files (remote_call op).
Proof. intros w. unfold remote_call. by destruct (faults w) as [|[] fl]. Qed.

Lemma same_files_remote_select (table : string) (n : N) :
  keeps same_files (remote_select table n).
Proof.
  unfold remote_select. keeps_with ltac:(apply same_files_remote_call).
Qed.

Lemma same_files_remote_upsert (table : string) (payload : list row) (k : option string) :
  keeps same_files (remote_upsert table payload k).
Proof.
  unfold remote_upsert. keeps_step; [apply same_files_remote_call|].
  refine (keeps_act _ _ _). by intros w.
Qed.

Lemma same_files_remote_delete_neq (table key : string) :
  keeps same_files (remote_delete_neq table key).
Proof.
  unfold remote_delete_neq. keeps_step; [apply same_files_remote_call|].
  refine (keeps_act _ _ _). by intros w.
Qed.

Lemma same_files_json_load (path : string) : keeps same_files (json_load path).
Proof. intros w. unfold json_load. by destruct (files w !! path) as [[]|]. Qed.

Ltac same_files_auto :=
  keeps_with ltac:(first
    [ apply same_files_notify | apply same_files_remote_select
    | apply same_files_remote_upsert | apply same_files_remote_delete_neq
    | apply same_files_json_load ]).

Lemma same_files_check_existing (force replace : bool) (table : string) (v : sync_vars) :
  keeps same_files (check_existing force replace table v).
Proof. unfold check_existing. same_files_auto. Qed.

Lemma keeps_same_files_no_new_corrupt {A} (m : M A) :
  keeps same_files m → keeps no_new_corrupt m.
Proof. intros Hm w path. by rewrite (Hm w). Qed.

Lemma no_new_corrupt_os_remove (path : string) : keeps no_new_corrupt (os_remove path).
Proof.
  intros w p. simpl. destruct (decide (path = p)) as [->|Hne].
  - by rewrite lookup_delete_eq.
  - by rewrite lookup_delete_ne.
Qed.

Ltac no_new_corrupt_auto :=
  keeps_with ltac:(first
    [ apply no_new_corrupt_os_remove
    | apply keeps_same_files_no_new_corrupt;
      first [ apply same_files_notify | apply same_files_remote_select
            | apply same_files_remote_upsert | apply same_files_remote_delete_neq
            | apply same_files_json_load ] ]).

Lemma no_new_corrupt_sync_table (force replace : bool) (table filename : string)
    (v : sync_vars) :
  keeps no_new_corrupt (sync_table force replace table filename v).
Proof.
  unfold sync_table, check_existing, push_rows, clear_remote, mirror_users.
  no_new_corrupt_auto.
Qed.

Section always_ok_rules.

Lemma always_ok_ret {A} (a : A) : always_ok (mret a).
Proof. intros w. by exists a. Qed.

Lemma always_ok_act (f : world → world) : always_ok (act f).
Proof. intros w. by exists tt. Qed.

Lemma always_ok_mbind {A B} (m : M A) (k : A → M B) :
  always_ok m → (∀ a, always_ok (k a)) → always_ok (m ≫= k).
Proof.
  intros Hm Hk w. destruct (Hm w) as [a Ha]. unfold mbind, M_bind, bind.
  destruct (m w) as [[a'|e] w']; simpl in *; [|done]. apply Hk.
Qed.

Lemma always_ok_try_except {A} (m : M A) (h : exn → M A) :
  (∀ e, always_ok (h e)) → always_ok (try_except m h).
Proof.
  intros Hh w. unfold try_except.
  destruct (m w) as [[a|e] w']; simpl; [by exists a|apply Hh].
Qed.

End always_ok_rules.

Ltac always_ok_auto :=
  repeat first
    [ progress cbv beta iota
    | apply always_ok_ret | apply always_ok_act
    | match goal with
      | |- always_ok (@mbind _ _ _ _ _ _) => apply always_ok_mbind; [|intros ?]
      | |- always_ok (try_except _ _) => apply always_ok_try_except; intros ?
      | |- always_ok (notify _) => apply always_ok_act
      | |- always_ok (os_remove _) => apply always_ok_act
      | |- always_ok (ret _) => apply always_ok_ret
      | |- always_ok (if ?b then _ else _) => destruct b
      | |- always_ok (let '(_, _) := ?x in _) => destruct x
      | |- always_ok (match ?x with _ => _ end) => destruct x
      end ].

Lemma always_ok_check_existing (force replace : bool) (table : string) (v : sync_vars) :
  always_ok (check_existing force replace table v).
Proof. unfold check_existing. always_ok_auto. Qed.

Lemma always_ok_push_rows (replace : bool) (table filename : string) (shaped : list row)
    (v : sync_vars) :
  always_ok (push_rows replace table filename shaped v).
Proof. unfold push_rows, mirror_users. always_ok_auto. Qed.

Lemma sync_table_ok (force replace : bool) (table filename : string) (v : sync_vars)
    (w : world) :
  files w !! filename ≠ Some Corrupt →
  ∃ v', fst (sync_table force replace table filename v w) = Ok v'.
Proof.
  intros Hfile. unfold sync_table. unfold mbind at 1, M_bind at 1, bind at 1, gets.
  destruct (path_exists filename w) eqn:Hex; simpl; [|by eexists].
  apply bool_decide_eq_true in Hex as [f Hf].
  unfold mbind at 1, M_bind at 1, bind at 1.
  destruct (always_ok_check_existing force replace table v w) as [[fts skip] Hchk].
  pose proof (same_files_check_existing force replace table v w) as Hsame.
  destruct (check_existing force replace table v w) as [[a|e] w1]; simpl in *; [|done].
  injection Hchk as ->. destruct skip; simpl; [by eexists|].
  unfold mbind at 1, M_bind at 1, bind at 1, json_load.
  unfold same_files in Hsame. rewrite Hsame, Hf.
  destruct f as [|d]; [done|].
  destruct d; try (simpl; by eexists).
  apply always_ok_push_rows.
Qed.

(** Apart from a local file that cannot be parsed, nothing stops a pass:
    whatever remote calls fail, it visits every table and returns. *)
Lemma sync_survives_remote_failures (force replace : bool) (w : world) :
  files_parse w →
  ∃ w', sync_local_to_supabase force replace w = (Ok tt, w').
Proof.
  intros Hparse.
  assert (∀ ts v w0,
    (∀ table filename, (table, filename) ∈ ts → files w0 !! filename ≠ Some Corrupt) →
    ∃ v', fst (sync_tables force replace ts v w0) = Ok v') as Hloop.
  { induction ts as [|[table filename] ts IH]; intros v w0 Hts; simpl.
    - by exists v.
    - destruct (sync_table_ok force replace table filename v w0) as [v1 Hv1].
      { apply (Hts table filename), list_elem_of_here. }
      pose proof (no_new_corrupt_sync_table force replace table filename v w0) as Hkeep.
      unfold mbind, M_bind, bind.
      destruct (sync_table force replace table filename v w0) as [[a|e] w1];
        simpl in *; [|done].
      apply IH. intros t f Hin Hc.
      apply (Hts t f); [by apply list_elem_of_further|]. by apply Hkeep. }
  destruct (Hloop TABLES (SyncVars None 0 0 0) w Hparse) as [v' Hv'].
  unfold sync_local_to_supabase. unfold_M.
  destruct (supabase w); cbn [negb]; cbv beta iota; [|by eexists].
  destruct (sync_tables force replace TABLES (SyncVars None 0 0 0) w) as [[a|e] w1];
    cbn [fst] in Hv'; [|done].
  by eexists.
Qed.

(** ** Manage Requests *)

Lemma is_pending_Pending (r : row) :
  get "status" r = Some (VStr "Pending") → is_pending r = true.
Proof. intros Hs. unfold is_pending, get_or. by rewrite Hs. Qed.

Lemma elem_of_pending_of (r : row) (visible : list row) :
  r ∈ pending_of visible ↔ r ∈ visible ∧ is_pending r = true.
Proof. unfold pending_of. by rewrite !list_elem_of_In, filter_In. Qed.

Lemma elem_of_finalized_of (r : row) (visible : list row) :
  r ∈ finalized_of visible ↔ r ∈ visible ∧ is_pending r = false.
Proof.
  unfold finalized_of. rewrite !list_elem_of_In, filter_In, negb_true_iff. done.
Qed.

Lemma index_by_id_keeps (kB : hkey) (B : row) (rows : list row) (acc : list (hkey * row)) :
  Forall (λ r, ∃ k, id_key r = Ok k) rows →
  id_key B = Ok kB →
  (∀ r, r ∈ rows → id_key r = Ok kB → r = B) →
  (od_get kB acc = Some B ∨ B ∈ rows) →
  (∀ x, od_get kB acc = Some x → x = B) →
  ∃ by_id, index_by_id acc rows = Ok by_id ∧ od_get kB by_id = Some B.
Proof.
  intros Hhash HB. revert acc.
  induction Hhash as [|r rows [k Hk] _ IH]; intros acc Huniq Hin Hacc; simpl.
  - exists acc. split; [done|]. destruct Hin as [?|Hin]; [done|]. by apply elem_of_nil in Hin.
  - rewrite Hk. apply IH.
    + intros r' Hr'. apply Huniq. by apply list_elem_of_further.
    + destruct (decide (k = kB)) as [->|Hne].
      * left. rewrite (Huniq r (list_elem_of_here _ _) Hk). apply od_get_set_eq.
      * rewrite od_get_set_ne by done.
        destruct Hin as [?|Hin]; [by left|].
        apply elem_of_cons in Hin as [->|Hin]; [congruence|by right].
    + intros x. destruct (decide (k = kB)) as [->|Hne].
      * rewrite od_get_set_eq. intros [= <-]. by apply Huniq; [apply list_elem_of_here|].
      * rewrite od_get_set_ne by done. apply Hacc.
Qed.

Lemma apply_edits_keeps (is_admin : bool) (kB : hkey) (B : row) (pending edits : list row)
    (idx : nat) (by_id : list (hkey * row)) (updated : list hkey) :
  (idx + length edits ≤ length pending)%nat →
  (∀ p, p ∈ pending → ∃ k, id_key p = Ok k ∧ k ≠ kB) →
  od_get kB by_id = Some B →
  ∃ by_id' updated',
    apply_edits is_admin pending idx edits by_id updated = Ok (by_id', updated') ∧
    od_get kB by_id' = Some B.
Proof.
  intros Hlen Hpend. revert idx by_id updated Hlen.
  induction edits as [|er edits IH]; intros idx by_id updated Hlen HB; simpl.
  - eauto.
  - simpl in Hlen. destruct (pending !! idx) as [p|] eqn:Hp.
    2:{ apply lookup_ge_None in Hp. lia. }
    destruct (Hpend p) as (rid & Hrid & Hne); [by eapply list_elem_of_lookup_2|].
    rewrite Hrid. destruct (od_get rid by_id) as [r|]; apply IH; try lia; try done.
    by rewrite od_get_set_ne.
Qed.

Lemma always_ok_push_updates (by_id : list (hkey * row)) (updated : list hkey) :
  always_ok (push_updates by_id updated).
Proof.
  unfold push_updates. apply always_ok_mbind; [intros w; by eexists|].
  intros configured. always_ok_auto.
Qed.

Lemma same_files_push_updates (by_id : list (hkey * row)) (updated : list hkey) :
  keeps same_files (push_updates by_id updated).
Proof. unfold push_updates. same_files_auto. Qed.

Lemma save_changes_run (is_admin : bool) (rows pending edits : list row) (w : world)
    (by0 by_id : list (hkey * row)) (updated : list hkey) :
  index_by_id [] rows = Ok by0 →
  apply_edits is_admin pending 0 edits by0 [] = Ok (by_id, updated) →
  ∃ w',
    save_changes is_admin rows pending edits w = (Ok (od_values by_id), w') ∧
    files w' !! FILES "requests" = Some (Json (VList (map VDict (od_values by_id)))).
Proof.
  intros Hidx Hedit. unfold save_changes.
  unfold mbind at 1 2 3, M_bind at 1 2 3, bind at 1 2 3, lift. rewrite Hidx, Hedit.
  unfold save_json, act. cbv beta iota.
  set (w1 := emit _ _).
  destruct (always_ok_push_updates by_id updated w1) as [[] Hok].
  pose proof (same_files_push_updates by_id updated w1) as Hsame.
  unfold mbind, M_bind, bind.
  destruct (push_updates by_id updated w1) as [[a|e] w2]; simpl in *; [|done].
  eexists. split; [reflexivity|]. simpl.
  unfold same_files in Hsame. rewrite Hsame. unfold w1. simpl. apply lookup_insert_eq.
Qed.

Lemma ensure_request_has_id (rows0 rows : list row) (w0 w : world) :
  ensure_request_id_and_defaults rows0 w0 = (Ok rows, w) → Forall has_id rows.
Proof.
  rewrite ensure_request_run. simpl. intros [= <- _].
  apply fill_all_has_id; [intros u r v; apply fill_request_keeps|apply fill_request_sets_id].
Qed.

Lemma is_pending_other (r : row) (s : string) :
  get "status" r = Some (VStr s) → PyStr.lower s ≠ "pending" → is_pending r = false.
Proof.
  intros Hs Hne. unfold is_pending, get_or. rewrite Hs. simpl.
  by apply String.eqb_neq.
Qed.

Lemma index_by_id_holds (kB : hkey) (B : row) (rows : list row)
    (acc by_id : list (hkey * row)) :
  index_by_id acc rows = Ok by_id →
  (∀ r, r ∈ rows → id_key r = Ok kB → r = B) →
  (od_get kB acc = Some B ∨ B ∈ rows) →
  (∀ x, od_get kB acc = Some x → x = B) →
  id_key B = Ok kB →
  od_get kB by_id = Some B.
Proof.
  intros Hrun Huniq Hin Hacc HB. revert acc Hrun Hin Hacc.
  induction rows as [|r rows IH]; intros acc Hrun Hin Hacc; simpl in Hrun.
  - injection Hrun as <-. destruct Hin as [?|Hin]; [done|]. by apply elem_of_nil in Hin.
  - destruct (id_key r) as [k|e] eqn:Hk; [|done].
    apply (IH (λ r' Hr', Huniq r' (list_elem_of_further _ _ _ Hr')) _ Hrun).
    + destruct (decide (k = kB)) as [->|Hne].
      * left. rewrite (Huniq r (list_elem_of_here _ _) Hk). apply od_get_set_eq.
      * rewrite od_get_set_ne by done.
        destruct Hin as [?|Hin]; [by left|].
        apply elem_of_cons in Hin as [->|Hin]; [congruence|by right].
    + intros x. destruct (decide (k = kB)) as [->|Hne].
      * rewrite od_get_set_eq. intros [= <-]. by apply Huniq; [apply list_elem_of_here|].
      * rewrite od_get_set_ne by done. apply Hacc.
Qed.

Lemma index_by_id_hashable (rows : list row) (acc by_id : list (hkey * row)) (B : row) :
  index_by_id acc rows = Ok by_id → B ∈ rows → ∃ k, id_key B = Ok k.
Proof.
  revert acc. induction rows as [|r rows IH]; intros acc Hrun Hin;
    [by apply elem_of_nil in Hin|].
  simpl in Hrun. destruct (id_key r) as [k|e] eqn:Hk; [|done].
  apply elem_of_cons in Hin as [->|Hin]; [by exists k|]. by eapply IH.
Qed.

Lemma apply_edits_holds (is_admin : bool) (kB : hkey) (B : row) (pending edits : list row)
    (idx : nat) (by_id by_id' : list (hkey * row)) (updated updated' : list hkey) :
  apply_edits is_admin pending idx edits by_id updated = Ok (by_id', updated') →
  (∀ p, p ∈ pending → id_key p ≠ Ok kB) →
  od_get kB by_id = Some B →
  od_get kB by_id' = Some B.
Proof.
  intros Hrun Hpend. revert idx by_id updated Hrun.
  induction edits as [|er edits IH]; intros idx by_id updated Hrun HB; simpl in Hrun.
  - by injection Hrun as <- _.
  - destruct (pending !! idx) as [p|] eqn:Hp; [|done].
    destruct (id_key p) as [rid|e] eqn:Hrid; [|done].
    assert (rid ≠ kB) as Hne.
    { intros ->. by apply (Hpend p); [eapply list_elem_of_lookup_2|]. }
    destruct (od_get rid by_id) as [r|]; eapply IH; try exact Hrun; try done.
    by rewrite od_get_set_ne.
Qed.

(** What the handler leaves in the requests file: the stored list when it
    returns, and the file as it was when it raises (every statement that can
    raise comes before the write). *)
Lemma save_changes_outcome (is_admin : bool) (rows pending edits : list row) (w : world) :
  let out := save_changes is_admin rows pending edits w in
  match fst out with
  | Ok stored =>
      ∃ by0 by_id updated,
        index_by_id [] rows = Ok by0 ∧
        apply_edits is_admin pending 0 edits by0 [] = Ok (by_id, updated) ∧
        stored = od_values by_id ∧
        files (snd out) !! FILES "requests" = Some (Json (VList (map VDict stored)))
  | Raise _ => snd out = w
  end.
Proof.
  cbv zeta.
  destruct (index_by_id [] rows) as [by0|e] eqn:Hidx.
  2:{ assert (save_changes is_admin rows pending edits w = (Raise e, w)) as ->; [|done].
      unfold save_changes. unfold_M. by rewrite Hidx. }
  destruct (apply_edits is_admin pending 0 edits by0 []) as [[by_id updated]|e] eqn:Hedit.
  2:{ assert (save_changes is_admin rows pending edits w = (Raise e, w)) as ->; [|done].
      unfold save_changes. unfold_M. by rewrite Hidx, Hedit. }
  destruct (save_changes_run is_admin rows pending edits w by0 by_id updated Hidx Hedit)
    as (w' & -> & Hfile).
  simpl. by exists by0, by_id, updated.
Qed.

(** C3.  Take the collection returned by load and normalize, and any
    visible part of it that contains a record A whose status reads pending
    and a record B whose status does not (Approved, Rejected, Processed or
    any other value), B's identifier being borne by no other record of the
    collection, as the unique key of the data model requires.  A is in the
    editable set and not in the read-only set; B is in the read-only set and
    not in the editable set.  Whatever the grid holds and whoever saves, the
    Save Changes handler leaves B unchanged in the stored collection: when
    it returns, the collection it has written contains B as it was; when it
    raises, it has written nothing.  It returns whenever the identifiers can
    serve as dictionary keys and the grid has no more rows than the editable
    set. *)
Theorem pending_split_and_save (rows0 rows visible : list row) (A B : row) (w0 w : world) :
  ensure_request_id_and_defaults rows0 w0 = (Ok rows, w) →
  (∀ r, r ∈ visible → r ∈ rows) →
  A ∈ visible → B ∈ visible →
  is_pending A = true → is_pending B = false →
  (∀ r k, r ∈ rows → id_key B = Ok k → id_key r = Ok k → r = B) →
  A ∈ pending_of visible ∧ (A ∉ finalized_of visible) ∧
  B ∈ finalized_of visible ∧ (B ∉ pending_of visible) ∧
  ∀ (is_admin : bool) (edits : list row),
    let out := save_changes is_admin rows (pending_of visible) edits w in
    match fst out with
    | Ok stored =>
        B ∈ stored ∧
        files (snd out) !! FILES "requests" = Some (Json (VList (map VDict stored)))
    | Raise _ => files (snd out) = files w
    end ∧
    (Forall (λ r, ∀ v, get "id" r = Some v → ∃ k, py_hash v = Ok k) rows →
     (length edits ≤ length (pending_of visible))%nat →
     ∃ stored, fst out = Ok stored).
Proof.
  intros Hload Hvis HA HB HpA HpB Huniq.
  rewrite !elem_of_pending_of, !elem_of_finalized_of.
  split; [done|]. split; [intros [_ ?]; congruence|].
  split; [done|]. split; [intros [_ ?]; congruence|].
  intros is_admin edits out.
  assert (∀ kB p, id_key B = Ok kB → p ∈ pending_of visible → id_key p ≠ Ok kB) as Hpend.
  { intros kB p HkB Hp Hk. apply elem_of_pending_of in Hp as [Hp Hpp].
    assert (p = B) as -> by (by eapply Huniq; [apply Hvis| |]). congruence. }
  split.
  - pose proof (save_changes_outcome is_admin rows (pending_of visible) edits w) as Hout.
    cbv zeta in Hout. fold out in Hout.
    destruct (fst out) as [stored|e]; [|by rewrite Hout].
    destruct Hout as (by0 & by_id & updated & Hidx & Hedit & -> & Hfile).
    split; [|done].
    assert (∃ kB, id_key B = Ok kB) as [kB HkB].
    { eapply index_by_id_hashable; [exact Hidx|by apply Hvis]. }
    eapply od_get_values, apply_edits_holds;
      [exact Hedit|intros p Hp; by apply (Hpend kB p)|].
    eapply index_by_id_holds; [exact Hidx| | | |exact HkB].
    + intros r Hr Hk. by eapply Huniq.
    + right. by apply Hvis.
    + done.
  - intros Hhash Hlen.
    assert (Forall (λ r, ∃ k, id_key r = Ok k) rows) as Hkeys.
    { pose proof (ensure_request_has_id _ _ _ _ Hload) as Hids.
      rewrite Forall_forall in *. intros r Hr.
      destruct (Hids r Hr) as [v Hv]. unfold id_key. rewrite Hv. by eapply Hhash. }
    assert (∃ kB, id_key B = Ok kB) as [kB HkB].
    { rewrite Forall_forall in Hkeys. apply Hkeys, Hvis, HB. }
    destruct (index_by_id_keeps kB B rows [] Hkeys HkB) as (by0 & Hidx & Hget0).
    { intros r Hr Hk. by eapply Huniq. }
    { right. by apply Hvis. }
    { done. }
    destruct (apply_edits_keeps is_admin kB B (pending_of visible) edits 0 by0 [])
      as (by_id & updated & Hedit & Hget); [done| |done|].
    { intros p Hp. rewrite Forall_forall in Hkeys.
      destruct (Hkeys p) as [k Hk].
      { apply elem_of_pending_of in Hp as [Hp _]. by apply Hvis. }
      exists k. split; [done|]. intros ->. by apply (Hpend kB p). }
    destruct (save_changes_run is_admin rows (pending_of visible) edits w by0 by_id updated
                Hidx Hedit) as (w' & Hrun & _).
    exists (od_values by_id). unfold out. by rewrite Hrun.
Qed.

Lemma pending_split_and_save_witness :
  let out := save_changes false [pending_request; approved_request]
               (pending_of [pending_request; approved_request]) quantity_edit offline_world in
  ∃ stored, fst out = Ok stored ∧ approved_request ∈ stored.
Proof.
  destruct (pending_split_and_save
              [pending_request; approved_request] [pending_request; approved_request]
              [pending_request; approved_request]
              pending_request approved_request offline_world offline_world)
    as (_ & _ & _ & _ & Hsave).
  - reflexivity.
  - done.
  - apply list_elem_of_here.
  - apply list_elem_of_further, list_elem_of_here.
  - reflexivity.
  - reflexivity.
  - intros r k Hr HB Hk. rewrite !elem_of_cons, elem_of_nil in Hr.
    destruct Hr as [->|[->|[]]]; [vm_compute in HB, Hk; congruence|done].
  - destruct (Hsave false quantity_edit) as [Hkeep [stored Hstored]].
    + repeat constructor; intros v Hv; vm_compute in Hv; injection Hv as <-; by eexists.
    + simpl. lia.
    + cbv zeta. exists stored. split; [exact Hstored|].
      rewrite Hstored in Hkeep. apply Hkeep.
Defined.

(** The condition on B's identifier cannot be dropped.  The handler files
    the whole collection under the identifiers before it applies the edits:
    were a Pending and an Approved record stored under one identifier, the
    edit of the Pending row would reach the Approved record. *)
Example save_changes_needs_distinct_ids :
  pending_of [pending_twin; approved_twin] = [pending_twin] ∧
  finalized_of [pending_twin; approved_twin] = [approved_twin] ∧
  fst (save_changes false [pending_twin; approved_twin]
         (pending_of [pending_twin; approved_twin]) quantity_edit offline_world)
  = Ok [[("id", VStr "r-1"); ("school_id", VStr "1565"); ("quantity", VInt 9);
         ("ps_number", VStr "PS2"); ("status", VStr "Approved")]].
Proof. split; [reflexivity|]. split; reflexivity. Qed.

(** ** Round trip: pull after push *)

Lemma foldl_upsert_distinct (k : option string) (acc rest : list row) :
  distinct_keys k (acc ++ rest)%list →
  foldl (upsert_row k) acc rest = (acc ++ rest)%list.
Proof.
  revert acc. induction rest as [|r rest IH]; intros acc Hd; simpl.
  - by rewrite app_nil_r.
  - assert (upsert_row k acc r = (acc ++ [r])%list) as ->.
    { unfold upsert_row. destruct k as [k|]; [|done].
      destruct (get k r) as [v|] eqn:Hv; [|done].
      assert (existsb (same_key k v) acc = false) as ->; [|done].
      apply not_true_is_false. intros Hex. apply existsb_exists in Hex as (ri & Hri & Hsame).
      apply list_elem_of_In, list_elem_of_lookup in Hri as [i Hi].
      rewrite (Hd i (length acc) ri r v) in Hsame; [done| | | |done].
      - by eapply lookup_lt_Some.
      - by rewrite lookup_app_l by (by eapply lookup_lt_Some).
      - by rewrite list_lookup_middle. }
    rewrite IH; [by rewrite <- app_assoc|]. by rewrite <- app_assoc.
Qed.

Lemma project_get_get (fields : list string) (r : row) (k : string) :
  get k (project_get fields r)
  = if bool_decide (k ∈ fields) then Some (get_or k VNone r) else None.
Proof.
  unfold project_get, get. induction fields as [|f fields IH]; simpl; [done|].
  destruct (decide (k = f)) as [->|Hne].
  - by rewrite bool_decide_eq_true_2 by apply list_elem_of_here.
  - rewrite IH. destruct (bool_decide (k ∈ fields)) eqn:E.
    + apply bool_decide_eq_true in E.
      by rewrite bool_decide_eq_true_2 by (by apply list_elem_of_further).
    + apply bool_decide_eq_false in E.
      rewrite bool_decide_eq_false_2; [done|]. rewrite elem_of_cons. intros [?|?]; done.
Qed.

Lemma remote_call_quiet (op : remote_op) (w : world) :
  faults w = [] → remote_call op w = (Ok tt, emit (Remote op true) w).
Proof. intros Hq. unfold remote_call. by rewrite Hq. Qed.

Lemma remote_select_quiet (table : string) (n : N) (w : world) :
  faults w = [] →
  remote_select table n w
  = (Ok (first_rows n (table_rows table w)), emit (Remote (OpSelect table) true) w).
Proof.
  intros Hq. unfold remote_select. unfold_M. by rewrite (remote_call_quiet _ _ Hq).
Qed.

Lemma remote_upsert_quiet (table : string) (payload : list row) (k : option string)
    (w : world) :
  faults w = [] →
  remote_upsert table payload k w
  = (Ok tt,
     with_tables (<[table := foldl (upsert_row k) (table_rows table w) payload]> (tables w))
       (emit (Remote (OpUpsert table payload k) true) w)).
Proof.
  intros Hq. unfold remote_upsert. unfold_M. by rewrite (remote_call_quiet _ _ Hq).
Qed.

Lemma check_existing_empty (force replace : bool) (table : string) (v : sync_vars)
    (w : world) :
  faults w = [] → table_rows table w = [] →
  check_existing force replace table v w
  = (Ok (Some (negb force && negb replace), false), emit (Remote (OpSelect table) true) w).
Proof.
  intros Hq Hempty. unfold check_existing. unfold_M.
  rewrite (remote_select_quiet _ _ _ Hq), Hempty. simpl.
  by destruct force, replace.
Qed.

Lemma clear_remote_quiet (table : string) (w : world) :
  faults w = [] → table_rows table w = [] →
  ∃ w', clear_remote table w = (Ok tt, w') ∧
        faults w' = [] ∧ table_rows table w' = [] ∧ files w' = files w.
Proof.
  intros Hq Hempty. unfold clear_remote, remote_delete_neq. unfold_M.
  destruct (clear_key table) as [key|]; [|by eexists].
  rewrite (remote_call_quiet _ _ Hq). simpl.
  eexists. split; [reflexivity|]. simpl. split; [done|]. split; [|done].
  unfold table_rows in *. simpl. rewrite lookup_insert_eq. simpl.
  by rewrite Hempty.
Qed.

Lemma mirror_users_quiet (table : string) (shaped : list row) (w : world) :
  faults w = [] → table ≠ "coaches" →
  ∃ w', mirror_users shaped w = (Ok tt, w') ∧
        faults w' = [] ∧ table_rows table w' = table_rows table w ∧
        files w' = files w ∧ (∀ e, e ∈ trace w → e ∈ trace w').
Proof.
  intros Hq Hne. unfold mirror_users. unfold_M.
  destruct (bool_decide (length (mirror_rows shaped) = 0)).
  - exists w. by repeat split.
  - rewrite (remote_upsert_quiet _ _ _ _ Hq). simpl.
    eexists. split; [reflexivity|]. simpl. split; [done|]. split; [|split; [done|]].
    + unfold table_rows. simpl. by rewrite lookup_insert_ne.
    + intros e He. by do 2 apply list_elem_of_further.
Qed.

Lemma TABLES_not_coaches (table filename : string) :
  (table, filename) ∈ TABLES → table ≠ "coaches".
Proof.
  unfold TABLES. rewrite !elem_of_cons, elem_of_nil.
  intros [[= -> _]|[[= -> _]|[[= -> _]|[[= -> _]|[[= -> _]|[]]]]]]; discriminate.
Qed.

Lemma od_get_filter_keys (keep : string → bool) (k : string) (r : row) :
  od_get k (od_filter_keys keep r) = if keep k then od_get k r else None.
Proof.
  unfold od_filter_keys. induction r as [|[k' v] r IH]; simpl.
  - by destruct (keep k).
  - destruct (keep k') eqn:Ek'; simpl.
    + destruct (decide (k = k')) as [->|Hne]; [by rewrite Ek'|exact IH].
    + rewrite IH. destruct (decide (k = k')) as [->|Hne]; [by rewrite Ek'|done].
Qed.

Lemma coerce_quantity_absent (k : string) (r : row) :
  get k r = None → get k (coerce_quantity r) = None.
Proof.
  intros Hk. unfold coerce_quantity.
  destruct (get "quantity" r) as [q|] eqn:Hq; [|done].
  destruct (py_int q); [|done].
  unfold get. rewrite od_get_set_ne; [done|]. intros <-. unfold get in *. congruence.
Qed.

Lemma shape_rows_fields (table filename : string) (data : list pyval) (r : row) (k : string) :
  (table, filename) ∈ TABLES →
  r ∈ shape_rows table data → k ∉ fields_of table → get k r = None.
Proof.
  intros Hin Hr Hk. pose proof (TABLES_not_coaches _ _ Hin) as Hnc.
  unfold shape_rows, fields_of in *.
  destruct (allowed_fields table) as [cols|] eqn:Hcols.
  2:{ revert Hcols. clear -Hin. unfold TABLES in Hin.
      rewrite !elem_of_cons, elem_of_nil in Hin.
      by destruct Hin as [[= -> _]|[[= -> _]|[[= -> _]|[[= -> _]|[[= -> _]|[]]]]]]. }
  simpl in Hk. apply list_elem_of_omap in Hr as (v & _ & Hv).
  unfold shape_row in Hv. destruct v as [| | | | |d]; try done.
  rewrite decide_False in Hv by done.
  assert (get k (od_filter_keys (λ k0, bool_decide (k0 ∈ cols)) d) = None) as Hnone.
  { unfold get. rewrite od_get_filter_keys. by rewrite bool_decide_eq_false_2. }
  destruct (decide (table = "requests")); injection Hv as <-; [|done].
  by apply coerce_quantity_absent.
Qed.

(** *** Rows of the remote table after an upsert *)

Lemma upsert_row_new (k : option string) (t : list row) (r : row) :
  r ∈ upsert_row k t r.
Proof.
  unfold upsert_row.
  destruct k as [k|]; [|apply elem_of_app; right; apply list_elem_of_here].
  destruct (get k r) as [v|]; [|apply elem_of_app; right; apply list_elem_of_here].
  destruct (existsb (same_key k v) t) eqn:E;
    [|apply elem_of_app; right; apply list_elem_of_here].
  apply existsb_exists in E as (old & Hold & Hsame).
  apply list_elem_of_fmap. exists old. split; [by rewrite Hsame|by apply list_elem_of_In].
Qed.

Lemma upsert_row_old (k : option string) (t : list row) (r s : row) :
  s ∈ t → replaces k r s = false → s ∈ upsert_row k t r.
Proof.
  intros Hin Hno. unfold upsert_row, replaces in *.
  destruct k as [k|]; [|apply elem_of_app; by left].
  destruct (get k r) as [v|]; [|apply elem_of_app; by left].
  destruct (existsb _ t); [|apply elem_of_app; by left].
  apply list_elem_of_fmap. exists s. by rewrite Hno.
Qed.

Lemma upsert_row_origin (k : option string) (t : list row) (r x : row) :
  x ∈ upsert_row k t r → x ∈ t ∨ x = r.
Proof.
  assert (x ∈ (t ++ [r])%list → x ∈ t ∨ x = r) as Happ.
  { rewrite elem_of_app, elem_of_cons, elem_of_nil. tauto. }
  unfold upsert_row. destruct k as [k|]; [|exact Happ].
  destruct (get k r) as [v|]; [|exact Happ].
  destruct (existsb _ t); [|exact Happ].
  intros Hx. apply list_elem_of_fmap in Hx as (old & -> & Hold).
  destruct (same_key k v old); [by right|by left].
Qed.

Lemma foldl_upsert_old (k : option string) (rest t : list row) (s : row) :
  s ∈ t → Forall (λ r, replaces k r s = false) rest → s ∈ foldl (upsert_row k) t rest.
Proof.
  intros Hin Hrest. revert t Hin.
  induction Hrest as [|r rest Hr _ IH]; intros t Hin; simpl; [done|].
  by apply IH, upsert_row_old.
Qed.

Lemma foldl_upsert_pushed (k : option string) (pushed t : list row) (j : nat) (s : row) :
  pushed !! j = Some s →
  (∀ j' s', j < j' → pushed !! j' = Some s' → replaces k s' s = false) →
  s ∈ foldl (upsert_row k) t pushed.
Proof.
  intros Hj Hlater.
  rewrite <- (take_drop_middle pushed j s Hj), foldl_app. simpl.
  apply foldl_upsert_old; [apply upsert_row_new|].
  apply Forall_lookup. intros i s' Hi. rewrite lookup_drop in Hi.
  apply (Hlater (S j + i)); [lia|done].
Qed.

Lemma foldl_upsert_origin (k : option string) (rest t : list row) (x : row) :
  x ∈ foldl (upsert_row k) t rest → x ∈ t ∨ x ∈ rest.
Proof.
  revert t. induction rest as [|r rest IH]; intros t; simpl; [by left|].
  intros Hx. destruct (IH _ Hx) as [Ht|Hrest].
  - destruct (upsert_row_origin _ _ _ _ Ht) as [?| ->]; [by left|].
    right. apply list_elem_of_here.
  - right. by apply list_elem_of_further.
Qed.

(** *** A turn of the push loop that counts its table as synced *)

Global Instance same_rows_refl (table : string) : Reflexive (same_rows table).
Proof. by intros w. Qed.

Global Instance same_rows_trans (table : string) : Transitive (same_rows table).
Proof. intros w1 w2 w3 H12 H23. unfold same_rows in *. congruence. Qed.

Lemma check_existing_frame (force replace : bool) (table : string) (v : sync_vars)
    (w : world) :
  ∃ r w0, check_existing force replace table v w = (Ok r, w0) ∧
    files w0 = files w ∧ tables w0 = tables w ∧ (faults w = [] → faults w0 = []).
Proof.
  unfold check_existing, remote_select, remote_call. unfold_M.
  destruct (faults w) as [|[] fl] eqn:Hf; simpl.
  - destruct (negb force && _); eexists _, _; (split; [reflexivity|]); simpl; by rewrite ?Hf.
  - eexists _, _. split; [reflexivity|]. done.
  - destruct (negb force && _); eexists _, _; (split; [reflexivity|]); simpl; done.
Qed.

Lemma clear_step (replace : bool) (table : string) (w : world) :
  ∃ w0, (if replace then clear_remote table else ret tt) w = (Ok tt, w0) ∧
    (∀ r, r ∈ table_rows table w0 → r ∈ table_rows table w) ∧
    (faults w = [] →
     faults w0 = [] ∧
     table_rows table w0
     = if replace then cleared_table table (table_rows table w) else table_rows table w).
Proof.
  destruct replace; [|by exists w].
  unfold clear_remote, cleared_table, remote_delete_neq, remote_call. unfold_M.
  destruct (clear_key table) as [key|]; [|by exists w].
  destruct (faults w) as [|[] fl] eqn:Hf; simpl.
  - eexists. split; [reflexivity|]. unfold table_rows. simpl.
    rewrite lookup_insert_eq. simpl. split; [|by rewrite Hf].
    intros r Hr. apply list_elem_of_In, filter_In in Hr as [Hr _]. by apply list_elem_of_In.
  - eexists. split; [reflexivity|]. done.
  - eexists. split; [reflexivity|]. unfold table_rows. simpl.
    rewrite lookup_insert_eq. simpl. split; [|done].
    intros r Hr. apply list_elem_of_In, filter_In in Hr as [Hr _]. by apply list_elem_of_In.
Qed.

Lemma remote_upsert_cases (table : string) (payload : list row) (k : option string)
    (w : world) :
  (∃ w1, remote_upsert table payload k w = (Ok tt, w1) ∧
     table_rows table w1 = foldl (upsert_row k) (table_rows table w) payload) ∨
  (∃ w1, remote_upsert table payload k w = (Raise RemoteError, w1) ∧ faults w ≠ []).
Proof.
  unfold remote_upsert, remote_call. unfold_M.
  destruct (faults w) as [|[] fl]; simpl.
  - left. eexists. split; [reflexivity|]. unfold table_rows. simpl. by rewrite lookup_insert_eq.
  - right. by eexists.
  - left. eexists. split; [reflexivity|]. unfold table_rows. simpl. by rewrite lookup_insert_eq.
Qed.

(** The [try] block of a turn: when it ends without exception the upsert
    was made, on the rows the clear had left. *)
Lemma push_block (replace : bool) (table : string) (shaped : list row) (w : world) :
  ∃ u w1,
    try_except
      ((if replace then clear_remote table else ret tt) ;;
       remote_upsert table shaped (conflict_targets table) ;;
       notify (Synced table (length shaped)) ;;
       ret None)
      (λ e, ret (Some e)) w = (Ok u, w1) ∧
    (u = None →
     ∃ T0, table_rows table w1 = foldl (upsert_row (conflict_targets table)) T0 shaped ∧
       (∀ r, r ∈ T0 → r ∈ table_rows table w) ∧
       (faults w = [] →
        T0 = if replace then cleared_table table (table_rows table w)
             else table_rows table w)).
Proof.
  destruct (clear_step replace table w) as (w0 & Hclear & Hsub & Hquiet).
  unfold try_except. unfold mbind at 1, M_bind at 1, bind at 1. rewrite Hclear.
  unfold mbind at 1, M_bind at 1, bind at 1.
  destruct (remote_upsert_cases table shaped (conflict_targets table) w0)
    as [(w1 & -> & Hrows)|(w1 & -> & _)].
  - unfold_M. eexists _, _. split; [reflexivity|]. intros _.
    exists (table_rows table w0). split; [exact Hrows|]. split; [exact Hsub|].
    intros Hq. by destruct (Hquiet Hq).
  - unfold_M. eexists _, _. split; [reflexivity|]. done.
Qed.

Lemma same_rows_mirror_users (table : string) (shaped : list row) :
  table ≠ "coaches" → keeps (same_rows table) (mirror_users shaped).
Proof.
  intros Hne. unfold mirror_users.
  keeps_with ltac:(first
    [ refine (keeps_act _ _ _); by intros w
    | intros w; unfold same_rows, table_rows, remote_upsert, remote_call; unfold_M;
      destruct (faults w) as [|[] fl]; simpl; by rewrite ?lookup_insert_ne ]).
Qed.

Lemma always_ok_mirror_users (shaped : list row) : always_ok (mirror_users shaped).
Proof. unfold mirror_users. always_ok_auto. Qed.

(** What a turn leaves in the remote table when it counts the table as
    synced: the rows the clear had left, with the pushed rows upserted. *)
Lemma push_rows_synced (replace : bool) (table filename : string) (shaped : list row)
    (v v' : sync_vars) (w w' : world) :
  table ≠ "coaches" →
  push_rows replace table filename shaped v w = (Ok v', w') →
  total_synced v' = S (total_synced v) →
  ∃ T0, table_rows table w' = foldl (upsert_row (conflict_targets table)) T0 shaped ∧
    (∀ r, r ∈ T0 → r ∈ table_rows table w) ∧
    (faults w = [] →
     T0 = if replace then cleared_table table (table_rows table w) else table_rows table w).
Proof.
  intros Hne. unfold push_rows.
  destruct (push_block replace table shaped w) as (u & w1 & Hblock & Hu).
  unfold mbind at 1, M_bind at 1, bind at 1. rewrite Hblock.
  destruct u as [e|].
  - unfold_M. intros [= <- <-]. simpl. lia.
  - destruct (Hu eq_refl) as (T0 & Hrows & Hsub & Hquiet). clear Hu.
    cbn [first_time_sync total_synced total_skipped total_errors].
    destruct (first_time_sync v) as [fts|].
    + assert (∃ w2, (if fts then
                       try_except (os_remove filename ;; notify (LocalDeleted filename))
                         (λ de, notify (DeleteFailed filename))
                     else ret tt) w1 = (Ok tt, w2) ∧
                    table_rows table w2 = table_rows table w1) as (w2 & Hrm & Hr2).
      { destruct fts; [|by exists w1]. unfold_M. unfold os_remove, act.
        eexists. split; [reflexivity|]. done. }
      unfold mbind at 1, M_bind at 1, bind at 1. rewrite Hrm.
      assert (∃ w3, (if decide (table = "users") then mirror_users shaped else ret tt) w2
                    = (Ok tt, w3) ∧
                    table_rows table w3 = table_rows table w2) as (w3 & Hm & Hr3).
      { destruct (decide (table = "users")); [|by exists w2].
        destruct (always_ok_mirror_users shaped w2) as [[] Hok].
        pose proof (same_rows_mirror_users table shaped Hne w2) as Hsame.
        destruct (mirror_users shaped w2) as [[[]|e0] w3]; [|done].
        by exists w3. }
      unfold mbind at 1, M_bind at 1, bind at 1. rewrite Hm.
      unfold_M. intros [= <- <-] _. exists T0. split; [congruence|done].
    + unfold_M. intros [= <- <-] _. exists T0. done.
Qed.

Lemma sync_table_synced (force replace : bool) (table filename : string) (v v1 : sync_vars)
    (data : list pyval) (w w1 : world) :
  table ≠ "coaches" →
  files w !! filename = Some (Json (VList data)) →
  sync_table force replace table filename v w = (Ok v1, w1) →
  total_synced v1 = S (total_synced v) →
  ∃ T0,
    table_rows table w1
    = foldl (upsert_row (conflict_targets table)) T0 (shape_rows table data) ∧
    (∀ r, r ∈ T0 → r ∈ table_rows table w) ∧
    (faults w = [] →
     T0 = if replace then cleared_table table (table_rows table w) else table_rows table w).
Proof.
  intros Hne Hfile. unfold sync_table.
  unfold mbind at 1, M_bind at 1, bind at 1, gets, path_exists.
  rewrite Hfile. rewrite bool_decide_eq_true_2 by eauto. cbn [negb]. cbv beta iota.
  destruct (check_existing_frame force replace table v w)
    as ([fts skip] & w0 & Hchk & Hf0 & Ht0 & Hq0).
  unfold mbind at 1, M_bind at 1, bind at 1. rewrite Hchk. cbv beta iota.
  destruct skip.
  - unfold_M. intros [= <- <-]. simpl. lia.
  - unfold mbind at 1, M_bind at 1, bind at 1, json_load. rewrite Hf0, Hfile.
    intros Hrun Hsynced.
    destruct (push_rows_synced _ _ _ _ _ _ _ _ Hne Hrun Hsynced) as (T0 & Hrows & Hsub & Hquiet).
    exists T0. unfold table_rows in *. rewrite Ht0 in *. split; [done|]. split; [done|].
    intros Hq. by apply Hquiet, Hq0.
Qed.

Lemma pull_table_pulled (table path : string) (c c2 : nat * nat) (w w2 : world) :
  pull_table table path c w = (Ok c2, w2) →
  fst c2 = S (fst c) →
  files w2 !! path
  = Some (Json (VList (map VDict (map (pull_shape table)
                                    (first_rows 100001 (table_rows table w)))))).
Proof.
  unfold pull_table, remote_select, remote_call. unfold_M.
  destruct (faults w) as [|[] fl]; simpl; intros [= <- <-] Hc; simpl in *;
    try lia; apply lookup_insert_eq.
Qed.

(** C9, as amended.  Take a turn of the push loop that counts its table as
    synced (its upsert succeeded) and the turn of the pull loop that follows
    it, counting the table as pulled.  The pull writes to the local file one
    record for each of the first 100001 rows the remote table then holds.
    Every pushed row is among the rows of the remote table, unless a later
    pushed row replaced it on the conflict key; the other rows of the remote
    table are rows it held before the push.  When every remote call
    succeeds the remote table holds the rows that the clear left (all rows
    without [replace]) with the pushed rows upserted into them; when the
    remote table was empty and no two pushed rows share the conflict key it
    holds the pushed rows and nothing else.  A pushed row has no field
    outside the allowed ones, and a pulled record has every allowed field:
    the value of the remote row, null where the remote row has none, so
    that a field which a pushed row lacked comes back as null. *)
Theorem pull_after_push (force replace : bool) (table filename : string)
    (v v1 : sync_vars) (c c2 : nat * nat) (data : list pyval) (w w1 w2 : world) :
  (table, filename) ∈ TABLES →
  files w !! filename = Some (Json (VList data)) →
  sync_table force replace table filename v w = (Ok v1, w1) →
  total_synced v1 = S (total_synced v) →
  pull_table table filename c w1 = (Ok c2, w2) →
  fst c2 = S (fst c) →
  let pushed := shape_rows table data in
  let held := table_rows table w in
  let remote := table_rows table w1 in
  files w2 !! filename
  = Some (Json (VList (map VDict (map (pull_shape table) (first_rows 100001 remote))))) ∧
  (∀ j s, pushed !! j = Some s →
     (∀ j' s', j < j' → pushed !! j' = Some s' →
               replaces (conflict_targets table) s' s = false) →
     s ∈ remote) ∧
  (∀ r, r ∈ remote → r ∈ pushed ∨ r ∈ held) ∧
  (faults w = [] →
   remote = foldl (upsert_row (conflict_targets table))
              (if replace then cleared_table table held else held) pushed) ∧
  (held = [] → distinct_keys (conflict_targets table) pushed → remote = pushed) ∧
  (∀ r k, r ∈ pushed → k ∉ fields_of table → get k r = None) ∧
  (∀ r k, get k (pull_shape table r)
          = if bool_decide (k ∈ fields_of table) then Some (get_or k VNone r) else None).
Proof.
  intros Hin Hfile Hpush Hsynced Hpull Hpulled pushed held remote.
  destruct (sync_table_synced force replace table filename v v1 data w w1
              (TABLES_not_coaches _ _ Hin) Hfile Hpush Hsynced)
    as (T0 & Hrows & Hsub & Hquiet).
  fold pushed in Hrows. fold remote in Hrows. fold held in Hsub, Hquiet.
  split; [by eapply pull_table_pulled|].
  split; [|split; [|split; [|split; [|split]]]].
  - intros j s Hj Hlater. rewrite Hrows. by eapply foldl_upsert_pushed.
  - intros r Hr. rewrite Hrows in Hr.
    destruct (foldl_upsert_origin _ _ _ _ Hr) as [?|?]; [right; by apply Hsub|by left].
  - intros Hq. by rewrite Hrows, (Hquiet Hq).
  - intros Hempty Hdist. rewrite Hrows.
    assert (T0 = []) as ->.
    { destruct T0 as [|r T0]; [done|].
      specialize (Hsub r (list_elem_of_here _ _)). rewrite Hempty in Hsub.
      by apply elem_of_nil in Hsub. }
    by rewrite (foldl_upsert_distinct _ [] pushed Hdist).
  - intros r k Hr Hk. by eapply shape_rows_fields.
  - intros r k. apply project_get_get.
Qed.

Lemma pull_after_push_witness :
  let w1 := snd (sync_table true false "schools" "schools.json" (SyncVars None 0 0 0)
                   two_sided_world) in
  let w2 := snd (pull_table "schools" "schools.json" (0, 0) w1) in
  files w2 !! "schools.json"
  = Some (Json (VList (map VDict (map (pull_shape "schools")
                                    (first_rows 100001 (table_rows "schools" w1)))))) ∧
  school_a ∈ table_rows "schools" w1.
Proof.
  intros w1 w2.
  destruct (pull_after_push true false "schools" "schools.json" (SyncVars None 0 0 0)
              (SyncVars (Some false) 1 0 0) (0, 0) (1, 0) [VDict school_a]
              two_sided_world w1 w2)
    as (Hfile & Hpushed & _).
  - unfold TABLES. find_elem.
  - reflexivity.
  - reflexivity.
  - reflexivity.
  - reflexivity.
  - reflexivity.
  - split; [exact Hfile|]. apply (Hpushed 0 school_a); [reflexivity|].
    intros j' s' Hlt Hj'. destruct j'; [lia|done].
Defined.

(** C9, as stated, fails in two ways.  A school stored without city and
    coaches is pushed with the two fields it has (the field the table does
    not accept is dropped), and the pull that follows writes it with four
    fields: the pulled record has fields that the pushed row had not.  And
    after Force Upsert All into a remote table that holds another school,
    the pull writes that school too: the file holds a record that was not
    pushed. *)
Lemma pull_differs_from_push :
  (let w1 := snd (sync_local_to_supabase false false roundtrip_world) in
   let w2 := snd (pull_supabase_to_local w1) in
   Remote (OpUpsert "schools" [[("id", VStr "1565"); ("nome", VStr "Escola A")]] (Some "id"))
     true ∈ trace w1 ∧
   files w2 !! "schools.json"
   = Some (Json (VList [VDict [("id", VStr "1565"); ("nome", VStr "Escola A");
                               ("city", VNone); ("coaches", VNone)]])) ∧
   get "city" [("id", VStr "1565"); ("nome", VStr "Escola A")] = None ∧
   get "city" [("id", VStr "1565"); ("nome", VStr "Escola A");
               ("city", VNone); ("coaches", VNone)] = Some VNone) ∧
  (let w1 := snd (data_sync_click ForceUpsertAll two_sided_world) in
   let w2 := snd (pull_supabase_to_local w1) in
   Remote (OpUpsert "schools" [school_a] (Some "id")) true ∈ trace w1 ∧
   files w2 !! "schools.json" = Some (Json (VList [VDict school_b; VDict school_a])) ∧
   school_b ∉ [school_a]).
Proof.
  split.
  - split; [vm_compute; find_elem|]. split; [reflexivity|]. split; reflexivity.
  - split; [vm_compute; find_elem|]. split; [reflexivity|].
    rewrite elem_of_cons, elem_of_nil. by intros [?|[]].
Qed.

(** After Replace Remote With Local the rows the remote table held are
    gone, and the pull writes the pushed school alone. *)
Example pull_after_replace :
  let w1 := snd (data_sync_click ReplaceRemoteWithLocal two_sided_world) in
  let w2 := snd (pull_supabase_to_local w1) in
  table_rows "schools" w1 = [school_a] ∧
  files w2 !! "schools.json" = Some (Json (VList [VDict school_a])).
Proof. split; reflexivity. Qed.

(** ** A whole pass on the sample worlds *)

(** With [force = false], the pass over the sample world whose remote
    table schools already holds a row skips that table and reports the
    other four local files as missing. *)
Example sync_pass_skips_seeded_schools :
  let out := sync_local_to_supabase false false seeded_world in
  fst out = Ok tt ∧
  trace (snd out)
  = [Notify (Summary 0 1 0); Notify (NotFound "stock_kimonos.json");
     Notify (NotFound "requests.json"); Notify (NotFound "materials.json");
     Notify (Skipped "schools"); Remote (OpSelect "schools") true;
     Notify (NotFound "users.json")] ∧
  tables (snd out) = tables seeded_world ∧
  files (snd out) = files seeded_world.
Proof. repeat split. Qed.

(** ** Inputs outside the stated conditions *)

(** A requests file that does not hold an array of objects makes
    [persist_requests] raise before anything is written. *)
Example persist_requests_on_object_file :
  persist_requests [VDict new_request] object_file_world
  = (Raise AttributeError, object_file_world).
Proof. reflexivity. Qed.

(** A school whose [coaches] field is null makes the listing raise for a
    coach, and is returned to an administrator. *)
Example list_user_schools_null_coaches :
  list_user_schools coach_ps1 [school_a; school_without_coaches] = Raise TypeError ∧
  list_user_schools (User "PS1724" (VStr "Admin") (VStr "Administrator"))
    [school_a; school_without_coaches] = Ok [school_a; school_without_coaches].
Proof. split; reflexivity. Qed.

(** * Properties of the further code *)

(** ** persist_requests: results, frame, repetition *)

Lemma merge_pure_payload (e : nat → N) (n : nat) (records : list pyval)
    (by_id : list (string * row)) (payload : list row) :
  Forall (λ p, map fst p = request_fields) payload →
  length (merge_pure e n records by_id payload).1.2 = (length payload + length records)%nat ∧
  Forall (λ p, map fst p = request_fields) (merge_pure e n records by_id payload).1.2.
Proof.
  revert n by_id payload. induction records as [|rec rest IH]; intros n by_id payload Hp; simpl.
  - split; [lia|done].
  - destruct (next_item e n rec) as [[rid item] n'].
    destruct (IH n' (od_set rid item by_id) (payload ++ [project_get request_fields item])%list)
      as [Hlen Hall].
    { apply Forall_app. split; [done|]. by repeat constructor. }
    split; [|done]. etrans; [exact Hlen|]. rewrite length_app. simpl. lia.
Qed.

Lemma push_payload_succeeds (payload : list row) (saved : nat) (w : world) :
  supabase w = true → payload ≠ [] → hd false (faults w) = false →
  ∃ w', push_payload payload saved w = (Ok (PersistResult saved (length payload) None), w') ∧
        trace w' = Remote (OpUpsert "requests" payload (Some "id")) true :: trace w ∧
        files w' = files w ∧
        table_rows "requests" w'
        = foldl (upsert_row (Some "id")) (table_rows "requests" w) payload.
Proof.
  intros Hsup Hne Hok. unfold push_payload, remote_upsert, remote_call. unfold_M.
  rewrite Hsup. rewrite bool_decide_eq_false_2 by (by destruct payload). simpl.
  destruct (faults w) as [|[] fl] eqn:Hfl; simpl in *; try done.
  - eexists. split; [reflexivity|]. simpl. repeat split.
    unfold table_rows. simpl. by rewrite lookup_insert_eq.
  - eexists. split; [reflexivity|]. simpl. repeat split.
    unfold table_rows. simpl. by rewrite lookup_insert_eq.
Qed.

Lemma push_payload_no_client (payload : list row) (saved : nat) (w : world) :
  supabase w = false →
  push_payload payload saved w = (Ok (PersistResult saved 0 None), w).
Proof. intros Hsup. unfold push_payload. unfold_M. by rewrite Hsup. Qed.

(** X1. When the client exists and the upsert succeeds, a call with [n]
    records (the stored collection being readable) returns saved = n,
    synced = n and no error; the file is written first, then one upsert on
    the conflict key id sends [n] rows, each with exactly the eight request
    fields. *)
Theorem persist_requests_synced (records : list pyval) (w : world) :
  records ≠ [] →
  rows_file (files w !! FILES "requests") →
  supabase w = true →
  hd false (faults w) = false →
  ∃ w' payload,
    persist_requests records w
    = (Ok (PersistResult (length records) (length records) None), w') ∧
    trace w' = Remote (OpUpsert "requests" payload (Some "id")) true
               :: FileWrite (FILES "requests") :: trace w ∧
    length payload = length records ∧
    Forall (λ p, map fst p = request_fields) payload.
Proof.
  intros Hne Hfile Hsup Hok.
  destruct (load_existing w Hfile) as (_ & _ & _ & Hdicts).
  destruct (index_existing_dicts [] _ Hdicts) as (by0 & Hidx & _).
  rewrite (persist_requests_run records w by0 Hne Hfile Hidx).
  destruct (merge_pure_payload (entropy w) (uuid_next w) records by0 [] (Forall_nil_2 _))
    as [Hlen Hall].
  destruct (merge_pure (entropy w) (uuid_next w) records by0 []) as [[b p] n'].
  simpl in Hlen, Hall.
  set (w1 := after_save _ _ _).
  destruct (push_payload_succeeds p (length records) w1) as (w' & Hrun & Htr & _); try done.
  { intros ->. simpl in Hlen. by destruct records. }
  exists w', p. rewrite Hrun, Hlen. split; [done|]. split; [|done]. by rewrite Htr.
Qed.

Lemma persist_requests_synced_witness :
  ∃ w' (payload : list row),
    persist_requests [VDict new_request] (with_faults [] unreachable_world)
    = (Ok (PersistResult 1 1 None), w') ∧
    length payload = 1.
Proof.
  destruct (persist_requests_synced [VDict new_request] (with_faults [] unreachable_world))
    as (w' & payload & Hrun & _ & Hlen & _).
  - discriminate.
  - vm_compute. repeat econstructor.
  - reflexivity.
  - reflexivity.
  - by exists w', payload.
Defined.

(** X2. Without a client, a call with [n] records (the stored collection
    being readable) returns saved = n, synced = 0 and no error: the result
    carries no sign that nothing was sent.  The only effect is the write of
    the requests file. *)
Theorem persist_requests_without_client (records : list pyval) (w : world) :
  records ≠ [] →
  rows_file (files w !! FILES "requests") →
  supabase w = false →
  ∃ w',
    persist_requests records w = (Ok (PersistResult (length records) 0 None), w') ∧
    trace w' = FileWrite (FILES "requests") :: trace w ∧
    tables w' = tables w ∧ faults w' = faults w.
Proof.
  intros Hne Hfile Hsup.
  destruct (load_existing w Hfile) as (_ & _ & _ & Hdicts).
  destruct (index_existing_dicts [] _ Hdicts) as (by0 & Hidx & _).
  rewrite (persist_requests_run records w by0 Hne Hfile Hidx).
  destruct (merge_pure (entropy w) (uuid_next w) records by0 []) as [[b p] n'].
  rewrite push_payload_no_client by done. eexists. split; [reflexivity|]. done.
Qed.

Lemma persist_requests_without_client_witness :
  ∃ w',
    persist_requests [VDict new_request] offline_world = (Ok (PersistResult 1 0 None), w') ∧
    trace w' = [FileWrite (FILES "requests")].
Proof.
  destruct (persist_requests_without_client [VDict new_request] offline_world)
    as (w' & Hrun & Htr & _); [discriminate|exact I|reflexivity|].
  by exists w'.
Defined.

Section odict_more.
Context {K V : Type} `{EqDecision K}.
Implicit Types (k : K) (v : V) (d : list (K * V)).

Lemma od_get_None_keys k d : od_get k d = None ↔ k ∉ map fst d.
Proof.
  induction d as [|[k' v'] d IH]; simpl.
  - split; [intros _; apply not_elem_of_nil|done].
  - rewrite not_elem_of_cons. destruct (decide (k = k')) as [->|Hne].
    + split; [done|]. by intros [? _].
    + rewrite IH. tauto.
Qed.

Lemma od_set_fresh k v d : k ∉ map fst d → od_set k v d = (d ++ [(k, v)])%list.
Proof.
  induction d as [|[k' v'] d IH]; simpl; [done|].
  rewrite not_elem_of_cons. intros [Hne Hk].
  rewrite decide_False by done. by rewrite IH.
Qed.

Lemma od_set_keys_present k v d : k ∈ map fst d → map fst (od_set k v d) = map fst d.
Proof.
  induction d as [|[k' v'] d IH]; simpl.
  - intros Hk. by apply elem_of_nil in Hk.
  - destruct (decide (k = k')) as [->|Hne]; simpl; [done|].
    rewrite elem_of_cons. intros [?|Hk]; [done|]. by rewrite IH.
Qed.

Lemma od_set_NoDup k v d : NoDup (map fst d) → NoDup (map fst (od_set k v d)).
Proof.
  intros Hnd. destruct (decide (k ∈ map fst d)) as [Hin|Hnin].
  - by rewrite od_set_keys_present.
  - rewrite od_set_fresh, map_app by done. simpl.
    apply NoDup_app. split; [done|]. split.
    + intros x Hx. rewrite list_elem_of_singleton. by intros ->.
    + apply NoDup_singleton.
Qed.

Lemma od_set_Forall (P : K * V → Prop) k v d :
  P (k, v) → Forall P d → Forall P (od_set k v d).
Proof.
  intros Hkv. induction 1 as [|[k' v'] d Hx Hd IH]; simpl.
  - by repeat constructor.
  - destruct (decide (k = k')) as [->|Hne]; constructor; auto.
Qed.

End odict_more.

Lemma keyed_nil : keyed [].
Proof. split; [apply NoDup_nil_2|constructor]. Qed.

Lemma keyed_set (k : string) (r : row) (by_id : list (string * row)) :
  row_id_text r = k → k ≠ "" → keyed by_id → keyed (od_set k r by_id).
Proof.
  intros Hk Hne [Hnd Hall]. split; [by apply od_set_NoDup|].
  by apply od_set_Forall.
Qed.

Lemma truthy_str_false' (s : string) : truthy (VStr s) = false → s = "".
Proof. simpl. rewrite negb_false_iff. apply String.eqb_eq. Qed.

Lemma index_existing_keyed (acc : list (string * row)) (l : list pyval) :
  Forall is_dict l → keyed acc →
  ∃ by_id, index_existing acc l = Ok by_id ∧ keyed by_id.
Proof.
  intros Hl. revert acc. induction Hl as [|v l [d ->] _ IH]; intros acc Hacc; simpl.
  - eauto.
  - fold (row_id_text d). apply IH.
    change (negb (row_id_text d =? "")) with (truthy (VStr (row_id_text d))).
    destruct (truthy (VStr (row_id_text d))) eqn:E; [|done].
    apply keyed_set; [done| |done]. by apply truthy_str_true in E.
Qed.

Lemma index_existing_values (acc b : list (string * row)) :
  Forall (λ kv, row_id_text (snd kv) = fst kv ∧ fst kv ≠ "") b →
  NoDup (map fst acc ++ map fst b) →
  index_existing acc (map VDict (od_values b)) = Ok (acc ++ b)%list.
Proof.
  intros Hb. revert acc. induction Hb as [|[k r] b [Hk Hne] _ IH]; intros acc Hnd; simpl.
  - by rewrite app_nil_r.
  - simpl in Hk, Hne. unfold row_id_text in Hk. rewrite Hk.
    rewrite (proj2 (String.eqb_neq k "") Hne). simpl.
    rewrite od_set_fresh.
    2:{ apply NoDup_app in Hnd as (_ & Hdis & _). intros Hin.
        apply (Hdis k Hin). simpl. apply list_elem_of_here. }
    rewrite IH; [by rewrite <- app_assoc|].
    rewrite map_app. simpl. rewrite <- app_assoc. simpl. exact Hnd.
Qed.

Lemma index_existing_lookup (k : string) (e : row) (l : list pyval) (acc : list (string * row)) :
  Forall is_dict l →
  row_id_text e = k → k ≠ "" →
  (∀ e', VDict e' ∈ l → row_id_text e' = k → e' = e) →
  (od_get k acc = Some e ∨ VDict e ∈ l) →
  (∀ x, od_get k acc = Some x → x = e) →
  ∃ by_id, index_existing acc l = Ok by_id ∧ od_get k by_id = Some e.
Proof.
  intros Hl Hk Hne. revert acc.
  induction Hl as [|v l [d ->] _ IH]; intros acc Huniq Hin Hacc; simpl.
  - exists acc. split; [done|]. destruct Hin as [?|Hin]; [done|]. by apply elem_of_nil in Hin.
  - fold (row_id_text d).
    assert (∀ e', VDict e' ∈ l → row_id_text e' = k → e' = e) as Huniq'.
    { intros e' He'. apply Huniq. by apply list_elem_of_further. }
    change (negb (row_id_text d =? "")) with (truthy (VStr (row_id_text d))).
    destruct (truthy (VStr (row_id_text d))) eqn:E.
    + apply IH; [done| |].
      * destruct (decide (row_id_text d = k)) as [Hd|Hd].
        -- left. rewrite Hd, (Huniq d (list_elem_of_here _ _) Hd). apply od_get_set_eq.
        -- rewrite od_get_set_ne by done. destruct Hin as [?|Hin]; [by left|].
           apply elem_of_cons in Hin as [[= ->]|Hin]; [done|by right].
      * intros x. destruct (decide (row_id_text d = k)) as [Hd|Hd].
        -- rewrite Hd, od_get_set_eq. intros [= <-].
           by apply Huniq; [apply list_elem_of_here|].
        -- rewrite od_get_set_ne by done. apply Hacc.
    + apply IH; [done| |done].
      destruct Hin as [?|Hin]; [by left|].
      apply elem_of_cons in Hin as [[= ->]|Hin]; [|by right].
      apply truthy_str_false' in E. congruence.
Qed.
Lemma od_ext {V : Type} (d1 d2 : list (string * V)) :
  map fst d1 = map fst d2 → NoDup (map fst d1) →
  (∀ k, od_get k d1 = od_get k d2) → d1 = d2.
Proof.
  revert d2. induction d1 as [|[k v] d1 IH]; intros [|[k' v'] d2]; simpl; try done.
  intros [= <- Hk] Hnd Hget. apply NoDup_cons in Hnd as [Hnin Hnd].
  pose proof (Hget k) as Hv. rewrite !decide_True in Hv by done. injection Hv as <-.
  f_equal. apply IH; [done..|].
  intros x. specialize (Hget x). destruct (decide (x = k)) as [->|Hne]; [|done].
  transitivity (@None V); [|symmetry]; apply od_get_None_keys; [done|by rewrite <- Hk].
Qed.

Lemma file_items_get (k : string) (items : list (string * row)) (b : list (string * row)) :
  od_get k (file_items b items) = from_option Some (od_get k b) (last_set k items).
Proof.
  revert b. induction items as [|[k' v] rest IH]; intros b; simpl; [done|].
  unfold file_items in *. simpl. rewrite IH.
  destruct (last_set k rest); simpl; [done|].
  destruct (decide (k = k')) as [->|Hne]; simpl.
  - apply od_get_set_eq.
  - by apply od_get_set_ne.
Qed.

Lemma file_items_NoDup (items b : list (string * row)) :
  NoDup (map fst b) → NoDup (map fst (file_items b items)).
Proof.
  revert b. induction items as [|[k v] rest IH]; intros b Hb; [done|].
  apply IH. by apply od_set_NoDup.
Qed.

Lemma od_set_keys_incl {V : Type} (k x : string) (v : V) (d : list (string * V)) :
  x ∈ map fst d → x ∈ map fst (od_set k v d).
Proof.
  destruct (decide (k ∈ map fst d)) as [Hin|Hnin].
  - by rewrite od_set_keys_present.
  - rewrite od_set_fresh, map_app by done. intros ?. apply elem_of_app. by left.
Qed.

Lemma od_set_key_in {V : Type} (k : string) (v : V) (d : list (string * V)) :
  k ∈ map fst (od_set k v d).
Proof.
  destruct (decide (k ∈ map fst d)) as [Hin|Hnin].
  - by rewrite od_set_keys_present.
  - rewrite od_set_fresh, map_app by done. apply elem_of_app. right. apply list_elem_of_here.
Qed.

Lemma file_items_keys_present (items b : list (string * row)) :
  Forall (λ kv, fst kv ∈ map fst b) items →
  map fst (file_items b items) = map fst b.
Proof.
  revert b. induction items as [|[k v] rest IH]; intros b Hall; [done|].
  apply Forall_cons in Hall as [Hk Hall]. simpl in Hk.
  unfold file_items in *. simpl. rewrite IH.
  - by apply od_set_keys_present.
  - eapply Forall_impl; [exact Hall|]. intros kv. rewrite od_set_keys_present; done.
Qed.

Lemma file_items_keys_incl (x : string) (items b : list (string * row)) :
  x ∈ map fst b → x ∈ map fst (file_items b items).
Proof.
  revert b. induction items as [|[k v] rest IH]; intros b Hx; [done|].
  apply IH. by apply od_set_keys_incl.
Qed.

Lemma file_items_keys (items b : list (string * row)) :
  Forall (λ kv, fst kv ∈ map fst (file_items b items)) items.
Proof.
  revert b. induction items as [|[k v] rest IH]; intros b; constructor; [|apply IH].
  simpl. apply file_items_keys_incl, od_set_key_in.
Qed.

(** Filing the same assignments a second time changes nothing. *)
Lemma file_items_again (items b : list (string * row)) :
  NoDup (map fst b) →
  file_items (file_items b items) items = file_items b items.
Proof.
  intros Hb. apply od_ext.
  - apply file_items_keys_present, file_items_keys.
  - apply file_items_NoDup, file_items_NoDup, Hb.
  - intros k. rewrite !file_items_get. by destruct (last_set k items).
Qed.

Lemma file_items_keyed (items b : list (string * row)) :
  Forall (λ kv, row_id_text (snd kv) = fst kv ∧ fst kv ≠ "") items →
  keyed b → keyed (file_items b items).
Proof.
  intros Hall. revert b. induction Hall as [|[k v] rest [Hk Hne] _ IH]; intros b Hb; [done|].
  apply IH. by apply keyed_set.
Qed.

Lemma stored_item_keyed (rec : pyval) :
  carries_id rec →
  row_id_text (snd (stored_item rec)) = fst (stored_item rec) ∧ fst (stored_item rec) ≠ "".
Proof.
  intros Hc. split; [|exact Hc]. unfold stored_item, row_id_text, get_or. simpl.
  rewrite item_with_id_get_id. simpl. unfold given_id. apply strip_idem.
Qed.

Lemma merge_pure_carried (e : nat → N) (n : nat) (records : list pyval)
    (by_id : list (string * row)) (payload : list row) :
  Forall carries_id records →
  (merge_pure e n records by_id payload).1.1 = file_items by_id (map stored_item records) ∧
  (merge_pure e n records by_id payload).2 = n.
Proof.
  intros Hall. revert by_id payload.
  induction Hall as [|rec rest Hc _ IH]; intros by_id payload; simpl; [done|].
  unfold next_item. apply truthy_str_true in Hc. rewrite Hc. apply IH.
Qed.

Lemma merge_pure_get_other (k : string) (e : nat → N) (n : nat) (records : list pyval)
    (by_id : list (string * row)) (payload : list row) :
  k ∉ batch_ids e n records →
  od_get k (merge_pure e n records by_id payload).1.1 = od_get k by_id.
Proof.
  revert n by_id payload. induction records as [|rec rest IH]; intros n by_id payload; [done|].
  simpl. destruct (next_item e n rec) as [[rid item] n'].
  rewrite not_elem_of_cons. intros [Hne Hk]. rewrite IH by done. by apply od_get_set_ne.
Qed.

(** X3. Persisting a batch a second time changes nothing in the requests
    file, provided every record of the batch brings its identifier: the
    batch sent again by the button Submit Request, after Add Another Item
    has stored each item, rewrites the file with the content it has.  Both
    calls return and count every record as saved. *)
Theorem persist_requests_again (records : list pyval) (w : world) :
  records ≠ [] →
  rows_file (files w !! FILES "requests") →
  Forall carries_id records →
  ∃ r1 w1 r2 w2,
    persist_requests records w = (Ok r1, w1) ∧
    persist_requests records w1 = (Ok r2, w2) ∧
    saved r1 = length records ∧ saved r2 = length records ∧
    files w2 = files w1.
Proof.
  intros Hne Hfile Hall.
  destruct (load_existing w Hfile) as (_ & _ & _ & Hdicts).
  destruct (index_existing_keyed [] _ Hdicts keyed_nil) as (by0 & Hidx & Hkeyed0).
  rewrite (persist_requests_run records w by0 Hne Hfile Hidx).
  destruct (merge_pure_carried (entropy w) (uuid_next w) records by0 [] Hall) as [Hb Hn].
  destruct (merge_pure (entropy w) (uuid_next w) records by0 []) as [[b p] n'].
  simpl in Hb, Hn. subst b n'.
  set (b := file_items by0 (map stored_item records)).
  assert (keyed b) as [Hnd Hkeys].
  { apply file_items_keyed; [|done]. apply Forall_map.
    eapply Forall_impl; [exact Hall|]. apply stored_item_keyed. }
  set (w0 := after_save _ _ _).
  destruct (push_payload_ok p (length records) w0) as [r1 Hr1].
  pose proof (push_payload_files p (length records) w0) as Hf1.
  assert (saved r1 = length records) as Hs1.
  { revert Hr1. unfold push_payload. unfold_M. unfold try_except.
    destruct (supabase w0 && _); [|by intros [= <-]].
    destruct (remote_upsert _ _ _ w0) as [[[]|?] ?]; by intros [= <-]. }
  destruct (push_payload p (length records) w0) as [x w1]. simpl in Hr1, Hf1. subst x.
  assert (files w1 !! FILES "requests" = Some (Json (VList (map VDict (od_values b))))) as Hw1.
  { rewrite Hf1. apply lookup_insert_eq. }
  assert (rows_file (files w1 !! FILES "requests")) as Hfile1.
  { rewrite Hw1. simpl. apply Forall_map, Forall_true. intros r. by exists r. }
  assert (index_existing [] (existing_of (files w1 !! FILES "requests")) = Ok b) as Hidx1.
  { rewrite Hw1. simpl. by rewrite (index_existing_values [] b). }
  exists r1, w1.
  cut (∃ r2 w2, persist_requests records w1 = (Ok r2, w2) ∧
                saved r2 = length records ∧ files w2 = files w1).
  { intros (r2 & w2 & ? & ? & ?). by exists r2, w2. }
  rewrite (persist_requests_run records w1 b Hne Hfile1 Hidx1).
  destruct (merge_pure_carried (entropy w1) (uuid_next w1) records b [] Hall) as [Hb' Hn'].
  destruct (merge_pure (entropy w1) (uuid_next w1) records b []) as [[b' p'] n'].
  simpl in Hb', Hn'. subst b' n'. unfold b at 1. rewrite file_items_again by apply Hkeyed0.
  fold b. set (w2 := after_save _ _ _).
  destruct (push_payload_ok p' (length records) w2) as [r2 Hr2].
  pose proof (push_payload_files p' (length records) w2) as Hf2.
  assert (saved r2 = length records) as Hs2.
  { revert Hr2. unfold push_payload. unfold_M. unfold try_except.
    destruct (supabase w2 && _); [|by intros [= <-]].
    destruct (remote_upsert _ _ _ w2) as [[[]|?] ?]; by intros [= <-]. }
  destruct (push_payload p' (length records) w2) as [x w3]. simpl in Hr2, Hf2. subst x.
  exists r2, w3. repeat split; try done.
  rewrite Hf2. unfold w2, after_save. simpl.
  apply map_eq. intros path. destruct (decide (path = FILES "requests")) as [->|Hp].
  - by rewrite lookup_insert_eq.
  - by rewrite lookup_insert_ne.
Qed.

Lemma persist_requests_again_witness :
  ∃ r1 w1 r2 w2,
    persist_requests [VDict new_request; VDict second_request] offline_world = (Ok r1, w1) ∧
    persist_requests [VDict new_request; VDict second_request] w1 = (Ok r2, w2) ∧
    files w2 = files w1.
Proof.
  destruct (persist_requests_again [VDict new_request; VDict second_request] offline_world)
    as (r1 & w1 & r2 & w2 & H1 & H2 & _ & _ & H3).
  - discriminate.
  - exact I.
  - repeat constructor; vm_compute; discriminate.
  - by exists r1, w1, r2, w2.
Defined.

(** X4. A call keeps every stored record it is not given: a record of the
    requests file whose identifier text is not blank, is borne by no other
    stored record and is not the identifier of a record of the batch is
    still in the file after the call, unchanged. *)
Theorem persist_requests_keeps_others (records : list pyval) (w : world) (old : row) :
  records ≠ [] →
  rows_file (files w !! FILES "requests") →
  VDict old ∈ existing_of (files w !! FILES "requests") →
  ¬ blank_id old →
  (∀ other, VDict other ∈ existing_of (files w !! FILES "requests") →
            row_id_text other = row_id_text old → other = old) →
  row_id_text old ∉ batch_ids (entropy w) (uuid_next w) records →
  ∃ result w' stored,
    persist_requests records w = (Ok result, w') ∧
    files w' !! FILES "requests" = Some (Json (VList (map VDict stored))) ∧
    old ∈ stored.
Proof.
  intros Hne Hfile Hold Hnb Huniq Hbatch.
  destruct (load_existing w Hfile) as (_ & _ & _ & Hdicts).
  destruct (index_existing_lookup (row_id_text old) old _ [] Hdicts eq_refl Hnb Huniq)
    as (by0 & Hidx & Hget); [by right|done|].
  rewrite (persist_requests_run records w by0 Hne Hfile Hidx).
  pose proof (merge_pure_get_other _ _ _ records by0 [] Hbatch) as Hkeep.
  destruct (merge_pure (entropy w) (uuid_next w) records by0 []) as [[b p] n'].
  simpl in Hkeep. rewrite Hget in Hkeep.
  set (w1 := after_save _ _ _).
  destruct (push_payload_ok p (length records) w1) as [result Hres].
  pose proof (push_payload_files p (length records) w1) as Hfiles.
  destruct (push_payload p (length records) w1) as [x w']. simpl in *. subst x.
  exists result, w', (od_values b). split; [done|]. split.
  - rewrite Hfiles. apply lookup_insert_eq.
  - by eapply od_get_values.
Qed.

Lemma persist_requests_keeps_others_witness :
  ∃ result w' stored,
    persist_requests [VDict new_request] (with_supabase false unreachable_world)
    = (Ok result, w') ∧
    files w' !! FILES "requests" = Some (Json (VList (map VDict stored))) ∧
    kept_request ∈ stored.
Proof.
  apply (persist_requests_keeps_others [VDict new_request]
           (with_supabase false unreachable_world) kept_request).
  - discriminate.
  - vm_compute. repeat econstructor.
  - vm_compute. find_elem.
  - vm_compute. discriminate.
  - intros other Hin Hid. vm_compute in Hin.
    repeat (apply elem_of_cons in Hin as [Hin|Hin]; [injection Hin as ->; try done; vm_compute in Hid; discriminate|]).
    by apply elem_of_nil in Hin.
  - vm_compute. intros Hin. repeat (apply elem_of_cons in Hin as [Hin|Hin]; [discriminate|]).
    by apply elem_of_nil in Hin.
Defined.
(** ** sync_local_to_supabase: the local files *)

Lemma push_rows_quiet_files (replace : bool) (table filename : string) (shaped : list row)
    (v : sync_vars) (fts : bool) (w : world) :
  faults w = [] → table_rows table w = [] → table ≠ "coaches" →
  first_time_sync v = Some fts →
  ∃ v' w', push_rows replace table filename shaped v w = (Ok v', w') ∧
    faults w' = [] ∧
    files w' = (if fts then delete filename (files w) else files w) ∧
    table_rows table w' = foldl (upsert_row (conflict_targets table)) [] shaped ∧
    v' = SyncVars (Some fts) (S (total_synced v)) (total_skipped v) (total_errors v).
Proof.
  intros Hq Hempty Hne Hfts. unfold push_rows.
  assert (∃ w0, (if replace then clear_remote table else ret tt) w = (Ok tt, w0) ∧
                faults w0 = [] ∧ table_rows table w0 = [] ∧ files w0 = files w)
    as (w0 & Hclear & Hq0 & Hempty0 & Hf0).
  { destruct replace.
    - destruct (clear_remote_quiet table w Hq Hempty) as (w0 & ? & ? & ? & ?). by exists w0.
    - by exists w. }
  unfold mbind at 1 2, M_bind at 1 2, bind at 1 2, try_except at 1.
  unfold mbind at 1, M_bind at 1, bind at 1. rewrite Hclear.
  unfold mbind at 1, M_bind at 1, bind at 1.
  rewrite (remote_upsert_quiet _ _ _ _ Hq0), Hempty0.
  set (w1 := with_tables _ _).
  unfold mbind at 1, M_bind at 1, bind at 1, notify at 1, act at 1, ret at 1.
  cbv beta iota. cbn [first_time_sync total_synced total_skipped total_errors].
  rewrite Hfts. cbv beta iota.
  set (w2 := emit (Notify (Synced _ _)) w1).
  assert (faults w2 = []) as Hq2 by exact Hq0.
  assert (table_rows table w2 = foldl (upsert_row (conflict_targets table)) [] shaped) as Ht2.
  { unfold w2, w1, table_rows. simpl. by rewrite lookup_insert_eq. }
  assert (files w2 = files w) as Hf2 by exact Hf0.
  clearbody w2. clear w1.
  assert (∃ w3, (if fts then
                   try_except (os_remove filename ;; notify (LocalDeleted filename))
                     (λ de, notify (DeleteFailed filename))
                 else ret tt) w2
                = (Ok tt, w3) ∧ faults w3 = [] ∧ table_rows table w3 = table_rows table w2 ∧
                files w3 = (if fts then delete filename (files w) else files w))
    as (w3 & Hrm & Hq3 & Ht3 & Hf3).
  { destruct fts.
    - eexists. split; [reflexivity|]. simpl. by rewrite Hf2.
    - by exists w2. }
  unfold mbind at 1, M_bind at 1, bind at 1. rewrite Hrm.
  destruct (decide (table = "users")) as [->|Hu].
  - destruct (mirror_users_quiet "users" shaped w3 Hq3 Hne) as (w4 & Hm & Hq4 & Ht4 & Hf4 & _).
    unfold mbind, M_bind, bind. rewrite Hm. eexists _, w4. split; [reflexivity|].
    split; [done|]. split; [congruence|]. split; [congruence|done].
  - unfold_M. eexists _, w3. split; [reflexivity|].
    split; [done|]. split; [congruence|]. split; [congruence|done].
Qed.

Lemma sync_table_quiet_files (force replace : bool) (table filename : string)
    (v : sync_vars) (data : list pyval) (w : world) :
  files w !! filename = Some (Json (VList data)) →
  faults w = [] → table_rows table w = [] → table ≠ "coaches" →
  ∃ v' w', sync_table force replace table filename v w = (Ok v', w') ∧
    faults w' = [] ∧
    files w' = (if negb force && negb replace then delete filename (files w) else files w) ∧
    table_rows table w'
    = foldl (upsert_row (conflict_targets table)) [] (shape_rows table data) ∧
    v' = SyncVars (Some (negb force && negb replace)) (S (total_synced v))
           (total_skipped v) (total_errors v).
Proof.
  intros Hfile Hq Hempty Hne. unfold sync_table.
  unfold mbind at 1, M_bind at 1, bind at 1, gets, path_exists.
  rewrite Hfile. rewrite bool_decide_eq_true_2 by eauto. cbn [negb]. cbv beta iota.
  unfold mbind at 1, M_bind at 1, bind at 1.
  rewrite (check_existing_empty _ _ _ _ _ Hq Hempty). cbv beta iota.
  set (w0 := emit _ w).
  unfold mbind at 1, M_bind at 1, bind at 1, json_load.
  change (files w0) with (files w). rewrite Hfile.
  destruct (push_rows_quiet_files replace table filename (shape_rows table data)
              (SyncVars (Some (negb force && negb replace)) (total_synced v)
                 (total_skipped v) (total_errors v))
              (negb force && negb replace) w0) as (v' & w' & Hrun & ? & ? & ? & ->); try done.
  eexists _, w'. rewrite Hrun. split; [reflexivity|]. done.
Qed.

(** X5. First-time sync of one table.  When the local file holds an array,
    the remote table is empty, neither flag is set and the remote store
    answers every call, the turn pushes the shaped rows, counts the table
    as synced and removes the local file. *)
Theorem sync_table_first_time (table filename : string) (v : sync_vars)
    (data : list pyval) (w : world) :
  (table, filename) ∈ TABLES →
  files w !! filename = Some (Json (VList data)) →
  faults w = [] → table_rows table w = [] →
  ∃ v' w', sync_table false false table filename v w = (Ok v', w') ∧
    files w' = delete filename (files w) ∧
    table_rows table w'
    = foldl (upsert_row (conflict_targets table)) [] (shape_rows table data) ∧
    total_synced v' = S (total_synced v) ∧ total_skipped v' = total_skipped v ∧
    total_errors v' = total_errors v.
Proof.
  intros Hin Hfile Hq Hempty.
  destruct (sync_table_quiet_files false false table filename v data w Hfile Hq Hempty)
    as (v' & w' & Hrun & _ & Hfiles & Hrows & ->); [by eapply TABLES_not_coaches|].
  eexists _, w'. split; [exact Hrun|]. done.
Qed.

Lemma sync_table_first_time_witness :
  ∃ v' w', sync_table false false "schools" "schools.json" (SyncVars None 0 0 0) roundtrip_world
           = (Ok v', w') ∧
    files w' = delete "schools.json" (files roundtrip_world) ∧ total_synced v' = 1.
Proof.
  destruct (sync_table_first_time "schools" "schools.json" (SyncVars None 0 0 0)
              [VDict partial_school] roundtrip_world)
    as (v' & w' & Hrun & Hfiles & _ & Hsynced & _).
  - unfold TABLES. find_elem.
  - reflexivity.
  - reflexivity.
  - reflexivity.
  - by exists v', w'.
Defined.

Lemma check_existing_flag (force replace : bool) (table : string) (v : sync_vars) (w : world)
    (a : option bool * bool) :
  force || replace = true → first_time_sync v ≠ Some true →
  fst (check_existing force replace table v w) = Ok a → fst a ≠ Some true.
Proof.
  intros Hflag Hv. unfold check_existing, remote_select, remote_call. unfold_M.
  destruct (faults w) as [|[] fl]; cbn [fst snd].
  - destruct (negb force && _); cbn [fst]; intros [= <-]; simpl;
      destruct force, replace; try done; by rewrite andb_false_r.
  - by intros [= <-].
  - destruct (negb force && _); cbn [fst]; intros [= <-]; simpl;
      destruct force, replace; try done; by rewrite andb_false_r.
Qed.

Lemma same_files_push_rows (replace : bool) (table filename : string) (shaped : list row)
    (v : sync_vars) :
  first_time_sync v ≠ Some true →
  keeps same_files (push_rows replace table filename shaped v).
Proof.
  intros Hv. unfold push_rows, clear_remote, mirror_users.
  cbn [first_time_sync total_synced total_skipped total_errors].
  destruct (first_time_sync v) as [[]|]; [done| |]; same_files_auto.
Qed.

Lemma push_rows_flag (replace : bool) (table filename : string) (shaped : list row)
    (v v' : sync_vars) (w : world) :
  fst (push_rows replace table filename shaped v w) = Ok v' →
  first_time_sync v' = first_time_sync v.
Proof.
  unfold push_rows. unfold mbind at 1, M_bind at 1, bind at 1.
  destruct (try_except _ _ w) as [[[e|]|e] w1]; cbn [fst]; [| |done].
  - unfold_M. by intros [= <-].
  - cbn [first_time_sync total_synced total_skipped total_errors].
    destruct (first_time_sync v) as [fts|].
    + unfold mbind at 1, M_bind at 1, bind at 1.
      match goal with |- context [let (_, _) := ?x in _] =>
        destruct x as [[[]|?] w2] end; [|done].
      unfold mbind at 1, M_bind at 1, bind at 1.
      match goal with |- context [let (_, _) := ?x in _] =>
        destruct x as [[[]|?] w3] end; [|done].
      by intros [= <-].
    + unfold_M. by intros [= <-].
Qed.

Lemma sync_table_flags (force replace : bool) (table filename : string) (v : sync_vars)
    (w w' : world) (r : res sync_vars) :
  force || replace = true → first_time_sync v ≠ Some true →
  sync_table force replace table filename v w = (r, w') →
  files w' = files w ∧ ∀ v', r = Ok v' → first_time_sync v' ≠ Some true.
Proof.
  intros Hflag Hv. unfold sync_table. unfold mbind at 1, M_bind at 1, bind at 1, gets.
  cbv beta iota. destruct (path_exists filename w); cbn [negb]; cbv beta iota.
  2:{ unfold_M. cbv beta iota. intros [= <- <-]. split; [done|]. by intros v' [= <-]. }
  unfold mbind at 1, M_bind at 1, bind at 1.
  pose proof (same_files_check_existing force replace table v w) as Hsame.
  pose proof (check_existing_flag force replace table v w) as Hfts.
  destruct (check_existing force replace table v w) as [[[fts skip]|e] w1];
    cbn [fst snd] in *; [|intros [= <- <-]; by split].
  specialize (Hfts _ Hflag Hv eq_refl). cbn [fst] in Hfts.
  destruct skip; cbv beta iota.
  { unfold_M. intros [= <- <-]. split; [done|]. by intros v' [= <-]. }
  unfold mbind at 1, M_bind at 1, bind at 1.
  pose proof (same_files_json_load filename w1) as Hload.
  destruct (json_load filename w1) as [[data|e] w2]; cbn [fst snd] in *.
  2:{ intros [= <- <-]. split; [unfold same_files in *; congruence|done]. }
  set (v1 := SyncVars fts _ _ _).
  assert (files w2 = files w) as Hw2 by (unfold same_files in *; congruence).
  destruct data;
    try (unfold_M; cbv beta iota; intros [= <- <-]; split; [done|]; by intros v' [= <-]).
  intros Hrun. split.
  - rewrite <- Hw2. change w' with (snd (r, w')). rewrite <- Hrun.
    by apply same_files_push_rows.
  - intros v' ->. rewrite (push_rows_flag replace table filename (shape_rows table l) v1 v' w2).
    + done.
    + by rewrite Hrun.
Qed.

Lemma sync_tables_flags (force replace : bool) (ts : list (string * string)) (v : sync_vars)
    (w : world) :
  force || replace = true → first_time_sync v ≠ Some true →
  files (snd (sync_tables force replace ts v w)) = files w.
Proof.
  intros Hflag. revert v w. induction ts as [|[table filename] ts IH]; intros v w Hv; [done|].
  simpl. unfold mbind, M_bind, bind.
  destruct (sync_table force replace table filename v w) as [r w1] eqn:Hrun.
  destruct (sync_table_flags force replace table filename v w w1 r Hflag Hv Hrun)
    as [Hfiles Hnext].
  destruct r as [v1|e]; cbn [fst snd] in *; [|done].
  rewrite IH; [done|by apply Hnext].
Qed.

(** X6. A pass with [force] or [replace] set never touches a local file:
    whatever the files hold and whatever the remote store does, the files
    are after the pass what they were before it, also when the pass is
    stopped by an exception.  The removal of a local file belongs to the
    first-time sync alone. *)
Theorem sync_with_flags_keeps_files (force replace : bool) (w : world) :
  force || replace = true →
  files (snd (sync_local_to_supabase force replace w)) = files w.
Proof.
  intros Hflag. unfold sync_local_to_supabase. unfold mbind at 1, M_bind at 1, bind at 1, gets.
  destruct (supabase w); cbn [negb]; cbv beta iota; [|done].
  unfold mbind, M_bind, bind.
  pose proof (sync_tables_flags force replace TABLES (SyncVars None 0 0 0) w Hflag) as Hfiles.
  destruct (sync_tables force replace TABLES (SyncVars None 0 0 0) w) as [[v|e] w1];
    cbn [snd] in *; by apply Hfiles.
Qed.

Lemma sync_with_flags_keeps_files_witness :
  files (snd (sync_local_to_supabase true true broken_users_world))
  = files broken_users_world.
Proof.
  apply sync_with_flags_keeps_files. reflexivity.
Defined.

(** ** sync_local_to_supabase: a check that fails *)

Lemma check_existing_fails (force replace : bool) (table : string) (v : sync_vars)
    (fl : list bool) (w : world) :
  faults w = true :: fl →
  check_existing force replace table v w
  = (Ok (first_time_sync v, false),
     emit (Notify (CheckFailed table))
       (emit (Remote (OpSelect table) false) (with_faults fl w))).
Proof.
  intros Hq. unfold check_existing, remote_select, remote_call. unfold_M. by rewrite Hq.
Qed.

Lemma remote_upsert_succeeds (table : string) (payload : list row) (k : option string)
    (fl : list bool) (w : world) :
  faults w = false :: fl →
  remote_upsert table payload k w
  = (Ok tt,
     with_tables (<[table := foldl (upsert_row k) (table_rows table w) payload]> (tables w))
       (emit (Remote (OpUpsert table payload k) true) (with_faults fl w))).
Proof.
  intros Hq. unfold remote_upsert, remote_call. unfold_M. by rewrite Hq.
Qed.

Lemma same_files_mirror_users (shaped : list row) : keeps same_files (mirror_users shaped).
Proof. unfold mirror_users. same_files_auto. Qed.

(** X7. The flag [first_time_sync] is assigned inside the [try] of the
    check.  When the check of the first table visited raises and the upsert
    then succeeds, reading the flag raises [NameError] after the table was
    counted as synced: the one table is counted twice, as synced and as an
    error; its local file stays and, for users, the mirror is not run. *)
Theorem sync_table_unbound_flag (force : bool) (table filename : string) (v : sync_vars)
    (data : list pyval) (fl : list bool) (w : world) :
  files w !! filename = Some (Json (VList data)) →
  faults w = true :: false :: fl →
  first_time_sync v = None →
  ∃ w', sync_table force false table filename v w
        = (Ok (SyncVars None (S (total_synced v)) (total_skipped v) (S (total_errors v))), w') ∧
    files w' = files w ∧ faults w' = fl ∧
    trace w' = ([Notify (SyncFailed table NameError);
                Notify (Synced table (length (shape_rows table data)));
                Remote (OpUpsert table (shape_rows table data) (conflict_targets table)) true;
                Notify (CheckFailed table);
                Remote (OpSelect table) false] ++ trace w)%list.
Proof.
  intros Hfile Hq Hv. unfold sync_table.
  unfold mbind at 1, M_bind at 1, bind at 1, gets, path_exists.
  rewrite Hfile. rewrite bool_decide_eq_true_2 by eauto. cbn [negb]. cbv beta iota.
  unfold mbind at 1, M_bind at 1, bind at 1.
  rewrite (check_existing_fails _ _ _ _ _ _ Hq). cbv beta iota.
  set (w0 := emit _ (emit _ _)).
  unfold mbind at 1, M_bind at 1, bind at 1, json_load.
  change (files w0) with (files w). rewrite Hfile. cbv beta iota.
  unfold push_rows.
  unfold mbind at 1 2, M_bind at 1 2, bind at 1 2, try_except at 1.
  unfold mbind at 1, M_bind at 1, bind at 1. unfold ret at 1. cbv beta iota.
  unfold mbind at 1, M_bind at 1, bind at 1.
  rewrite (remote_upsert_succeeds _ _ _ fl w0) by done.
  unfold_M. cbv beta iota. cbn [first_time_sync total_synced total_skipped total_errors].
  rewrite Hv. eexists. split; [reflexivity|]. done.
Qed.

Lemma sync_table_unbound_flag_witness :
  ∃ w', sync_table false false "users" "users.json" (SyncVars None 0 0 0)
          (with_faults [true; false] flaky_world)
        = (Ok (SyncVars None 1 0 1), w') ∧
    files w' = files flaky_world.
Proof.
  destruct (sync_table_unbound_flag false "users" "users.json" (SyncVars None 0 0 0)
              [VDict [("ps_number", VStr "PS5"); ("password", VStr "pw5");
                      ("credential", VStr "Coach"); ("name", VStr "Bia")]] []
              (with_faults [true; false] flaky_world))
    as (w' & Hrun & Hfiles & _); [reflexivity..|].
  by exists w'.
Defined.

(** X8. When the check of a later table raises, the flag keeps the value
    the previous table left.  If that table was synced for the first time,
    the present one is pushed and its local file removed whatever the
    remote table holds, although neither [force] nor an empty remote table
    was established for it. *)
Theorem sync_table_stale_flag (force : bool) (table filename : string) (v : sync_vars)
    (data : list pyval) (fl : list bool) (w : world) :
  files w !! filename = Some (Json (VList data)) →
  faults w = true :: false :: fl →
  first_time_sync v = Some true →
  ∃ v' w', sync_table force false table filename v w = (Ok v', w') ∧
    files w' = delete filename (files w) ∧
    total_synced v' = S (total_synced v) ∧ total_errors v' = total_errors v ∧
    Remote (OpUpsert table (shape_rows table data) (conflict_targets table)) true ∈ trace w'.
Proof.
  intros Hfile Hq Hv. unfold sync_table.
  unfold mbind at 1, M_bind at 1, bind at 1, gets, path_exists.
  rewrite Hfile. rewrite bool_decide_eq_true_2 by eauto. cbn [negb]. cbv beta iota.
  unfold mbind at 1, M_bind at 1, bind at 1.
  rewrite (check_existing_fails _ _ _ _ _ _ Hq). cbv beta iota.
  set (w0 := emit _ (emit _ _)).
  unfold mbind at 1, M_bind at 1, bind at 1, json_load.
  change (files w0) with (files w). rewrite Hfile. cbv beta iota.
  unfold push_rows.
  unfold mbind at 1 2, M_bind at 1 2, bind at 1 2, try_except at 1.
  unfold mbind at 1, M_bind at 1, bind at 1. unfold ret at 1. cbv beta iota.
  unfold mbind at 1, M_bind at 1, bind at 1.
  rewrite (remote_upsert_succeeds _ _ _ fl w0) by done.
  set (w1 := with_tables _ _).
  unfold mbind at 1, M_bind at 1, bind at 1, notify at 1, act at 1, ret at 1.
  cbv beta iota. cbn [first_time_sync total_synced total_skipped total_errors].
  rewrite Hv. cbv beta iota.
  unfold_M. unfold os_remove, act. cbv beta iota.
  set (w2 := emit (Notify (LocalDeleted filename)) _).
  assert (files w2 = delete filename (files w)) as Hf2 by done.
  assert (Remote (OpUpsert table (shape_rows table data) (conflict_targets table)) true
          ∈ trace w2) as Ht2.
  { unfold w2, w1. simpl. do 3 apply list_elem_of_further. apply list_elem_of_here. }
  clearbody w2.
  destruct (decide (table = "users")) as [->|Hu].
  - destruct (always_ok_mirror_users (shape_rows "users" data) w2) as [[] Hok].
    pose proof (same_files_mirror_users (shape_rows "users" data) w2) as Hsame.
    assert (∀ e, e ∈ trace w2 → e ∈ trace (snd (mirror_users (shape_rows "users" data) w2)))
      as Hmono.
    { intros e He. unfold mirror_users, remote_upsert, remote_call. unfold_M.
      destruct (bool_decide _); [done|].
      destruct (faults w2) as [|[] ?]; simpl; by repeat apply list_elem_of_further. }
    destruct (mirror_users (shape_rows "users" data) w2) as [[[]|e] w3];
      cbn [fst snd] in *; [|done].
    eexists _, w3. split; [reflexivity|]. cbn. split; [by rewrite Hsame|]. auto.
  - eexists _, w2. split; [reflexivity|]. done.
Qed.

Lemma sync_table_stale_flag_witness :
  ∃ v' w', sync_table false false "users" "users.json" (SyncVars (Some true) 1 0 0)
             (with_faults [true; false] flaky_world)
           = (Ok v', w') ∧
    files w' = delete "users.json" (files flaky_world) ∧
    table_rows "users" flaky_world ≠ [].
Proof.
  destruct (sync_table_stale_flag false "users" "users.json" (SyncVars (Some true) 1 0 0)
              [VDict [("ps_number", VStr "PS5"); ("password", VStr "pw5");
                      ("credential", VStr "Coach"); ("name", VStr "Bia")]] []
              (with_faults [true; false] flaky_world))
    as (v' & w' & Hrun & Hfiles & _); [reflexivity..|].
  exists v', w'. split; [done|]. split; [done|]. vm_compute. discriminate.
Defined.

(** ** pull_supabase_to_local *)

Lemma pull_table_counts (table path : string) (c : nat * nat) (w : world) :
  ∃ c' w', pull_table table path c w = (Ok c', w') ∧
    (fst c' + snd c' = S (fst c + snd c))%nat ∧ tables w' = tables w.
Proof.
  unfold pull_table, remote_select, remote_call. unfold_M.
  destruct (faults w) as [|[] fl]; cbv beta iota; eexists _, _;
    (split; [reflexivity|]); simpl; split; (done || lia).
Qed.

Lemma pull_tables_counts (ts : list (string * string)) (c : nat * nat) (w : world) :
  ∃ c' w', pull_tables ts c w = (Ok c', w') ∧
    (fst c' + snd c' = length ts + (fst c + snd c))%nat ∧ tables w' = tables w.
Proof.
  revert c w. induction ts as [|[table path] ts IH]; intros c w; simpl.
  - by exists c, w.
  - destruct (pull_table_counts table path c w) as (c1 & w1 & Hrun & Hsum & Ht).
    destruct (IH c1 w1) as (c2 & w2 & Hrun2 & Hsum2 & Ht2).
    exists c2, w2. unfold mbind, M_bind, bind. rewrite Hrun, Hrun2.
    split; [done|]. split; [lia|congruence].
Qed.

(** X9. A pull always returns.  With a client, each of the five tables is
    counted once, as pulled or as an error, whatever the remote store does,
    and the summary is the last thing reported; the remote tables are left
    as they were. *)
Theorem pull_counts_each_table (w : world) :
  supabase w = true →
  ∃ w' pulled errors,
    pull_supabase_to_local w = (Ok tt, w') ∧
    hd_error (trace w') = Some (Notify (Summary pulled 0 errors)) ∧
    (pulled + errors = 5)%nat ∧
    tables w' = tables w.
Proof.
  intros Hsup. unfold pull_supabase_to_local.
  unfold mbind at 1, M_bind at 1, bind at 1, gets. rewrite Hsup. cbn [negb]. cbv beta iota.
  destruct (pull_tables_counts TABLES (0, 0) w) as (c & w1 & Hrun & Hsum & Ht).
  unfold mbind, M_bind, bind. rewrite Hrun. unfold notify, act.
  eexists _, (fst c), (snd c). split; [reflexivity|]. simpl in *. split; [done|].
  split; [lia|done].
Qed.

Lemma pull_counts_each_table_witness :
  ∃ w' pulled errors,
    pull_supabase_to_local flaky_world = (Ok tt, w') ∧
    hd_error (trace w') = Some (Notify (Summary pulled 0 errors)) ∧
    (pulled + errors = 5)%nat.
Proof.
  destruct (pull_counts_each_table flaky_world) as (w' & p & e & Hrun & Htr & Hsum & _);
    [reflexivity|].
  by exists w', p, e.
Defined.

Lemma pull_tables_quiet (ts : list (string * string)) (c : nat * nat) (w : world) :
  faults w = [] → NoDup (map snd ts) →
  ∃ c' w', pull_tables ts c w = (Ok c', w') ∧
    (∀ table path, (table, path) ∈ ts →
       files w' !! path
       = Some (Json (VList (map VDict (map (pull_shape table)
                                         (first_rows 100001 (table_rows table w))))))) ∧
    (∀ path, path ∉ map snd ts → files w' !! path = files w !! path) ∧
    snd c' = snd c.
Proof.
  intros Hq. revert c w Hq. induction ts as [|[table path] ts IH]; intros c w Hq Hnd; simpl.
  - exists c, w. split; [done|]. split; [|done]. intros t p Hin. by apply elem_of_nil in Hin.
  - apply NoDup_cons in Hnd as [Hnin Hnd]. simpl in Hnin.
    assert (pull_table table path c w
            = (Ok (S (fst c), snd c),
               emit (Notify (Pulled table
                               (length (map (pull_shape table)
                                          (first_rows 100001 (table_rows table w))))))
                 (emit (FileWrite path)
                    (with_files
                       (<[path := Json (VList (map VDict (map (pull_shape table)
                                    (first_rows 100001 (table_rows table w)))))]> (files w))
                       (emit (Remote (OpSelect table) true) w))))) as Hrun.
    { unfold pull_table. unfold_M. by rewrite (remote_select_quiet _ _ _ Hq). }
    set (w1 := emit _ _) in Hrun.
    destruct (IH (S (fst c), snd c) w1) as (c' & w' & Hrun' & Hfiles & Hframe & Herr);
      [done|done|].
    exists c', w'. unfold mbind, M_bind, bind. rewrite Hrun, Hrun'.
    split; [done|]. split; [|split; [|done]].
    + intros t p Hin. apply elem_of_cons in Hin as [[= -> ->]|Hin].
      * rewrite Hframe by done. unfold w1. simpl. apply lookup_insert_eq.
      * apply Hfiles, Hin.
    + intros p Hp. simpl in Hp. apply not_elem_of_cons in Hp as [Hne Hp].
      rewrite Hframe by done. unfold w1. simpl. by rewrite lookup_insert_ne.
Qed.

(** X10. When the remote store answers every call, a pull replaces each of
    the five local files by the shaped rows of its remote table, whatever
    the file held (nothing is merged: an empty remote table leaves an empty
    array), reports no error and leaves every other file alone. *)
Theorem pull_overwrites_every_file (w : world) :
  supabase w = true → faults w = [] →
  ∃ w' pulled,
    pull_supabase_to_local w = (Ok tt, w') ∧
    hd_error (trace w') = Some (Notify (Summary pulled 0 0)) ∧
    (∀ table path, (table, path) ∈ TABLES →
       files w' !! path
       = Some (Json (VList (map VDict (map (pull_shape table)
                                         (first_rows 100001 (table_rows table w))))))) ∧
    (∀ path, path ∉ map snd TABLES → files w' !! path = files w !! path).
Proof.
  intros Hsup Hq. unfold pull_supabase_to_local.
  unfold mbind at 1, M_bind at 1, bind at 1, gets. rewrite Hsup. cbn [negb]. cbv beta iota.
  destruct (pull_tables_quiet TABLES (0, 0) w Hq) as (c & w1 & Hrun & Hfiles & Hframe & Herr).
  { unfold TABLES. simpl. nodup_strings. }
  unfold mbind, M_bind, bind. rewrite Hrun. unfold notify, act.
  eexists _, (fst c). split; [reflexivity|]. simpl in *. rewrite Herr. done.
Qed.

Lemma pull_overwrites_every_file_witness :
  ∃ w', pull_supabase_to_local seeded_world = (Ok tt, w') ∧
    files w' !! "users.json" = Some (Json (VList [])) ∧
    files w' !! "schools.json"
    = Some (Json (VList [VDict (pull_shape "schools" school_a)])).
Proof.
  destruct (pull_overwrites_every_file seeded_world) as (w' & p & Hrun & _ & Hfiles & _);
    [reflexivity..|].
  exists w'. split; [done|]. split.
  - apply (Hfiles "users" "users.json"). unfold TABLES. find_elem.
  - apply (Hfiles "schools" "schools.json"). unfold TABLES. find_elem.
Defined.
(** ** authenticate *)

Lemma find_user_sound (ps pw : string) (users : list pyval) (u : user) :
  find_user ps pw users = Ok (Some u) →
  ∃ r, VDict r ∈ users ∧
       get "ps_number" r = Some (VStr ps) ∧
       py_str (get_or "password" (VStr "") r) = pw ∧
       u = User ps (get_or "credential" (VStr "Coach") r) (get_or "name" (VStr ps) r).
Proof.
  induction users as [|v rest IH]; simpl; [done|].
  destruct v as [| | | | |r]; try done.
  destruct (eq_str (get_or "ps_number" VNone r) ps) eqn:Hps; simpl.
  - destruct (String.eqb_spec (py_str (get_or "password" (VStr "") r)) pw) as [Hpw|Hpw].
    + intros [= <-]. exists r. split; [apply list_elem_of_here|].
      apply eq_str_true in Hps. unfold get_or in Hps.
      destruct (get "ps_number" r) as [x|]; simpl in Hps; [|done]. by subst x.
    + intros Hrest. destruct (IH Hrest) as (r' & Hin & ?). exists r'.
      split; [by apply list_elem_of_further|done].
  - intros Hrest. destruct (IH Hrest) as (r' & Hin & ?). exists r'.
    split; [by apply list_elem_of_further|done].
Qed.

(** X11. A session identity is handed out only for a stored record: when
    [authenticate] returns a user, the users file is an array that holds a
    record whose [ps_number] is the text given and whose password, as text,
    is the password given; the identity carries the text given and the
    credential of that record ([Coach] when it has none).  No file, table
    or report is touched. *)
Theorem authenticate_sound (ps pw : string) (u : user) (w w' : world) :
  authenticate ps pw w = (Ok (Some u), w') →
  w' = w ∧
  ∃ (users : list pyval) (r : row),
    files w !! FILES "users" = Some (Json (VList users)) ∧
    VDict r ∈ users ∧
    get "ps_number" r = Some (VStr ps) ∧
    py_str (get_or "password" (VStr "") r) = pw ∧
    ps_number u = ps ∧
    credential u = get_or "credential" (VStr "Coach") r.
Proof.
  unfold authenticate, load_json. unfold_M.
  destruct (files w !! FILES "users") as [[|v]|] eqn:Hfile; simpl; try done.
  destruct (py_iter (py_or v (VList []))) as [l|e] eqn:Hiter; [|done].
  destruct (find_user ps pw l) as [[u'|]|e] eqn:Hfind; try done.
  intros [= -> ->]. split; [done|].
  destruct (find_user_sound _ _ _ _ Hfind) as (r & Hin & Hps & Hpw & ->).
  assert (v = VList l) as ->.
  { unfold py_or in Hiter. destruct (truthy v) eqn:Htr.
    - destruct v as [| | |s|l'|d]; simpl in Hiter; try done.
      + injection Hiter as <-. apply list_elem_of_fmap in Hin as (c & [=] & _).
      + congruence.
      + injection Hiter as <-. apply list_elem_of_fmap in Hin as (c & [=] & _).
    - simpl in Hiter. injection Hiter as <-. by apply elem_of_nil in Hin. }
  by exists l, r.
Qed.

Lemma authenticate_sound_witness :
  ∃ users (r : row),
    files default_users_world !! FILES "users" = Some (Json (VList users)) ∧
    VDict r ∈ users ∧ get "ps_number" r = Some (VStr "PS1724").
Proof.
  destruct (authenticate_sound "PS1724" "PS1724"
              (User "PS1724" (VStr "Admin") (VStr "Administrator"))
              default_users_world default_users_world)
    as (_ & users & r & Hfile & Hin & Hps & _); [reflexivity|].
  by exists users, r.
Defined.

(** ** Admin Users: Save User Changes *)

Lemma scan_ok_start : scan_ok (UsersScan [] [] ∅ ∅).
Proof.
  split; [split; [apply NoDup_nil_2|constructor]|].
  intros ps. simpl. split; [set_solver|]. intros H. by apply elem_of_nil in H.
Qed.

Lemma user_credential_cases (r : row) :
  user_credential r = VStr "Coach" ∨ user_credential r = VStr "Admin".
Proof.
  unfold user_credential.
  destruct (eq_str _ "Coach") eqn:Hc; simpl.
  - left. by apply eq_str_true.
  - destruct (eq_str _ "Admin") eqn:Ha; [|by left]. right. by apply eq_str_true.
Qed.

Lemma upper_strip_fixed (s : string) :
  PyStr.upper (PyStr.strip (PyStr.upper (PyStr.strip s))) = PyStr.upper (PyStr.strip s).
Proof. by rewrite strip_upper, strip_idem, upper_idem. Qed.

Lemma scan_user_ok (s : users_scan) (r : row) : scan_ok s → scan_ok (scan_user s r).
Proof.
  intros [[Hnd Hall] Hseen]. unfold scan_user.
  set (raw_ps := PyStr.upper (PyStr.strip (py_str (get_or "ps_number" (VStr "") r)))).
  destruct (truthy (VStr raw_ps)); cbn [negb]; [|done].
  destruct (is_ps_number raw_ps) eqn:Hps; cbn [negb]; [|done].
  destruct (bool_decide (raw_ps ∈ seen s)) eqn:Hin; [done|].
  apply bool_decide_eq_false in Hin.
  split; [split|]; cbn [shaped_users seen].
  - rewrite map_app. apply NoDup_app. split; [done|]. split.
    + intros x Hx. simpl. rewrite list_elem_of_singleton. intros ->.
      by apply Hin, Hseen.
    + apply NoDup_singleton.
  - apply Forall_app. split; [done|]. constructor; [|constructor].
    destruct (user_credential_cases r) as [Hc|Hc]; rewrite Hc.
    + eexists raw_ps, _, "Coach", _. split; [reflexivity|]. split; [done|].
      split; [apply upper_strip_fixed|by left].
    + eexists raw_ps, _, "Admin", _. split; [reflexivity|]. split; [done|].
      split; [apply upper_strip_fixed|by right].
  - intros ps. rewrite map_app, elem_of_app, elem_of_union, elem_of_singleton, Hseen.
    simpl. rewrite list_elem_of_singleton. split.
    + intros [->|?]; [by right|by left].
    + intros [?|[= ->]]; [by right|by left].
Qed.

Lemma scan_users_ok (rows : list row) (s : users_scan) :
  scan_ok s → scan_ok (foldl scan_user s rows).
Proof.
  revert s. induction rows as [|r rows IH]; intros s Hs; [done|].
  simpl. by apply IH, scan_user_ok.
Qed.

Lemma save_users_run (rows : list row) (w : world) :
  ∃ report w',
    save_users rows w = (Ok report, w') ∧
    match report with
    | Stopped errors => w' = w ∧ 0 < errors
    | Stored saved synced _ =>
        ∃ users,
          files w' !! FILES "users" = Some (Json (VList (map VDict users))) ∧
          users_table users ∧ saved = length users ∧ (synced = 0 ∨ synced = saved)
    end.
Proof.
  unfold save_users.
  destruct (scan_users_ok rows _ scan_ok_start) as [Htable _].
  set (s := foldl scan_user _ rows) in *.
  destruct (bool_decide (invalid_rows s = [])) eqn:Hinv; cbn [negb orb].
  - destruct (bool_decide (duplicated s = ∅)) eqn:Hdup; cbn [negb].
    + unfold mbind at 1, M_bind at 1, bind at 1, save_json, act.
      unfold mbind at 1, M_bind at 1, bind at 1, gets. cbv beta iota.
      set (w1 := emit _ _).
      assert (files w1 !! FILES "users"
              = Some (Json (VList (map VDict (shaped_users s))))) as Hw1.
      { unfold w1. simpl. apply lookup_insert_eq. }
      destruct (supabase w1 && _).
      * unfold try_except.
        pose proof (same_files_remote_upsert "users" (shaped_users s) (Some "ps_number") w1)
          as Hup.
        unfold mbind at 1, M_bind at 1, bind at 1.
        destruct (remote_upsert "users" _ _ w1) as [[[]|e] w2]; cbn [snd] in Hup.
        -- unfold mbind at 1, M_bind at 1, bind at 1.
           pose proof (same_files_remote_upsert "coaches" (mirror_rows (shaped_users s))
                         (Some "ps_number") w2) as Hmir.
           destruct (remote_upsert "coaches" _ _ w2) as [[[]|e] w3]; cbn [snd] in Hmir.
           ++ unfold_M. eexists _, _. split; [reflexivity|].
              exists (shaped_users s). rewrite Hmir, Hup. auto.
           ++ unfold_M. eexists _, _. split; [reflexivity|].
              exists (shaped_users s). simpl. rewrite Hmir, Hup. auto.
        -- unfold_M. eexists _, _. split; [reflexivity|].
           exists (shaped_users s). simpl. rewrite Hup. auto.
      * unfold_M. eexists _, _. split; [reflexivity|]. exists (shaped_users s). auto.
    + unfold_M. eexists _, _. split; [reflexivity|]. split; [done|].
      apply bool_decide_eq_false in Hdup.
      assert (size (duplicated s) ≠ 0); [|lia]. by intros ?%size_empty_inv%leibniz_equiv.
  - unfold_M. eexists _, _. split; [reflexivity|]. split; [done|].
    apply bool_decide_eq_false in Hinv. destruct (invalid_rows s); [done|simpl; lia].
Qed.

(** X12. Save User Changes either stops before it writes anything, with
    at least one error counted, or stores a users collection in which no
    identifier occurs twice and every user has an identifier of the form
    PS followed by digits, in upper case and trimmed, text fields and the
    credential Coach or Admin; the count saved is the number of users
    stored and the count synced is that number or zero. *)
Theorem save_users_outcome (rows : list row) (w : world) :
  ∃ report w',
    save_users rows w = (Ok report, w') ∧
    match report with
    | Stopped errors => w' = w ∧ 0 < errors
    | Stored saved synced _ =>
        ∃ users,
          files w' !! FILES "users" = Some (Json (VList (map VDict users))) ∧
          users_table users ∧ saved = length users ∧ (synced = 0 ∨ synced = saved)
    end.
Proof. apply save_users_run. Qed.

Lemma find_user_users_table (users : list row) (ps pw : string) :
  users_table users →
  ∃ result, find_user ps pw (map VDict users) = Ok result ∧
    ∀ u, result = Some u ↔
         ∃ cred name, user_row ps pw cred name ∈ users ∧ u = User ps cred (VStr name).
Proof.
  intros [Hnd Hall]. induction Hall as [|u0 rest (p0 & q0 & c0 & n0 & -> & _) Hrest IH].
  - exists None. split; [done|]. intros u. split; [done|].
    intros (? & ? & Hin & _). by apply elem_of_nil in Hin.
  - simpl in Hnd. apply NoDup_cons in Hnd as [Hnin Hnd].
    destruct (IH Hnd) as (result & Hrun & Hiff). simpl.
    destruct (String.eqb_spec p0 ps) as [->|Hp]; simpl.
    + destruct (String.eqb_spec q0 pw) as [->|Hq].
      * eexists. split; [reflexivity|]. intros u. split.
        -- intros [= <-]. exists (VStr c0), n0. split; [apply list_elem_of_here|done].
        -- intros (cred & name & Hin & ->). apply elem_of_cons in Hin as [[= <- <-]|Hin]; [done|].
           exfalso. apply Hnin. apply list_elem_of_fmap.
           by exists (user_row ps pw cred name).
      * exists result. split; [done|]. intros u. rewrite Hiff. split.
        -- intros (cred & name & Hin & ->). exists cred, name.
           split; [by apply list_elem_of_further|done].
        -- intros (cred & name & Hin & ->). exists cred, name. split; [|done].
           apply elem_of_cons in Hin as [[=]|Hin]; [congruence|done].
    + exists result. split; [done|]. intros u. rewrite Hiff. split.
      * intros (cred & name & Hin & ->). exists cred, name.
        split; [by apply list_elem_of_further|done].
      * intros (cred & name & Hin & ->). exists cred, name. split; [|done].
        apply elem_of_cons in Hin as [[=]|Hin]; [congruence|done].
Qed.

(** X13. After Save User Changes has stored the users, the login form
    admits exactly the stored pairs: [require_login] returns an identity
    if and only if the PS number and the password typed, both trimmed, are
    the identifier and the password of a stored user, and the identity
    carries that user's credential and name.  A PS number typed in lower
    case, or a password stored with a blank at either end, signs nobody
    in. *)
Theorem sign_in_after_save_users (rows : list row) (w w' : world) (saved synced : nat)
    (err : option exn) (ps pw : string) :
  save_users rows w = (Ok (Stored saved synced err), w') →
  ∃ users result,
    files w' !! FILES "users" = Some (Json (VList (map VDict users))) ∧
    require_login ps pw w' = (Ok result, w') ∧
    ∀ u, result = Some u ↔
         ∃ cred name,
           user_row (PyStr.strip ps) (PyStr.strip pw) cred name ∈ users ∧
           u = User (PyStr.strip ps) cred (VStr name).
Proof.
  intros Hrun. destruct (save_users_run rows w) as (report & w'' & Hrun' & Hrep).
  rewrite Hrun in Hrun'. injection Hrun' as <- <-.
  destruct Hrep as (users & Hfile & Htable & _).
  destruct (find_user_users_table users (PyStr.strip ps) (PyStr.strip pw) Htable)
    as (result & Hfind & Hiff).
  exists users, result. split; [done|]. split; [|done].
  unfold require_login, authenticate, load_json. unfold_M. rewrite Hfile.
  unfold py_or. destruct (truthy (VList (map VDict users))) eqn:Htr; simpl.
  - by rewrite Hfind.
  - destruct users; [|done]. simpl in Hfind. by injection Hfind as <-.
Qed.

Lemma sign_in_after_save_users_witness :
  ∃ users result,
    files (snd (save_users users_grid offline_world)) !! FILES "users"
    = Some (Json (VList (map VDict users))) ∧
    require_login "ps77" "secret" (snd (save_users users_grid offline_world))
    = (Ok result, snd (save_users users_grid offline_world)) ∧
    ∀ u, result = Some u ↔
         ∃ cred name,
           user_row (PyStr.strip "ps77") (PyStr.strip "secret") cred name ∈ users ∧
           u = User (PyStr.strip "ps77") cred (VStr name).
Proof.
  apply (sign_in_after_save_users users_grid offline_world
           (snd (save_users users_grid offline_world)) 2 0 None "ps77" "secret").
  vm_compute. reflexivity.
Defined.

(** ** Bootstrap defaults after a first-time sync *)

Global Instance no_new_file_refl : Reflexive no_new_file.
Proof. by intros w path. Qed.

Global Instance no_new_file_trans : Transitive no_new_file.
Proof. intros w1 w2 w3 H12 H23 path Hp. by apply H23, H12. Qed.

Lemma keeps_same_files_no_new_file {A} (m : M A) :
  keeps same_files m → keeps no_new_file m.
Proof. intros Hm w path. by rewrite (Hm w). Qed.

Lemma no_new_file_os_remove (path : string) : keeps no_new_file (os_remove path).
Proof.
  intros w p Hp. simpl. destruct (decide (path = p)) as [->|Hne].
  - by rewrite lookup_delete_eq.
  - by rewrite lookup_delete_ne.
Qed.

Ltac no_new_file_auto :=
  keeps_with ltac:(first
    [ apply no_new_file_os_remove
    | apply keeps_same_files_no_new_file;
      first [ apply same_files_notify | apply same_files_remote_select
            | apply same_files_remote_upsert | apply same_files_remote_delete_neq
            | apply same_files_json_load ] ]).

Lemma no_new_file_sync_table (force replace : bool) (table filename : string)
    (v : sync_vars) :
  keeps no_new_file (sync_table force replace table filename v).
Proof.
  unfold sync_table, check_existing, push_rows, clear_remote, mirror_users.
  no_new_file_auto.
Qed.

Lemma no_new_file_sync_tables (force replace : bool) (ts : list (string * string))
    (v : sync_vars) :
  keeps no_new_file (sync_tables force replace ts v).
Proof.
  revert v. induction ts as [|[table filename] ts IH]; intros v; simpl.
  - no_new_file_auto.
  - keeps_step; [apply no_new_file_sync_table|apply IH].
Qed.

Lemma ensure_json_run (path : string) (d : pyval) (w : world) :
  ∃ w', ensure_json path d w = (Ok tt, w') ∧
    (∀ p, p ≠ path → files w' !! p = files w !! p) ∧
    files w' !! path = Some (default (Json d) (files w !! path)).
Proof.
  unfold ensure_json, path_exists. unfold_M.
  destruct (files w !! path) as [f|] eqn:Hf.
  - rewrite bool_decide_eq_true_2 by eauto. by exists w.
  - rewrite bool_decide_eq_false_2 by (by intros [? [=]]).
    eexists. split; [reflexivity|]. simpl. split.
    + intros p Hp. by rewrite lookup_insert_ne.
    + apply lookup_insert_eq.
Qed.

Lemma bootstrap_defaults_users (w : world) :
  files w !! FILES "users" = None → files w !! coaches_path = None →
  ∃ w', bootstrap_defaults w = (Ok tt, w') ∧
    files w' !! FILES "users" = Some (Json (VList [VDict default_admin])).
Proof.
  intros Husers Hcoaches. unfold bootstrap_defaults.
  destruct (ensure_json_run (FILES "users") (VList [VDict default_admin]) w)
    as (w1 & Hr1 & Hf1 & Hu1).
  destruct (ensure_json_run (FILES "schools") (VList []) w1) as (w2 & Hr2 & Hf2 & _).
  destruct (ensure_json_run (FILES "materials") (VList []) w2) as (w3 & Hr3 & Hf3 & _).
  destruct (ensure_json_run (FILES "requests") (VList []) w3) as (w4 & Hr4 & Hf4 & _).
  destruct (ensure_json_run (FILES "stock") (VList []) w4) as (w5 & Hr5 & Hf5 & _).
  unfold mbind, M_bind, bind. rewrite Hr1, Hr2, Hr3, Hr4, Hr5.
  rewrite Husers in Hu1. simpl in Hu1.
  assert (files w5 !! FILES "users" = Some (Json (VList [VDict default_admin]))) as Hu5.
  { rewrite Hf5, Hf4, Hf3, Hf2 by done. exact Hu1. }
  assert (files w5 !! coaches_path = None) as Hc5.
  { rewrite Hf5, Hf4, Hf3, Hf2, Hf1 by done. exact Hcoaches. }
  exists w5. split; [|done].
  unfold migrate_coaches_into_users, migrate_coaches_into_users_by, path_exists. unfold_M. rewrite Hc5.
  by rewrite bool_decide_eq_false_2 by (by intros [? [=]]).
Qed.

Lemma sync_tables_first_time_users (ts : list (string * string)) (v : sync_vars)
    (users : list pyval) (w : world) (p : string) :
  faults w = [] →
  files w !! "users.json" = Some (Json (VList users)) →
  table_rows "users" w = [] →
  p = "users.json" ∨ files w !! p = None →
  files (snd (sync_tables false false (("users", "users.json") :: ts) v w)) !! p = None.
Proof.
  intros Hq Hfile Hempty Hp. cbn [sync_tables].
  destruct (sync_table_quiet_files false false "users" "users.json" v
              users w Hfile Hq Hempty) as (v1 & w1 & Hrun & _ & Hfiles & _); [done|].
  unfold mbind, M_bind, bind. rewrite Hrun.
  apply (no_new_file_sync_tables false false ts v1 w1). rewrite Hfiles. cbn [negb andb].
  destruct Hp as [->|Hp]; [apply lookup_delete_eq|].
  destruct (decide ("users.json" = p)) as [<-|Hne]; [apply lookup_delete_eq|].
  by rewrite lookup_delete_ne.
Qed.

Lemma sync_first_time_users (users : list pyval) (w : world) (p : string) :
  supabase w = true → faults w = [] →
  files w !! "users.json" = Some (Json (VList users)) →
  table_rows "users" w = [] →
  p = "users.json" ∨ files w !! p = None →
  files (snd (sync_local_to_supabase false false w)) !! p = None.
Proof.
  intros Hsup Hq Hfile Hempty Hp.
  pose proof (sync_tables_first_time_users (tail TABLES) (SyncVars None 0 0 0) users w p
                Hq Hfile Hempty Hp) as Hgone.
  unfold sync_local_to_supabase. unfold mbind at 1, M_bind at 1, bind at 1, gets.
  rewrite Hsup. cbn [negb]. cbv beta iota.
  change TABLES with (("users", "users.json") :: tail TABLES).
  unfold mbind, M_bind, bind.
  destruct (sync_tables false false _ _ w) as [[v1|e] w1]; cbn [snd] in *; done.
Qed.

Lemma find_default_admin (ps pw : string) :
  find_user ps pw [VDict default_admin]
  = Ok (if decide (ps = "PS1724" ∧ pw = "PS1724")
        then Some (User "PS1724" (VStr "Admin") (VStr "Administrator"))
        else None).
Proof.
  change (find_user ps pw [VDict default_admin])
    with (if String.eqb "PS1724" ps && String.eqb "PS1724" pw
          then Ok (Some (User ps (VStr "Admin") (VStr "Administrator")))
          else Ok None).
  destruct (String.eqb_spec "PS1724" ps) as [<-|Hps]; cbn [andb].
  - destruct (String.eqb_spec "PS1724" pw) as [<-|Hpw].
    + by rewrite decide_True.
    + rewrite decide_False; [done|]. by intros [_ ?].
  - rewrite decide_False; [done|]. by intros [? _].
Qed.

(** X14. A first-time sync removes the users file, and [authenticate]
    reads nothing but that file.  When the remote users table is empty, no
    flag is set and the remote store answers every call, then after the
    pass and the start of the next run of the script the users file holds
    the default administrator alone: every other account that was stored
    can no longer sign in, whatever it was. *)
Theorem first_sync_resets_accounts (users : list pyval) (w : world) (ps pw : string) :
  supabase w = true → faults w = [] →
  files w !! FILES "users" = Some (Json (VList users)) →
  table_rows "users" w = [] →
  files w !! coaches_path = None →
  ∃ w1 w2,
    snd (sync_local_to_supabase false false w) = w1 ∧
    bootstrap_defaults w1 = (Ok tt, w2) ∧
    files w2 !! FILES "users" = Some (Json (VList [VDict default_admin])) ∧
    authenticate ps pw w2
    = (Ok (if decide (ps = "PS1724" ∧ pw = "PS1724")
           then Some (User "PS1724" (VStr "Admin") (VStr "Administrator"))
           else None), w2).
Proof.
  intros Hsup Hq Hfile Hempty Hcoaches.
  pose proof (sync_first_time_users users w (FILES "users") Hsup Hq Hfile Hempty
                (or_introl eq_refl)) as Hu.
  pose proof (sync_first_time_users users w coaches_path Hsup Hq Hfile Hempty
                (or_intror Hcoaches)) as Hc.
  destruct (bootstrap_defaults_users _ Hu Hc) as (w2 & Hboot & Hu2).
  exists (snd (sync_local_to_supabase false false w)), w2.
  split; [done|]. split; [done|]. split; [done|].
  unfold authenticate, load_json. unfold_M. rewrite Hu2.
  change (py_iter (py_or (VList [VDict default_admin]) (VList [])))
    with (Ok [VDict default_admin]).
  cbv beta iota. by rewrite find_default_admin.
Qed.

Lemma first_sync_resets_accounts_witness :
  fst (authenticate "PS5" "pw5" first_sync_world)
  = Ok (Some (User "PS5" (VStr "Coach") (VStr "Bia"))) ∧
  ∃ w1 w2,
    snd (sync_local_to_supabase false false first_sync_world) = w1 ∧
    bootstrap_defaults w1 = (Ok tt, w2) ∧
    authenticate "PS5" "pw5" w2 = (Ok None, w2).
Proof.
  split; [reflexivity|].
  destruct (first_sync_resets_accounts [VDict default_admin; VDict coach_account]
              first_sync_world "PS5" "pw5")
    as (w1 & w2 & Hsync & Hboot & _ & Hauth); [reflexivity..|].
  by exists w1, w2.
Defined.

(** ** migrate_coaches_into_users *)

Lemma ps_keyed_set (k : string) (r : row) (by_ps : list (string * row)) :
  get "ps_number" r = Some (VStr k) → k ≠ "" → ps_keyed by_ps → ps_keyed (od_set k r by_ps).
Proof.
  intros Hk Hne [Hnd Hall]. split; [by apply od_set_NoDup|]. by apply od_set_Forall.
Qed.

Lemma index_users_keyed (users : list pyval) (acc : list (string * row)) :
  ps_keyed acc →
  match index_users acc users with
  | Ok by_ps => ps_keyed by_ps
  | Raise _ => True
  end.
Proof.
  revert acc. induction users as [|v users IH]; intros acc Hacc; simpl; [done|].
  destruct v as [| | | | |u]; try done.
  fold (ps_text u). change (negb (ps_text u =? "")) with (truthy (VStr (ps_text u))).
  destruct (truthy (VStr (ps_text u))) eqn:E; apply IH; [|done].
  apply ps_keyed_set; [done| |done]. by apply truthy_str_true.
Qed.

Lemma merge_coaches_keyed (coaches : list pyval) (acc : list (string * row)) :
  ps_keyed acc →
  match merge_coaches acc coaches with
  | Ok by_ps => ps_keyed by_ps
  | Raise _ => True
  end.
Proof.
  revert acc. induction coaches as [|v coaches IH]; intros acc Hacc; simpl; [done|].
  destruct v as [| | | | |c]; try done.
  fold (ps_text c). change (negb (ps_text c =? "")) with (truthy (VStr (ps_text c))).
  destruct (truthy (VStr (ps_text c))) eqn:E; apply IH; [|done].
  apply ps_keyed_set; [done| |done]. by apply truthy_str_true.
Qed.

Lemma ps_keyed_values (by_ps : list (string * row)) :
  ps_keyed by_ps →
  NoDup (map (get_or "ps_number" VNone) (od_values by_ps)) ∧
  Forall (λ r, ∃ ps, get "ps_number" r = Some (VStr ps) ∧ ps ≠ "") (od_values by_ps).
Proof.
  intros [Hnd Hall]. split.
  - assert (map (get_or "ps_number" VNone) (od_values by_ps) = map VStr (map fst by_ps)) as ->.
    { unfold od_values. rewrite !map_map. apply map_ext_Forall.
      eapply Forall_impl; [exact Hall|]. intros [k r] [Hk _]. simpl in *.
      unfold get_or. by rewrite Hk. }
    apply NoDup_fmap_2; [|done]. by intros ?? [=].
  - unfold od_values. apply Forall_map. eapply Forall_impl; [exact Hall|].
    intros [k r] [Hk Hne]. by exists k.
Qed.

(** X15. The migration of the legacy coaches file always returns,
    whatever [os.remove] does, and never touches the remote tables.  Either
    no file changes, or the users file is rewritten, with users that carry
    pairwise distinct [ps_number] texts, none of them empty; the coaches
    file is then removed, or kept when the removal is refused.  No other
    file changes. *)
Theorem migrate_outcomes (remove : string → M unit) (w : world) :
  removal remove →
  ∃ w', migrate_coaches_into_users_by remove w = (Ok tt, w') ∧
    tables w' = tables w ∧
    (files w' = files w ∨
     ∃ merged,
       is_Some (files w !! coaches_path) ∧
       (files w'
        = delete coaches_path (<[FILES "users" := Json (VList (map VDict merged))]> (files w)) ∨
        files w' = <[FILES "users" := Json (VList (map VDict merged))]> (files w)) ∧
       NoDup (map (get_or "ps_number" VNone) merged) ∧
       Forall (λ r, ∃ ps, get "ps_number" r = Some (VStr ps) ∧ ps ≠ "") merged).
Proof.
  intros Hremove.
  unfold migrate_coaches_into_users_by. unfold mbind at 1, M_bind at 1, bind at 1, gets.
  cbv beta iota. destruct (path_exists coaches_path w) eqn:Hex; cbn [negb].
  2:{ exists w. split; [done|]. split; [done|]. by left. }
  apply bool_decide_eq_true in Hex.
  unfold try_except at 1.
  unfold mbind at 1, M_bind at 1, bind at 1.
  assert (∃ users, load_json (FILES "users") w = (Ok users, w)) as [users ->].
  { unfold load_json. destruct (files w !! FILES "users") as [[]|]; by eexists. }
  unfold mbind at 1, M_bind at 1, bind at 1.
  assert (∃ coaches, load_json coaches_path w = (Ok coaches, w)) as [coaches ->].
  { unfold load_json. destruct (files w !! coaches_path) as [[]|]; by eexists. }
  unfold mbind at 1, M_bind at 1, bind at 1, lift at 1.
  destruct (py_iter (py_or users (VList []))) as [ul|e]; [|exists w; split; [done|]; split; [done|]; by left].
  unfold mbind at 1, M_bind at 1, bind at 1, lift at 1.
  pose proof (index_users_keyed ul [] (conj (NoDup_nil_2) (Forall_nil_2 _))) as Hk1.
  destruct (index_users [] ul) as [b1|e]; [|exists w; split; [done|]; split; [done|]; by left].
  unfold mbind at 1, M_bind at 1, bind at 1, lift at 1.
  destruct (py_iter (py_or coaches (VList []))) as [cl|e];
    [|exists w; split; [done|]; split; [done|]; by left].
  unfold mbind at 1, M_bind at 1, bind at 1, lift at 1.
  pose proof (merge_coaches_keyed cl b1 Hk1) as Hk2.
  destruct (merge_coaches b1 cl) as [b2|e]; [|exists w; split; [done|]; split; [done|]; by left].
  destruct (ps_keyed_values b2 Hk2) as [Hnd Hall].
  unfold_M. unfold save_json, act. cbv beta iota.
  set (w1 := emit _ _).
  destruct (Hremove coaches_path w1) as [->|[e ->]].
  - unfold os_remove, act. eexists. split; [reflexivity|]. split; [done|].
    right. exists (od_values b2). split; [done|]. split; [by left|done].
  - eexists. split; [reflexivity|]. split; [done|].
    right. exists (od_values b2). split; [done|]. split; [by right|done].
Qed.

Lemma migrate_outcomes_witness :
  ∃ w', migrate_coaches_into_users_by refused_removal legacy_world = (Ok tt, w') ∧
    tables w' = tables legacy_world.
Proof.
  destruct (migrate_outcomes refused_removal legacy_world) as (w' & Hrun & Htables & _).
  - intros path w. right. by exists OSError.
  - by exists w'.
Defined.

(** When the removal is refused the users file is rewritten all the same
    and the legacy file stays, so that the next run of the script migrates
    again. *)
Example migrate_with_refused_removal :
  let w' := snd (migrate_coaches_into_users_by refused_removal legacy_world) in
  is_Some (files w' !! coaches_path) ∧
  files w' !! FILES "users" ≠ files legacy_world !! FILES "users" ∧
  trace w' = [FileWrite (FILES "users")].
Proof. split; [by eexists|]. split; [discriminate|reflexivity]. Qed.

Lemma index_users_lookup (u : row) (users : list pyval) (acc : list (string * row)) :
  Forall is_dict users →
  ps_text u ≠ "" →
  (∀ u', VDict u' ∈ users → ps_text u' = ps_text u → u' = u) →
  (od_get (ps_text u) acc = Some (user_entry u) ∨ VDict u ∈ users) →
  ∃ by_ps, index_users acc users = Ok by_ps ∧
           od_get (ps_text u) by_ps = Some (user_entry u).
Proof.
  intros Hl Hne. revert acc.
  induction Hl as [|v l [d ->] _ IH]; intros acc Huniq Hin; simpl.
  - exists acc. split; [done|]. destruct Hin as [?|Hin]; [done|]. by apply elem_of_nil in Hin.
  - fold (ps_text d).
    assert (∀ u', VDict u' ∈ l → ps_text u' = ps_text u → u' = u) as Huniq'.
    { intros u' Hu'. apply Huniq. by apply list_elem_of_further. }
    change (negb (ps_text d =? "")) with (truthy (VStr (ps_text d))).
    destruct (truthy (VStr (ps_text d))) eqn:E.
    + apply IH; [done|].
      destruct (decide (ps_text d = ps_text u)) as [Hd|Hd].
      * left. rewrite Hd, (Huniq d (list_elem_of_here _ _) Hd). apply od_get_set_eq.
      * rewrite od_get_set_ne by done. destruct Hin as [?|Hin]; [by left|].
        apply elem_of_cons in Hin as [[= ->]|Hin]; [done|by right].
    + apply IH; [done|].
      destruct Hin as [?|Hin]; [by left|].
      apply elem_of_cons in Hin as [[= ->]|Hin]; [|by right].
      apply truthy_str_false' in E. congruence.
Qed.

Lemma merge_coaches_password (k p : string) (coaches : list pyval)
    (acc : list (string * row)) :
  Forall is_dict coaches → p ≠ "" →
  (∃ m, od_get k acc = Some m ∧ get "ps_number" m = Some (VStr k) ∧
        get "password" m = Some (VStr p)) →
  ∃ by_ps m, merge_coaches acc coaches = Ok by_ps ∧
    od_get k by_ps = Some m ∧ get "ps_number" m = Some (VStr k) ∧
    get "password" m = Some (VStr p).
Proof.
  intros Hl Hp. revert acc. induction Hl as [|v l [c ->] _ IH]; intros acc Hacc; simpl.
  - destruct Hacc as (m & ?). by exists acc, m.
  - fold (ps_text c). change (negb (ps_text c =? "")) with (truthy (VStr (ps_text c))).
    destruct (truthy (VStr (ps_text c))) eqn:E; apply IH; [|done].
    destruct Hacc as (m & Hget & Hps & Hpw).
    destruct (decide (ps_text c = k)) as [Hc|Hc].
    + rewrite Hc, od_get_set_eq, Hget. eexists. split; [reflexivity|]. split; [done|].
      change (default [] (Some m)) with m.
      change (get "password" (merged_coach k m c))
        with (Some (py_or (get_or "password" VNone m)
                      (VStr (py_str (get_or "password" (VStr k) c))))).
      unfold get_or at 1. rewrite Hpw. change (default VNone (Some (VStr p))) with (VStr p).
      unfold py_or. by rewrite (proj2 (truthy_str_true p) Hp).
    + rewrite od_get_set_ne by done. by exists m.
Qed.

(** X16. The migration never changes a password that is set.  When both
    files hold arrays of records, a stored user whose [ps_number] text is
    not blank and is borne by no other stored user, and whose password text
    is not empty, is in the users file after the migration with that
    password, whatever the coaches file says about the same PS number. *)
Theorem migrate_keeps_set_passwords (users coaches : list pyval) (u : row) (w : world) :
  files w !! FILES "users" = Some (Json (VList users)) → Forall is_dict users →
  files w !! coaches_path = Some (Json (VList coaches)) → Forall is_dict coaches →
  VDict u ∈ users → ps_text u ≠ "" →
  (∀ u', VDict u' ∈ users → ps_text u' = ps_text u → u' = u) →
  py_str (get_or "password" (VStr "") u) ≠ "" →
  ∃ w' merged m,
    migrate_coaches_into_users w = (Ok tt, w') ∧
    files w' !! FILES "users" = Some (Json (VList (map VDict merged))) ∧
    files w' !! coaches_path = None ∧
    m ∈ merged ∧
    get "ps_number" m = Some (VStr (ps_text u)) ∧
    get "password" m = Some (VStr (py_str (get_or "password" (VStr "") u))).
Proof.
  intros Husers Hud Hcoaches Hcd Hin Hne Huniq Hpw.
  destruct (index_users_lookup u users [] Hud Hne Huniq (or_intror Hin)) as (b1 & Hb1 & Hget1).
  destruct (merge_coaches_password (ps_text u) (py_str (get_or "password" (VStr "") u))
              coaches b1 Hcd Hpw) as (b2 & m & Hb2 & Hget2 & Hps & Hpass).
  { by exists (user_entry u). }
  assert (py_iter (py_or (VList users) (VList [])) = Ok users) as Hiu.
  { unfold py_or. by destruct users. }
  assert (py_iter (py_or (VList coaches) (VList [])) = Ok coaches) as Hic.
  { unfold py_or. by destruct coaches. }
  assert (load_json (FILES "users") w = (Ok (VList users), w)) as Hlu.
  { unfold load_json. by rewrite Husers. }
  assert (load_json coaches_path w = (Ok (VList coaches), w)) as Hlc.
  { unfold load_json. by rewrite Hcoaches. }
  unfold migrate_coaches_into_users, migrate_coaches_into_users_by, path_exists. unfold_M.
  rewrite Hcoaches. rewrite bool_decide_eq_true_2 by eauto. cbn [negb].
  rewrite Hlu, Hlc, Hiu, Hb1, Hic, Hb2. unfold save_json, os_remove, act.
  eexists _, (od_values b2), m. split; [reflexivity|]. cbn [files emit with_files].
  split; [|split; [apply lookup_delete_eq|]].
  - rewrite lookup_delete_ne by done. apply lookup_insert_eq.
  - split; [by eapply od_get_values|done].
Qed.

Lemma migrate_keeps_set_passwords_witness :
  ∃ w' merged m,
    migrate_coaches_into_users legacy_world = (Ok tt, w') ∧
    files w' !! FILES "users" = Some (Json (VList (map VDict merged))) ∧
    m ∈ merged ∧
    get "ps_number" m = Some (VStr "PS5") ∧ get "password" m = Some (VStr "pw5").
Proof.
  destruct (migrate_keeps_set_passwords
              [VDict default_admin; VDict coach_account]
              [VDict [("ps_number", VStr "PS5"); ("password", VStr "other")];
               VDict [("ps_number", VStr "PS6")]]
              coach_account legacy_world)
    as (w' & merged & m & Hrun & Hfile & _ & Hin & Hps & Hpw).
  - reflexivity.
  - repeat constructor; by eexists.
  - reflexivity.
  - repeat constructor; by eexists.
  - find_elem.
  - vm_compute. discriminate.
  - intros u' Hu' Hid.
    repeat (apply elem_of_cons in Hu' as [Hu'|Hu'];
            [injection Hu' as ->; try done; vm_compute in Hid; discriminate|]).
    by apply elem_of_nil in Hu'.
  - vm_compute. discriminate.
  - by exists w', merged, m.
Defined.
(** ** load_requests_data *)

Lemma for_values_run (rows : list row) (c : bool) (w : world) :
  for_values request_defaults_any (map VDict rows) c w
  = (Ok (map VDict (fill_all fill_request w (uuid_next w) rows),
         c || existsb request_flagged rows),
     with_uuid_next (uuid_next w + missing_ids rows) w).
Proof.
  revert c w. induction rows as [|r rows IH]; intros c w; simpl.
  - unfold_M. unfold missing_ids. simpl.
    by rewrite orb_false_r, Nat.add_0_r, with_uuid_next_same.
  - unfold_M. rewrite request_defaults_run, IH. unfold missing_ids, draw_if. simpl.
    rewrite orb_assoc. destruct (has "id" r); simpl.
    + done.
    + rewrite fill_all_with_uuid_next. f_equal.
      unfold with_uuid_next; simpl. f_equal. lia.
Qed.

Lemma ensure_request_value_run (rows : list row) (w : world) :
  ensure_request_value (VList (map VDict rows)) w =
  let rows' := fill_all fill_request w (uuid_next w) rows in
  let w1 := with_uuid_next (uuid_next w + missing_ids rows) w in
  (Ok (VList (map VDict rows')),
   if existsb request_flagged rows
   then after_save (FILES "requests") (VList (map VDict rows')) w1 else w1).
Proof.
  unfold ensure_request_value. unfold_M. cbn [py_iter].
  rewrite for_values_run. simpl.
  destruct (existsb request_flagged rows); reflexivity.
Qed.

Lemma fill_all_entropy (fill : string → row → row) (w w' : world) (n : nat)
    (rows : list row) :
  entropy w' = entropy w → fill_all fill w' n rows = fill_all fill w n rows.
Proof.
  intros He. revert n. induction rows as [|r rows IH]; intros n; simpl; [done|].
  unfold uuid_of. by rewrite He, IH.
Qed.

Lemma fill_all_not_flagged (w : world) (n : nat) (rows : list row) :
  existsb request_flagged rows = false → fill_all fill_request w n rows = rows.
Proof.
  intros Hno. apply fill_all_fixed.
  induction rows as [|r rows IH]; [done|]. simpl in Hno.
  apply orb_false_iff in Hno as [Hr Hrest]. constructor; [|by apply IH].
  unfold request_flagged in Hr.
  apply orb_false_iff in Hr as [Hr H3]. apply orb_false_iff in Hr as [H1 H2].
  apply negb_false_iff in H1, H2, H3. split; [done|]. intros u.
  by apply fill_request_fixed.
Qed.

Lemma remote_select_succeeds (table : string) (n : N) (w : world) :
  hd false (faults w) = false →
  ∃ w1, remote_select table n w = (Ok (first_rows n (table_rows table w)), w1) ∧
    files w1 = files w ∧ tables w1 = tables w ∧ entropy w1 = entropy w ∧
    uuid_next w1 = uuid_next w ∧ supabase w1 = supabase w.
Proof.
  intros Hq. unfold remote_select, remote_call. unfold_M.
  destruct (faults w) as [|[] fl]; [|done|]; by eexists.
Qed.

(** X17. When the client exists and the remote read succeeds,
    [load_requests_data] replaces the local requests file by what the
    remote table holds (normalized), whatever the file held: a request that
    was stored locally and never reached the remote store is gone after the
    next load, and a remote table that is empty leaves an empty local
    file. *)
Theorem load_requests_data_replaces_cache (w : world) :
  supabase w = true → hd false (faults w) = false →
  ∃ w' rows,
    rows = fill_all fill_request w (uuid_next w)
             (first_rows 100001 (table_rows "requests" w)) ∧
    load_requests_data w
    = (Ok (VList (map VDict rows),
           (if bool_decide (length (first_rows 100001 (table_rows "requests" w)) = 0)
            then SourceLocal else SourceSupabase),
           None), w') ∧
    files w' !! FILES "requests" = Some (Json (VList (map VDict rows))) ∧
    tables w' = tables w.
Proof.
  intros Hsup Hq.
  destruct (remote_select_succeeds "requests" 100001 w Hq)
    as (w1 & Hsel & Hf1 & Ht1 & He1 & Hn1 & _).
  set (remote := first_rows 100001 (table_rows "requests" w)) in *.
  unfold load_requests_data. unfold mbind at 1, M_bind at 1, bind at 1, gets.
  rewrite Hsup. cbv beta iota.
  unfold mbind at 1, M_bind at 1, bind at 1, try_except at 1.
  unfold mbind at 1, M_bind at 1, bind at 1. rewrite Hsel.
  unfold mbind at 1, M_bind at 1, bind at 1, save_json at 1, act at 1, ret at 1.
  cbv beta iota.
  set (w2 := emit _ _).
  assert (files w2 !! FILES "requests" = Some (Json (VList (map VDict remote)))) as Hf2.
  { unfold w2. simpl. apply lookup_insert_eq. }
  destruct (bool_decide (length remote = 0)) eqn:Hlen.
  - apply bool_decide_eq_true in Hlen. destruct remote; [|done].
    unfold_M. unfold load_json. rewrite Hf2. simpl. exists w2, []. done.
  - unfold mbind at 1, M_bind at 1, bind at 1, ret at 1. cbv beta iota.
    unfold mbind at 1, M_bind at 1, bind at 1. rewrite ensure_request_value_run.
    cbv zeta. unfold ret.
    rewrite (fill_all_entropy fill_request w w2) by done.
    change (uuid_next w2) with (uuid_next w1). rewrite Hn1.
    eexists _, _. split; [reflexivity|]. split; [reflexivity|].
    destruct (existsb request_flagged remote) eqn:Hfl.
    + split; [apply lookup_insert_eq|done].
    + rewrite fill_all_not_flagged by done. split; [|done]. exact Hf2.
Qed.

Lemma load_requests_data_replaces_cache_witness :
  ∃ w', load_requests_data unsynced_world = (Ok (VList [], SourceLocal, None), w') ∧
    files unsynced_world !! FILES "requests" = Some (Json (VList [VDict new_request])) ∧
    files w' !! FILES "requests" = Some (Json (VList [])).
Proof.
  destruct (load_requests_data_replaces_cache unsynced_world)
    as (w' & rows & -> & Hrun & Hfile & _); [reflexivity..|].
  exists w'. split; [exact Hrun|]. split; [reflexivity|exact Hfile].
Defined.

(** X18. Without a client, or when the remote read raises, the rows come
    from the local file, normalized; the source is local and the error is
    the exception of the read, if any.  The remote tables are not touched,
    and the file is written only if the normalizer had to complete a
    record. *)
Theorem load_requests_data_falls_back (local : list row) (w : world) :
  supabase w = false ∨ hd false (faults w) = true →
  files w !! FILES "requests" = Some (Json (VList (map VDict local))) →
  ∃ w',
    load_requests_data w
    = (Ok (VList (map VDict (fill_all fill_request w (uuid_next w) local)), SourceLocal,
           if supabase w then Some RemoteError else None), w') ∧
    tables w' = tables w ∧
    (existsb request_flagged local = false → files w' = files w).
Proof.
  intros Hcase Hfile.
  assert (∃ w1,
    (if supabase w then
       try_except
         (rows ← remote_select "requests" 100001;
          save_json (FILES "requests") (VList (map VDict rows)) ;;
          ret (rows, SourceSupabase, None))
         (λ exc, ret ([], SourceLocal, Some exc))
     else ret ([], SourceLocal, None)) w
    = (Ok ([], SourceLocal, if supabase w then Some RemoteError else None), w1) ∧
    files w1 = files w ∧ tables w1 = tables w ∧ entropy w1 = entropy w ∧
    uuid_next w1 = uuid_next w) as (w1 & Hfirst & Hf1 & Ht1 & He1 & Hn1).
  { destruct (supabase w) eqn:Hsup; [|by exists w].
    destruct Hcase as [?|Hq]; [done|].
    unfold remote_select, remote_call. unfold_M.
    destruct (faults w) as [|[] fl]; try done. by eexists. }
  unfold load_requests_data. unfold mbind at 1, M_bind at 1, bind at 1, gets.
  cbv beta iota. unfold mbind at 1, M_bind at 1, bind at 1. rewrite Hfirst.
  cbv beta iota. rewrite bool_decide_eq_true_2 by done.
  unfold mbind at 1, M_bind at 1, bind at 1.
  unfold mbind at 1, M_bind at 1, bind at 1, load_json at 1. rewrite Hf1, Hfile.
  unfold ret at 1. cbv beta iota.
  assert (py_or (VList (map VDict local)) (VList []) = VList (map VDict local)) as ->.
  { unfold py_or. by destruct local. }
  unfold mbind at 1, M_bind at 1, bind at 1. rewrite ensure_request_value_run.
  cbv zeta. unfold ret. rewrite (fill_all_entropy fill_request w1 w) by done. rewrite Hn1.
  eexists. split; [reflexivity|]. destruct (existsb request_flagged local).
  - split; [done|]. done.
  - split; [done|]. intros _. exact Hf1.
Qed.

Lemma load_requests_data_falls_back_witness :
  ∃ w', load_requests_data unreachable_world
        = (Ok (VList (map VDict (fill_all fill_request unreachable_world 0 stored_requests)),
               SourceLocal, Some RemoteError), w').
Proof.
  destruct (load_requests_data_falls_back stored_requests unreachable_world)
    as (w' & Hrun & _); [by right|reflexivity|].
  by exists w'.
Defined.
(** ** What a user sees: requests and stock *)




(** X20. The stock rows a user who is not an Admin sees are rows of the
    collection whose [school_id] has the text of the [id] of one of the
    user's visible schools, whatever school is chosen in the list; a chosen
    school narrows the rows to those with its identifier.  A field that is
    missing reads as the text None on both sides: a visible school without
    [id] shows the rows without [school_id]. *)
Theorem visible_stock_gate (u : user) (visible_schools stock_rows : list row)
    (selected_school_id : string) (r : row) :
  credential u ≠ VStr "Admin" →
  r ∈ visible_stock u visible_schools selected_school_id stock_rows ↔
  r ∈ stock_rows ∧
  (∃ s, s ∈ visible_schools ∧
        py_str (get_or "id" VNone s) = py_str (get_or "school_id" VNone r)) ∧
  (selected_school_id ≠ "" → py_str (get_or "school_id" VNone r) = selected_school_id).
Proof.
  intros Hcoach. unfold visible_stock.
  assert (eq_str (credential u) "Admin" = false) as ->.
  { destruct (eq_str (credential u) "Admin") eqn:E; [|done]. by apply eq_str_true in E. }
  assert (∀ l : list row,
    r ∈ List.filter (λ r, bool_decide (py_str (get_or "school_id" VNone r)
                           ∈ map (λ s, py_str (get_or "id" VNone s)) visible_schools)) l ↔
    r ∈ l ∧ ∃ s, s ∈ visible_schools ∧
                 py_str (get_or "id" VNone s) = py_str (get_or "school_id" VNone r)) as Hallowed.
  { intros l. rewrite list_elem_of_In, filter_In, <- list_elem_of_In, bool_decide_eq_true.
    rewrite list_elem_of_fmap. split; intros [? (s & ? & ?)]; (split; [done|]); by exists s. }
  destruct (truthy (VStr selected_school_id)) eqn:Hsel.
  - apply truthy_str_true in Hsel.
    rewrite list_elem_of_In, filter_In, <- list_elem_of_In, Hallowed, String.eqb_eq. tauto.
  - apply truthy_str_false' in Hsel. rewrite Hallowed. subst. tauto.
Qed.

Lemma visible_stock_gate_witness :
  request_of_b ∈ visible_stock coach_ps1 [school_b] "" [request_of_a; request_of_b].
Proof.
  apply (visible_stock_gate coach_ps1 [school_b] [request_of_a; request_of_b] "" request_of_b).
  - discriminate.
  - split; [find_elem|]. split; [|done]. exists school_b. split; [find_elem|reflexivity].
Defined.

(** ** Manage Requests: Update Status for Selected Requests *)

Lemma od_set_twice {K V : Type} `{EqDecision K} (k : K) (v v' : V) (d : list (K * V)) :
  od_set k v (od_set k v' d) = od_set k v d.
Proof.
  induction d as [|[k' x] d IH]; simpl.
  - by rewrite decide_True.
  - destruct (decide (k = k')) as [->|Hne]; simpl.
    + by rewrite decide_True.
    + by rewrite decide_False, IH.
Qed.

Lemma truthy_key_Some (r : row) (k : hkey) :
  truthy_key r = Some k →
  truthy (get_or "id" VNone r) = true ∧ py_hash (get_or "id" VNone r) = Ok k.
Proof.
  unfold truthy_key. destruct (truthy _); [|done].
  destruct (py_hash _); [|done]. by intros [= ->].
Qed.

Lemma py_hash_falsy (v : pyval) (k : hkey) :
  truthy v = false → py_hash v = Ok k → k = HNone ∨ k = HInt 0 ∨ k = HStr "".
Proof.
  destruct v as [|[]|z|s| |]; simpl; try done; intros Ht [= <-]; auto.
  - apply negb_false_iff, Z.eqb_eq in Ht. subst. auto.
  - apply negb_false_iff, String.eqb_eq in Ht. subst. auto.
Qed.

Lemma py_hash_truthy (v : pyval) (k : hkey) :
  truthy v = true → py_hash v = Ok k → k ≠ HNone ∧ k ≠ HInt 0 ∧ k ≠ HStr "".
Proof.
  destruct v as [|[]|z|s| |]; simpl; try done; intros Ht [= <-]; repeat split; try done.
  - apply negb_true_iff, Z.eqb_neq in Ht. congruence.
  - apply negb_true_iff, String.eqb_neq in Ht. congruence.
Qed.

Lemma truthy_key_None (r : row) (k : hkey) :
  truthy_key r = None → py_hash (get_or "id" VNone r) = Ok k →
  ∀ r', truthy_key r' ≠ Some k.
Proof.
  unfold truthy_key at 1. intros Hnone Hk r' Hr'.
  apply truthy_key_Some in Hr' as [Ht' Hk'].
  destruct (truthy (get_or "id" VNone r)) eqn:Ht; [by rewrite Hk in Hnone|].
  destruct (py_hash_truthy _ _ Ht' Hk') as (H1 & H2 & H3).
  destruct (py_hash_falsy _ _ Ht Hk) as [?|[?|?]]; done.
Qed.

Lemma index_by_truthy_id_fresh (rows : list row) (acc : list (hkey * row)) :
  Forall hashable_id rows →
  NoDup (map fst acc ++ omap truthy_key rows) →
  index_by_truthy_id acc rows = Ok (acc ++ omap id_entry rows)%list.
Proof.
  intros Hall. revert acc. induction Hall as [|r rows [k Hk] _ IH]; intros acc Hnd; simpl.
  - by rewrite app_nil_r.
  - unfold id_entry at 1. unfold truthy_key in Hnd |- * at 1. simpl in Hnd.
    rewrite Hk in Hnd |- *. destruct (truthy (get_or "id" VNone r)); simpl in *.
    + rewrite od_set_fresh.
      2:{ apply NoDup_app in Hnd as (_ & Hdis & _). intros Hin.
          apply (Hdis k Hin). apply list_elem_of_here. }
      rewrite IH; [by rewrite <- app_assoc|].
      rewrite map_app. simpl. rewrite <- app_assoc. exact Hnd.
    + by apply IH.
Qed.

Lemma id_entries_keys (rows : list row) :
  map fst (omap id_entry rows) = omap truthy_key rows.
Proof.
  induction rows as [|r rows IH]; csimpl; [done|].
  unfold id_entry at 1. destruct (truthy_key r); csimpl; by rewrite IH.
Qed.

Lemma id_entries_get (rows : list row) (r : row) (k : hkey) :
  NoDup (omap truthy_key rows) → r ∈ rows → truthy_key r = Some k →
  od_get k (omap id_entry rows) = Some r.
Proof.
  induction rows as [|x rows IH]; simpl; intros Hnd Hin Hk.
  - by apply elem_of_nil in Hin.
  - unfold id_entry at 1. destruct (truthy_key x) as [kx|] eqn:Hx; simpl in *.
    + apply NoDup_cons in Hnd as [Hnin Hnd].
      destruct (decide (k = kx)) as [->|Hne].
      * apply elem_of_cons in Hin as [->|Hin]; [done|].
        exfalso. apply Hnin. apply list_elem_of_omap. by exists r.
      * apply elem_of_cons in Hin as [->|Hin]; [congruence|]. by apply IH.
    + apply elem_of_cons in Hin as [->|Hin]; [congruence|]. by apply IH.
Qed.

Lemma status_entries_get (new_status : string) (keys : list hkey) (k : hkey)
    (b : list (hkey * row)) :
  od_get k (map (status_entry new_status keys) b)
  = (λ r, if bool_decide (k ∈ keys) then od_set "status" (VStr new_status) r else r)
      <$> od_get k b.
Proof.
  induction b as [|[k' r] b IH]; simpl; [done|].
  destruct (decide (k = k')) as [->|Hne]; [done|apply IH].
Qed.

Lemma bool_decide_elem_snoc (k k' : hkey) (keys : list hkey) :
  k' ≠ k → bool_decide (k' ∈ (keys ++ [k])%list) = bool_decide (k' ∈ keys).
Proof.
  intros Hne. apply bool_decide_ext. rewrite elem_of_app, list_elem_of_singleton. tauto.
Qed.

Lemma status_entries_mark (new_status : string) (keys : list hkey) (k : hkey) (r : row)
    (b : list (hkey * row)) :
  NoDup (map fst b) →
  od_get k (map (status_entry new_status keys) b) = Some r →
  od_set k (od_set "status" (VStr new_status) r) (map (status_entry new_status keys) b)
  = map (status_entry new_status (keys ++ [k])) b.
Proof.
  induction b as [|[k' r0] b IH]; simpl; [done|]. intros Hnd.
  apply NoDup_cons in Hnd as [Hnin Hnd].
  destruct (decide (k = k')) as [->|Hne].
  - intros [= <-]. unfold status_entry at 2. simpl.
    rewrite (bool_decide_eq_true_2 (k' ∈ (keys ++ [k'])%list)).
    2:{ apply elem_of_app. right. apply list_elem_of_here. }
    f_equal.
    + f_equal. destruct (bool_decide (k' ∈ keys)); [apply od_set_twice|done].
    + apply map_ext_in. intros [k'' r''] Hin%list_elem_of_In. unfold status_entry. simpl.
      f_equal. rewrite bool_decide_elem_snoc; [done|].
      intros ->. apply Hnin. apply list_elem_of_fmap. by exists (k', r'').
  - intros Hget. rewrite IH by done. f_equal. unfold status_entry. simpl. f_equal.
    rewrite bool_decide_elem_snoc; [done|]. congruence.
Qed.

Lemma mark_selected_run (new_status : string) (rows pending : list row)
    (selected : list nat) (keys : list hkey) :
  Forall hashable_id rows → NoDup (omap truthy_key rows) →
  Forall (λ p, p ∈ rows) pending →
  mark_selected new_status pending selected
    (map (status_entry new_status keys) (omap id_entry rows)) keys
  = Ok (map (status_entry new_status (keys ++ selected_keys pending selected))
          (omap id_entry rows),
        (keys ++ selected_keys pending selected)%list).
Proof.
  intros Hhash Hnd Hsub. revert keys.
  induction selected as [|idx rest IH]; intros keys; simpl.
  - by rewrite app_nil_r.
  - unfold selected_keys. simpl. fold (selected_keys pending rest).
    destruct (pending !! idx) as [p|] eqn:Hp; simpl; [|apply IH].
    assert (p ∈ rows) as Hin.
    { rewrite Forall_forall in Hsub. apply Hsub. by eapply list_elem_of_lookup_2. }
    destruct (truthy_key p) as [k|] eqn:Hk.
    + destruct (truthy_key_Some p k Hk) as [Ht Hh]. rewrite Ht, Hh.
      rewrite status_entries_get, (id_entries_get rows p k) by done. simpl.
      pose proof (status_entries_mark new_status keys k
                    (if bool_decide (k ∈ keys) then od_set "status" (VStr new_status) p else p)
                    (omap id_entry rows)) as Hmark.
      rewrite Hmark.
      * rewrite IH. by rewrite <- app_assoc.
      * by rewrite id_entries_keys.
      * by rewrite status_entries_get, (id_entries_get rows p k).
    + unfold truthy_key in Hk. destruct (truthy (get_or "id" VNone p)); [|apply IH].
      rewrite Forall_forall in Hhash. destruct (Hhash p Hin) as [k Hh].
      by rewrite Hh in Hk.
Qed.

Lemma updated_rows_run (new_status : string) (all rows : list row) (keys : list hkey) :
  Forall hashable_id rows → NoDup (omap truthy_key all) →
  Forall (λ r, r ∈ all) rows →
  updated_rows (map (status_entry new_status keys) (omap id_entry all)) rows
  = Ok (map (status_set new_status keys) rows).
Proof.
  intros Hhash Hnd. induction Hhash as [|r rows [k Hk] _ IH]; intros Hsub; simpl; [done|].
  apply Forall_cons in Hsub as [Hin Hsub]. rewrite Hk, IH by done. do 2 f_equal.
  rewrite status_entries_get. unfold status_set.
  destruct (truthy_key r) as [k'|] eqn:Hr.
  - destruct (truthy_key_Some r k' Hr) as [_ Hk']. rewrite Hk in Hk'. injection Hk' as <-.
    by rewrite (id_entries_get all r k).
  - assert (od_get k (omap id_entry all) = None) as ->; [|done].
    apply od_get_None_keys. rewrite id_entries_keys. intros Hin'.
    apply list_elem_of_omap in Hin' as (r' & _ & Hr').
    by apply (truthy_key_None r k Hr Hk r').
Qed.

Lemma status_entries_nil (new_status : string) (b : list (hkey * row)) :
  map (status_entry new_status []) b = b.
Proof.
  induction b as [|[k r] b IH]; simpl; [done|]. by rewrite IH.
Qed.

(** X21. Update Status for Selected Requests, on a collection whose
    truthy identifiers are pairwise distinct and hashable, [pending] being
    rows of the collection.  The handler returns; when no ticked row has an
    identifier it writes nothing; otherwise the file it writes holds the
    records of the collection in their order, the status set to the new
    status in exactly the records whose identifier is that of a ticked row
    and every other record, every other field, as it was. *)
Theorem update_status_changes_selected (new_status : string) (rows pending : list row)
    (selected_indices : list nat) (w : world) :
  selected_indices ≠ [] →
  Forall hashable_id rows → NoDup (omap truthy_key rows) →
  Forall (λ p, p ∈ rows) pending →
  ∃ report w',
    update_status_for_selected new_status rows pending selected_indices w = (Ok report, w') ∧
    match report with
    | NothingSelected => False
    | NoValidRequests => selected_keys pending selected_indices = [] ∧ w' = w
    | StatusUpdated updated _ _ =>
        updated = length (selected_keys pending selected_indices) ∧
        files w' !! FILES "requests"
        = Some (Json (VList (map VDict
                  (map (status_set new_status (selected_keys pending selected_indices))
                     rows))))
    end.
Proof.
  intros Hsel Hhash Hnd Hsub. unfold update_status_for_selected.
  rewrite (bool_decide_eq_false_2 (length selected_indices = 0))
    by (by destruct selected_indices).
  unfold mbind at 1, M_bind at 1, bind at 1, lift at 1.
  rewrite index_by_truthy_id_fresh by done. cbn [app]. cbv beta iota.
  unfold mbind at 1, M_bind at 1, bind at 1, lift at 1.
  replace (omap id_entry rows)
    with (map (status_entry new_status []) (omap id_entry rows))
    by apply status_entries_nil.
  rewrite (mark_selected_run new_status rows pending selected_indices []) by done.
  cbn [app]. cbv beta iota. set (keys := selected_keys pending selected_indices).
  destruct (bool_decide (length keys = 0)) eqn:Hlen.
  - apply bool_decide_eq_true in Hlen. exists NoValidRequests, w. split; [done|].
    split; [|done]. by destruct keys.
  - unfold mbind at 1, M_bind at 1, bind at 1, lift at 1.
    rewrite (updated_rows_run new_status rows rows keys Hhash Hnd).
    2:{ by apply Forall_forall. }
    unfold mbind at 1, M_bind at 1, bind at 1, save_json, act. cbv beta iota.
    set (w1 := emit _ _).
    assert (files w1 !! FILES "requests"
            = Some (Json (VList (map VDict (map (status_set new_status keys) rows))))) as Hw1.
    { unfold w1. simpl. apply lookup_insert_eq. }
    unfold mbind at 1, M_bind at 1, bind at 1, gets. cbv beta iota.
    unfold mbind at 1, M_bind at 1, bind at 1.
    destruct (supabase w1).
    + unfold try_except.
      destruct (bool_decide (length (batch_payload _ keys) = 0)).
      * unfold_M. eexists _, _. split; [reflexivity|]. done.
      * unfold mbind at 1, M_bind at 1, bind at 1.
        match goal with |- context [remote_upsert ?t ?p ?k w1] =>
          pose proof (same_files_remote_upsert t p k w1) as Hup;
          destruct (remote_upsert t p k w1) as [[[]|e] w2] end; cbn [snd] in Hup.
        -- unfold_M. eexists _, _. split; [reflexivity|]. by rewrite Hup.
        -- unfold_M. eexists _, _. split; [reflexivity|]. by rewrite Hup.
    + unfold_M. eexists _, _. split; [reflexivity|]. done.
Qed.

Lemma update_status_changes_selected_witness :
  ∃ report w',
    update_status_for_selected "Approved" [pending_request; approved_request]
      [pending_request] [0] offline_world = (Ok report, w') ∧
    files w' !! FILES "requests"
    = Some (Json (VList [VDict (od_set "status" (VStr "Approved") pending_request);
                         VDict approved_request])).
Proof.
  destruct (update_status_changes_selected "Approved" [pending_request; approved_request]
              [pending_request] [0] offline_world) as (report & w' & Hrun & Hrep).
  - discriminate.
  - repeat constructor; by eexists.
  - vm_compute. repeat constructor; rewrite ?not_elem_of_cons; repeat split;
      try discriminate; apply not_elem_of_nil.
  - repeat constructor.
  - exists report, w'. split; [done|]. destruct report as [| |updated synced err].
    + done.
    + destruct Hrep as [Hkeys _]. vm_compute in Hkeys. discriminate.
    + destruct Hrep as [_ Hfile]. exact Hfile.
Defined.
(** ** Admin Schools: Save Changes *)

Lemma invalid_id_rows_nil (idx : nat) (records : list row) :
  invalid_id_rows idx records = [] →
  Forall (λ r, truthy (VStr (school_sid r)) = true) records.
Proof.
  revert idx. induction records as [|r records IH]; intros idx; simpl; [done|].
  change (negb (school_sid r =? "")) with (truthy (VStr (school_sid r))).
  destruct (truthy (VStr (school_sid r))) eqn:E; simpl; [|done].
  intros Hrest. constructor; [done|by eapply IH].
Qed.

Lemma school_record_stored (r : row) :
  truthy (VStr (school_sid r)) = true → stored_school (school_record r).
Proof.
  intros Hsid. unfold school_record.
  assert (school_sid (od_set "coaches" (VList (map VStr (coaches_list r))) r) = school_sid r)
    as ->.
  { unfold school_sid, get_or, get. by rewrite od_get_set_ne. }
  rewrite Hsid. cbn [negb]. exists (valid_ps (coaches_list r)). split.
  - apply od_get_set_eq.
  - unfold valid_ps. apply Forall_forall. intros ps Hin.
    by apply list_elem_of_In, filter_In in Hin as [_ ?].
Qed.

Lemma stored_schools_visible (u : user) (stored : list row) :
  Forall stored_school stored → ∃ visible, list_user_schools u stored = Ok visible.
Proof.
  intros Hall. unfold list_user_schools.
  destruct (eq_str (credential u) "Admin"); [by eexists|].
  apply comprehension_if_total. eapply Forall_impl; [exact Hall|].
  intros s (l & Hl & _). unfold get_or. rewrite Hl. simpl. by eexists.
Qed.

(** X22. Save Changes of Admin Schools either stops before it writes
    anything, because a row has no identifier, or stores one school for
    each row of the grid, in order, each with a [coaches] field that is a
    list of texts of the form PS followed by digits: entries of any other
    form are dropped.  On the stored collection [list_user_schools] returns
    for every user. *)
Theorem save_schools_outcome (records : list row) (w : world) :
  ∃ report warnings w',
    save_schools records w = (Ok (report, warnings), w') ∧
    match report with
    | Stopped errors => w' = w ∧ 0 < errors
    | Stored saved synced _ =>
        ∃ stored,
          files w' !! FILES "schools" = Some (Json (VList (map VDict stored))) ∧
          saved = length records ∧ length stored = length records ∧
          (synced = 0 ∨ synced = saved) ∧
          Forall stored_school stored ∧
          ∀ u, ∃ visible, list_user_schools u stored = Ok visible
    end.
Proof.
  unfold save_schools.
  destruct (bool_decide (length (invalid_id_rows 0 records) = 0)) eqn:Hinv; cbn [negb].
  2:{ apply bool_decide_eq_false in Hinv. unfold_M. eexists _, _, _. split; [reflexivity|].
      split; [done|]. destruct (invalid_id_rows 0 records); [done|simpl; lia]. }
  apply bool_decide_eq_true in Hinv.
  assert (Forall stored_school (map school_record records)) as Hstored.
  { apply Forall_map. eapply Forall_impl; [apply (invalid_id_rows_nil 0)|].
    - by destruct (invalid_id_rows 0 records).
    - intros r. apply school_record_stored. }
  set (stored := map school_record records) in *.
  assert (length stored = length records) as Hlen by apply length_map.
  unfold mbind at 1, M_bind at 1, bind at 1, save_json, act.
  unfold mbind at 1, M_bind at 1, bind at 1, gets. cbv beta iota.
  set (w1 := emit _ _).
  assert (files w1 !! FILES "schools" = Some (Json (VList (map VDict stored)))) as Hw1.
  { unfold w1. simpl. apply lookup_insert_eq. }
  unfold mbind at 1, M_bind at 1, bind at 1.
  destruct (supabase w1 && _).
  - unfold try_except. unfold mbind at 1, M_bind at 1, bind at 1.
    match goal with |- context [remote_upsert ?t ?p ?k w1] =>
      pose proof (same_files_remote_upsert t p k w1) as Hup;
      destruct (remote_upsert t p k w1) as [[[]|e] w2] end; cbn [snd] in Hup.
    + unfold_M. eexists _, _, _. split; [reflexivity|]. exists stored. rewrite Hup.
      repeat split; auto. intros u. by apply stored_schools_visible.
    + unfold_M. eexists _, _, _. split; [reflexivity|]. exists stored. simpl. rewrite Hup.
      repeat split; auto. intros u. by apply stored_schools_visible.
  - unfold_M. eexists _, _, _. split; [reflexivity|]. exists stored.
    repeat split; auto. intros u. by apply stored_schools_visible.
Qed.

Lemma school_record_coaches (r : row) :
  truthy (VStr (school_sid r)) = true →
  get "coaches" (school_record r) = Some (VList (map VStr (valid_ps (coaches_list r)))).
Proof.
  intros Hsid. unfold school_record.
  assert (school_sid (od_set "coaches" (VList (map VStr (coaches_list r))) r) = school_sid r)
    as ->.
  { unfold school_sid, get_or, get. by rewrite od_get_set_ne. }
  rewrite Hsid. apply od_get_set_eq.
Qed.

(** X23. From the grid of Admin Schools to what a coach sees.  After a
    save that was not stopped, a user who is not an Admin sees the school
    stored for a row exactly when the user's [ps_number] is one of the
    entries typed in the row's [coaches] cell, trimmed and put in upper
    case, that have the form PS followed by digits.  An entry typed in
    lower case admits the coach; a [ps_number] in lower case never does. *)
Theorem saved_school_visibility (u : user) (records visible : list row) (r : row) :
  credential u ≠ VStr "Admin" →
  invalid_id_rows 0 records = [] →
  r ∈ records →
  list_user_schools u (map school_record records) = Ok visible →
  school_record r ∈ visible ↔ ps_number u ∈ valid_ps (coaches_list r).
Proof.
  intros Hcoach Hinv Hin Hrun. unfold list_user_schools in Hrun.
  assert (eq_str (credential u) "Admin" = false) as Hno.
  { destruct (eq_str (credential u) "Admin") eqn:E; [|done]. by apply eq_str_true in E. }
  rewrite Hno in Hrun. rewrite (comprehension_if_elem _ _ _ (school_record r) Hrun).
  pose proof (invalid_id_rows_nil 0 records Hinv) as Hsids.
  rewrite Forall_forall in Hsids. unfold get_or.
  rewrite (school_record_coaches r (Hsids r Hin)).
  change (default (VList []) (Some ?x)) with x.
  change (id (VList (map VStr (valid_ps (coaches_list r)))))
    with (VList (map VStr (valid_ps (coaches_list r)))).
  rewrite py_in_str_list. split.
  - intros [_ Hps]. apply list_elem_of_fmap in Hps as (x & [= ->] & Hx). done.
  - intros Hps. split.
    + apply list_elem_of_fmap. by exists r.
    + apply list_elem_of_fmap. by exists (ps_number u).
Qed.

Lemma saved_school_visibility_witness :
  ∃ visible r,
    list_user_schools coach_ps1 (map school_record schools_grid) = Ok visible ∧
    r ∈ schools_grid ∧ school_record r ∈ visible ∧
    get "coaches" (school_record r) = Some (VList [VStr "PS1"; VStr "PS2"]).
Proof.
  eexists _, _. split; [reflexivity|]. split; [apply list_elem_of_here|]. split.
  - apply (saved_school_visibility coach_ps1 schools_grid).
    + discriminate.
    + reflexivity.
    + apply list_elem_of_here.
    + reflexivity.
    + vm_compute. find_elem.
  - reflexivity.
Defined.
(** ** Kimono Stock: Save Stock Changes *)

Lemma stock_checked_id (r : row) : get_or "id" VNone (stock_checked r) = get_or "id" VNone r.
Proof.
  unfold stock_checked, get_or, get. rewrite od_get_set_ne by done.
  destruct (py_int _); [|done]. by rewrite od_get_set_ne.
Qed.

Lemma stock_keys_checked (e : nat → N) (n : nat) (recs : list row) :
  stock_keys e n (map stock_checked recs) = stock_keys e n recs.
Proof.
  revert n. induction recs as [|r recs IH]; intros n; simpl; [done|].
  unfold truthy_key. rewrite stock_checked_id.
  destruct (truthy (get_or "id" VNone r)); [destruct (py_hash _)|]; by rewrite IH.
Qed.

Lemma index_stock_lookup (k : hkey) (old : row) (l : list pyval) (acc : list (hkey * row)) :
  Forall (λ v, ∃ r, v = VDict r ∧ hashable_id r) l →
  truthy_key old = Some k →
  (∀ other, VDict other ∈ l → truthy_key other = Some k → other = old) →
  (od_get k acc = Some old ∨ VDict old ∈ l) →
  ∃ by_id, index_stock acc l = Ok by_id ∧ od_get k by_id = Some old.
Proof.
  intros Hl Hk. revert acc.
  induction Hl as [|v l (d & -> & [kd Hd]) _ IH]; intros acc Huniq Hin; simpl.
  - exists acc. split; [done|]. destruct Hin as [?|Hin]; [done|]. by apply elem_of_nil in Hin.
  - assert (∀ other, VDict other ∈ l → truthy_key other = Some k → other = old) as Huniq'.
    { intros o Ho. apply Huniq. by apply list_elem_of_further. }
    rewrite Hd. destruct (truthy (get_or "id" VNone d)) eqn:Ht.
    + assert (truthy_key d = Some kd) as Hkd by (unfold truthy_key; by rewrite Ht, Hd).
      apply IH; [done|]. destruct (decide (kd = k)) as [->|Hne].
      * left. rewrite (Huniq d (list_elem_of_here _ _) Hkd). apply od_get_set_eq.
      * rewrite od_get_set_ne by done. destruct Hin as [?|Hin]; [by left|].
        apply elem_of_cons in Hin as [[= ->]|Hin]; [congruence|by right].
    + apply IH; [done|]. destruct Hin as [?|Hin]; [by left|].
      apply elem_of_cons in Hin as [[= ->]|Hin]; [|by right].
      unfold truthy_key in Hk. by rewrite Ht in Hk.
Qed.

Lemma merge_stock_keeps (k : hkey) (recs : list row) (b : list (hkey * row)) (w : world) :
  Forall hashable_id recs →
  k ∉ stock_keys (entropy w) (uuid_next w) recs →
  ∃ b' w', merge_stock recs b w = (Ok b', w') ∧ od_get k b' = od_get k b ∧
    files w' = files w ∧ tables w' = tables w ∧ faults w' = faults w ∧ trace w' = trace w.
Proof.
  intros Hall. revert b w. induction Hall as [|r recs [kr Hr] _ IH]; intros b w Hk; simpl.
  - by exists b, w.
  - simpl in Hk. unfold truthy_key in Hk. rewrite Hr in Hk.
    destruct (truthy (get_or "id" VNone r)) eqn:Ht.
    + apply not_elem_of_cons in Hk as [Hne Hk].
      unfold mbind at 1, M_bind at 1, bind at 1, lift. rewrite Hr.
      destruct (od_get kr b) as [old|].
      * destruct (IH (od_set kr (dict_update old r) b) w Hk) as (b' & w' & Hrun & Hget & ?).
        exists b', w'. split; [done|]. split; [|done]. by rewrite Hget, od_get_set_ne.
      * destruct (IH (od_set kr r b) w Hk) as (b' & w' & Hrun & Hget & ?).
        exists b', w'. split; [done|]. split; [|done]. by rewrite Hget, od_get_set_ne.
    + apply not_elem_of_cons in Hk as [Hne Hk].
      unfold mbind at 1, M_bind at 1, bind at 1, uuid4. unfold uuid_of.
      set (u := uuid_str (uuid4_int (entropy w (uuid_next w)))) in *.
      destruct (IH (od_set (HStr u) (od_set "id" (VStr u) r) b)
                  (with_uuid_next (S (uuid_next w)) w) Hk) as (b' & w' & Hrun & Hget & ?).
      exists b', w'. split; [done|]. split; [|done]. rewrite Hget. by apply od_get_set_ne.
Qed.

(** X24. Save Stock Changes merges the rows of the grid into the stored
    collection and sends nothing to the remote store.  When the rows of the
    grid pass the validation, the handler returns; a stored row whose
    identifier is truthy, borne by no other stored row, and not the key of
    a row of the grid (the UUIDs drawn for new rows included) is in the
    file afterwards exactly as it was: rows of schools not shown in the
    grid are never dropped. *)
Theorem save_stock_keeps_others (recs existing : list row) (old : row) (k : hkey)
    (w : world) :
  foldr Nat.add 0 (map stock_invalid recs) = 0 →
  Forall hashable_id recs →
  files w !! FILES "stock" = Some (Json (VList (map VDict existing))) →
  Forall hashable_id existing →
  old ∈ existing → truthy_key old = Some k →
  (∀ other, other ∈ existing → truthy_key other = Some k → other = old) →
  k ∉ stock_keys (entropy w) (uuid_next w) recs →
  ∃ w' stored,
    save_stock recs w = (Ok (Stored (length recs) 0 None), w') ∧
    files w' !! FILES "stock" = Some (Json (VList (map VDict stored))) ∧
    old ∈ stored ∧
    tables w' = tables w ∧ faults w' = faults w ∧
    trace w' = FileWrite (FILES "stock") :: trace w.
Proof.
  intros Hvalid Hrecs Hfile Hex Hin Hk Huniq Hkeys. unfold save_stock.
  rewrite Hvalid. cbn [negb bool_decide decide_rel]. rewrite bool_decide_eq_true_2 by done.
  cbn [negb].
  unfold mbind at 1, M_bind at 1, bind at 1, load_json. rewrite Hfile.
  unfold mbind at 1, M_bind at 1, bind at 1, lift at 1.
  assert (py_iter (py_or (VList (map VDict existing)) (VList [])) = Ok (map VDict existing))
    as ->.
  { unfold py_or. by destruct existing. }
  destruct (index_stock_lookup k old (map VDict existing) []) as (b0 & Hidx & Hget0).
  { apply Forall_map. eapply Forall_impl; [exact Hex|]. intros r Hr. by exists r. }
  { done. }
  { intros other Ho. apply Huniq. apply list_elem_of_fmap in Ho as (r & [= ->] & ?). done. }
  { right. apply list_elem_of_fmap. by exists old. }
  unfold mbind at 1, M_bind at 1, bind at 1, lift at 1. rewrite Hidx.
  destruct (merge_stock_keeps k (map stock_checked recs) b0 w)
    as (b1 & w1 & Hrun & Hget1 & Hf1 & Ht1 & Hq1 & Htr1).
  { apply Forall_map. eapply Forall_impl; [exact Hrecs|]. intros r [kr Hr].
    exists kr. by rewrite stock_checked_id. }
  { by rewrite stock_keys_checked. }
  unfold mbind at 1, M_bind at 1, bind at 1. rewrite Hrun.
  unfold_M. unfold save_json. eexists _, (od_values b1). rewrite length_map.
  split; [reflexivity|]. simpl. split; [apply lookup_insert_eq|].
  split; [|by rewrite Ht1, Hq1, Htr1].
  apply (od_get_values k). by rewrite Hget1.
Qed.

Lemma save_stock_keeps_others_witness :
  ∃ w' stored,
    save_stock stock_grid stock_world = (Ok (Stored 2 0 None), w') ∧
    files w' !! FILES "stock" = Some (Json (VList (map VDict stored))) ∧
    stock_of_b ∈ stored ∧ tables w' = tables stock_world.
Proof.
  destruct (save_stock_keeps_others stock_grid [stock_of_a; stock_of_b] stock_of_b
              (HStr "k-2") stock_world)
    as (w' & stored & Hrun & Hfile & Hin & Ht & _).
  - reflexivity.
  - repeat constructor; by eexists.
  - reflexivity.
  - repeat constructor; by eexists.
  - find_elem.
  - reflexivity.
  - intros other Ho Hk.
    repeat (apply elem_of_cons in Ho as [->|Ho]; [try done; vm_compute in Hk; discriminate|]).
    by apply elem_of_nil in Ho.
  - vm_compute. intros Hin. repeat (apply elem_of_cons in Hin as [Hin|Hin]; [discriminate|]).
    by apply elem_of_nil in Hin.
  - by exists w', stored.
Defined.

(** ** sync_local_to_supabase: the summary *)

(** X25. Failures of the remote store never stop a pass.  When the client
    exists and none of the five local files is unreadable, the pass
    returns whatever remote calls raise, and the last thing it reports is
    the summary of its counters. *)
Theorem sync_reports_summary (force replace : bool) (w : world) :
  supabase w = true → files_parse w →
  ∃ w' synced skipped errors,
    sync_local_to_supabase force replace w = (Ok tt, w') ∧
    hd_error (trace w') = Some (Notify (Summary synced skipped errors)).
Proof.
  intros Hsup Hparse.
  destruct (sync_survives_remote_failures force replace w Hparse) as [w' Hrun].
  exists w'.
  assert (∃ synced skipped errors,
            hd_error (trace w') = Some (Notify (Summary synced skipped errors)))
    as (s & k & e & Htr).
  { revert Hrun. unfold sync_local_to_supabase.
    unfold mbind at 1, M_bind at 1, bind at 1, gets. rewrite Hsup. cbn [negb]. cbv beta iota.
    unfold mbind, M_bind, bind.
    destruct (sync_tables force replace TABLES _ w) as [[v|e] w1]; [|done].
    unfold notify, act. intros [= <-]. by eexists _, _, _. }
  by exists s, k, e.
Qed.

Lemma sync_reports_summary_witness :
  ∃ w' synced skipped errors,
    sync_local_to_supabase false false flaky_world = (Ok tt, w') ∧
    hd_error (trace w') = Some (Notify (Summary synced skipped errors)).
Proof.
  apply (sync_reports_summary false false flaky_world); [reflexivity|].
  intros table filename Hin. vm_compute in Hin.
  repeat (apply elem_of_cons in Hin as [[= -> ->]|Hin]; [by vm_compute|]).
  by apply elem_of_nil in Hin.
Defined.
(** ** Kimono Stock: the aggregated summary *)

Lemma agg_cell_add (proj p : string) (typ size t s : hkey) (qty : Z)
    (agg : list (string * list (hkey * list (hkey * Z)))) :
  agg_cell p t s (agg_add proj typ size qty agg)
  = (agg_cell p t s agg
     + if bool_decide (proj = p ∧ typ = t ∧ size = s) then qty else 0)%Z.
Proof.
  unfold agg_cell, agg_add.
  destruct (decide (proj = p)) as [->|Hp].
  - rewrite od_get_set_eq. simpl. destruct (decide (typ = t)) as [->|Ht].
    + rewrite od_get_set_eq. simpl. destruct (decide (size = s)) as [->|Hs].
      * rewrite od_get_set_eq. rewrite bool_decide_eq_true_2 by done. simpl.
        destruct (od_get p agg) as [types|]; simpl; [|done].
        destruct (od_get t types) as [sizes|]; simpl; [|done].
        by destruct (od_get s sizes).
      * rewrite od_get_set_ne by done.
        rewrite bool_decide_eq_false_2 by (by intros (_ & _ & ?)).
        rewrite Z.add_0_r.
        destruct (od_get p agg) as [types|]; simpl; [|done].
        by destruct (od_get t types) as [sizes|].
    + rewrite od_get_set_ne by done.
      rewrite bool_decide_eq_false_2 by (by intros (_ & ? & _)).
      rewrite Z.add_0_r. by destruct (od_get p agg) as [types|].
  - rewrite od_get_set_ne by done.
    rewrite bool_decide_eq_false_2 by (by intros (? & _ & _)). by rewrite Z.add_0_r.
Qed.

Lemma aggregate_cell (rows : list row) (proj : string) (typ size : hkey)
    (agg agg' : list (string * list (hkey * list (hkey * Z)))) :
  aggregate agg rows = Ok agg' →
  agg_cell proj typ size agg'
  = (agg_cell proj typ size agg + foldr Z.add 0 (map (cell_share proj typ size) rows))%Z.
Proof.
  revert agg. induction rows as [|r rows IH]; intros agg; simpl.
  - intros [= <-]. by rewrite Z.add_0_r.
  - unfold cell_share at 1. destruct (stock_cell r) as [[[[p t] s] qty]|e]; [|done].
    intros Hrun. rewrite (IH _ Hrun), agg_cell_add. lia.
Qed.

Lemma aggregate_total (rows : list row)
    (agg : list (string * list (hkey * list (hkey * Z)))) :
  Forall (λ r, ∃ c, stock_cell r = Ok c) rows → ∃ agg', aggregate agg rows = Ok agg'.
Proof.
  intros Hall. revert agg. induction Hall as [|r rows [[[[p t] s] q] Hc] _ IH]; intros agg.
  - by exists agg.
  - simpl. rewrite Hc. apply IH.
Qed.

(** X26. The aggregated stock summary.  When every row shown yields a
    project label, a type, a size and an integer quantity, the loop
    returns, and each cell of the summary, by project, type and size,
    holds the sum of the quantities of the rows that fall into it; a cell
    no row falls into is absent or zero.  Nothing is counted twice, nothing
    is left out. *)
Theorem aggregate_sums_quantities (rows : list row) :
  Forall (λ r, ∃ c, stock_cell r = Ok c) rows →
  ∃ agg, aggregate [] rows = Ok agg ∧
    ∀ proj typ size,
      agg_cell proj typ size agg = foldr Z.add 0%Z (map (cell_share proj typ size) rows).
Proof.
  intros Hall. destruct (aggregate_total rows [] Hall) as [agg Hrun].
  exists agg. split; [done|]. intros proj typ size.
  by rewrite (aggregate_cell rows proj typ size [] agg Hrun).
Qed.

Lemma aggregate_sums_quantities_witness :
  ∃ agg, aggregate [] [stock_of_a; stock_of_b; stock_of_a] = Ok agg ∧
    agg_cell "MOE" (HStr "A1") (HStr "C0") agg = 6%Z.
Proof.
  destruct (aggregate_sums_quantities [stock_of_a; stock_of_b; stock_of_a])
    as (agg & Hrun & Hsum).
  - repeat constructor; by eexists.
  - exists agg. split; [done|]. by rewrite Hsum.
Defined.

(** ** sync_local_to_supabase: when a local file is removed *)

Global Instance trace_grows_refl : Reflexive trace_grows.
Proof. by intros w e. Qed.

Global Instance trace_grows_trans : Transitive trace_grows.
Proof. intros w1 w2 w3 H12 H23 e He. by apply H23, H12. Qed.

Lemma trace_grows_notify (n : note) : keeps trace_grows (notify n).
Proof. intros w e He. simpl. by apply list_elem_of_further. Qed.

Lemma trace_grows_os_remove (path : string) : keeps trace_grows (os_remove path).
Proof. intros w e He. simpl. by apply list_elem_of_further. Qed.

Lemma trace_grows_remote_call (op : remote_op) : keeps trace_grows (remote_call op).
Proof.
  intros w e He. unfold remote_call.
  destruct (faults w) as [|[] fl]; simpl; by apply list_elem_of_further.
Qed.

Lemma trace_grows_remote_upsert (table : string) (payload : list row) (k : option string) :
  keeps trace_grows (remote_upsert table payload k).
Proof.
  unfold remote_upsert. keeps_step; [apply trace_grows_remote_call|].
  refine (keeps_act _ _ _). by intros w e.
Qed.

Lemma trace_grows_mirror_users (shaped : list row) : keeps trace_grows (mirror_users shaped).
Proof.
  unfold mirror_users.
  keeps_with ltac:(first [apply trace_grows_notify | apply trace_grows_remote_upsert]).
Qed.

Lemma upsert_block_ok (replace : bool) (table : string) (shaped : list row)
    (x : option exn) (w w' : world) :
  ((if replace then clear_remote table else ret tt) ;;
   remote_upsert table shaped (conflict_targets table) ;;
   notify (Synced table (length shaped)) ;;
   ret None) w = (Ok x, w') →
  x = None ∧ Remote (OpUpsert table shaped (conflict_targets table)) true ∈ trace w'.
Proof.
  unfold mbind at 1, M_bind at 1, bind at 1.
  destruct ((if replace then clear_remote table else ret tt) w) as [[[]|e] w1]; [|done].
  unfold remote_upsert, remote_call. unfold_M.
  destruct (faults w1) as [|[] fl]; cbv beta iota; try done; intros [= <- <-];
    (split; [done|]); simpl; apply list_elem_of_further, list_elem_of_here.
Qed.

Lemma same_files_upsert_block (replace : bool) (table : string) (shaped : list row) :
  keeps same_files
    ((if replace then clear_remote table else ret tt) ;;
     remote_upsert table shaped (conflict_targets table) ;;
     notify (Synced table (length shaped)) ;;
     ret (@None exn)).
Proof. unfold clear_remote. same_files_auto. Qed.

Lemma push_rows_files_or_upsert (replace : bool) (table filename : string)
    (shaped : list row) (v : sync_vars) (w w' : world) (r : res sync_vars) :
  push_rows replace table filename shaped v w = (r, w') →
  files w' = files w ∨
  Remote (OpUpsert table shaped (conflict_targets table)) true ∈ trace w'.
Proof.
  unfold push_rows. unfold mbind at 1, M_bind at 1, bind at 1, try_except at 1.
  pose proof (same_files_upsert_block replace table shaped w) as Hsame.
  pose proof (upsert_block_ok replace table shaped) as Hok.
  destruct (((if replace then clear_remote table else ret tt) ;;
             remote_upsert table shaped (conflict_targets table) ;;
             notify (Synced table (length shaped)) ;; ret None) w) as [[x|e] w1]
    eqn:Hblock; cbn [snd] in Hsame.
  - destruct (Hok x w w1 Hblock) as [-> Hin]. cbv beta iota.
    cbn [first_time_sync total_synced total_skipped total_errors].
    intros Hrun. right.
    match type of Hrun with ?m w1 = _ =>
      assert (keeps trace_grows m) as Hgrow
        by keeps_with ltac:(first [apply trace_grows_notify | apply trace_grows_os_remove
                                  | apply trace_grows_mirror_users])
    end.
    specialize (Hgrow w1). rewrite Hrun in Hgrow. by apply Hgrow.
  - unfold_M. intros [= <- <-]. by left.
Qed.

Lemma sync_table_files_or_upsert (force replace : bool) (table filename : string)
    (v : sync_vars) (w w' : world) (r : res sync_vars) :
  sync_table force replace table filename v w = (r, w') →
  files w' = files w ∨
  ∃ data, files w !! filename = Some (Json (VList data)) ∧
          Remote (OpUpsert table (shape_rows table data) (conflict_targets table)) true
          ∈ trace w'.
Proof.
  unfold sync_table. unfold mbind at 1, M_bind at 1, bind at 1, gets. cbv beta iota.
  destruct (path_exists filename w); cbn [negb]; cbv beta iota.
  2:{ unfold_M. intros [= <- <-]. by left. }
  unfold mbind at 1, M_bind at 1, bind at 1.
  pose proof (same_files_check_existing force replace table v w) as Hsame.
  destruct (check_existing force replace table v w) as [[[fts skip]|e] w1];
    cbn [snd] in *; [|intros [= <- <-]; by left].
  destruct skip; cbv beta iota; [unfold_M; intros [= <- <-]; by left|].
  unfold mbind at 1, M_bind at 1, bind at 1, json_load. rewrite Hsame.
  destruct (files w !! filename) as [[|data]|] eqn:Hfile;
    [intros [= <- <-]; by left| |intros [= <- <-]; by left].
  destruct data; try (unfold_M; intros [= <- <-]; by left).
  intros Hrun. destruct (push_rows_files_or_upsert _ _ _ _ _ _ _ _ Hrun) as [Hf|Hin].
  - left. by rewrite Hf.
  - right. by eexists.
Qed.

(** X27. A local file is removed only after its rows have reached the
    remote store.  Whatever the flags, the counters of the pass and the
    behaviour of the remote store, if the file of a table exists before a
    turn of the loop and is gone after it, then the file held an array and
    the turn made a successful upsert of its shaped rows into the table. *)
Theorem sync_table_removes_after_upsert (force replace : bool) (table filename : string)
    (v : sync_vars) (w : world) :
  is_Some (files w !! filename) →
  files (snd (sync_table force replace table filename v w)) !! filename = None →
  ∃ data, files w !! filename = Some (Json (VList data)) ∧
          Remote (OpUpsert table (shape_rows table data) (conflict_targets table)) true
          ∈ trace (snd (sync_table force replace table filename v w)).
Proof.
  intros [f Hf] Hgone.
  destruct (sync_table force replace table filename v w) as [r w'] eqn:Hrun.
  destruct (sync_table_files_or_upsert force replace table filename v w w' r Hrun)
    as [Hsame|Hup]; [|done].
  cbn [snd] in Hgone. rewrite Hsame, Hf in Hgone. done.
Qed.

Lemma sync_table_removes_after_upsert_witness :
  ∃ data, files roundtrip_world !! "schools.json" = Some (Json (VList data)) ∧
    Remote (OpUpsert "schools" (shape_rows "schools" data) (conflict_targets "schools")) true
    ∈ trace (snd (sync_table false false "schools" "schools.json" (SyncVars None 0 0 0)
                    roundtrip_world)).
Proof.
  apply (sync_table_removes_after_upsert false false "schools" "schools.json"
           (SyncVars None 0 0 0) roundtrip_world).
  - by eexists.
  - reflexivity.
Defined.
(** ** Submit Request: add, then submit *)

Lemma next_item_complete (e : nat → N) (n : nat) (d : row) :
  complete_request d →
  ∃ i, get "id" d = Some (VStr i) ∧ next_item e n (VDict d) = (i, d, n).
Proof.
  intros (i & Hid & Hs & Hne & Hst & Hps & Hq). exists i. split; [done|].
  destruct (item_with_id_complete d i Hid Hs Hne Hst Hps Hq) as [Hg Hitem].
  unfold next_item. cbn [as_dict]. rewrite Hg, Hitem.
  by rewrite (proj2 (truthy_str_true i) Hne).
Qed.

Lemma build_item_complete (uid sid : string) (category : pyval) (material : string)
    (qty : Z) (now : string) (u : user) :
  PyStr.strip uid = uid → uid ≠ "" →
  complete_request (build_item uid sid category material qty now u).
Proof. intros Hs Hne. exists uid. repeat split; try done. right. by exists qty. Qed.

Lemma upsert_row_in (k : string) (v : pyval) (t : list row) (r : row) :
  get k r = Some v → r ∈ upsert_row (Some k) t r.
Proof.
  intros Hk. unfold upsert_row. rewrite Hk.
  destruct (existsb (same_key k v) t) eqn:Hex.
  - apply existsb_exists in Hex as (old & Hin & Hsame).
    apply list_elem_of_fmap. exists old. rewrite Hsame. split; [done|].
    by apply list_elem_of_In.
  - apply elem_of_app. right. apply list_elem_of_here.
Qed.

Lemma persist_one_complete (d : row) (w : world) :
  complete_request d →
  rows_file (files w !! FILES "requests") →
  ∃ by0,
    persist_requests [VDict d] w
    = push_payload [project_get request_fields d] 1
        (after_save (FILES "requests")
           (VList (map VDict (od_values (od_set (row_id_text d) d by0)))) w).
Proof.
  intros Hd Hfile.
  destruct (load_existing w Hfile) as (_ & _ & _ & Hdicts).
  destruct (index_existing_dicts [] _ Hdicts) as (by0 & Hidx & _).
  exists by0. rewrite (persist_requests_run [VDict d] w by0) by done.
  cbn [merge_pure]. destruct (next_item_complete (entropy w) (uuid_next w) d Hd)
    as (i & Hid & ->).
  cbn [merge_pure app length]. rewrite with_uuid_next_same.
  destruct Hd as (i' & Hid' & Hs & _). rewrite Hid in Hid'. injection Hid' as <-.
  unfold row_id_text, get_or. rewrite Hid. simpl. by rewrite Hs.
Qed.

Lemma item_errors_build (valid : list string) (uid sid : string) (category : pyval)
    (material : string) (qty : Z) (now : string) (u : user) :
  PyStr.strip sid ≠ "" → PyStr.strip sid ∈ valid → (0 < qty)%Z →
  item_errors valid (build_item uid sid category material qty now u) = 0.
Proof.
  intros Hne Hin Hq. unfold item_errors.
  change (py_str (get_or "school_id" (VStr "") (build_item uid sid category material qty now u)))
    with sid.
  change (py_int (get_or "quantity" (VInt 0) (build_item uid sid category material qty now u)))
    with (@Ok Z qty).
  rewrite (proj2 (truthy_str_true _) Hne), bool_decide_eq_true_2 by done.
  cbn [negb orb]. by rewrite (proj2 (Z.leb_gt qty 0) Hq).
Qed.

Lemma batch_id_set_build (uid sid : string) (category : pyval) (material : string)
    (qty : Z) (now : string) (u : user) :
  uid ≠ "" →
  batch_id_set [build_item uid sid category material qty now u] = {[uid]}.
Proof.
  intros Hne. unfold batch_id_set. cbn [List.filter].
  change (get_or "id" VNone (build_item uid sid category material qty now u)) with (VStr uid).
  rewrite (proj2 (truthy_str_true uid) Hne). cbn [map py_str list_to_set].
  apply (right_id_L ∅ (∪)).
Qed.

(** X28. Submit Request is the retry of Add Another Item.  Let the remote
    store fail the upsert made when an item is added, and answer the next
    call.  Adding the item stores it in the requests file and flags its
    identifier as unsynced, the remote table being untouched; submitting
    the batch then persists the same item again: the summary counts one
    saved and one synced, the flag is cleared, the batch is emptied, the
    file still holds the item and the remote table now holds its row. *)
Theorem add_then_submit_retries (sid : string) (category : pyval) (material : string)
    (qty : Z) (now : string) (u : user) (schools : list row) (fl : list bool) (w : world) :
  supabase w = true → faults w = true :: false :: fl →
  rows_file (files w !! FILES "requests") →
  (0 < qty)%Z → PyStr.strip sid ≠ "" →
  PyStr.strip sid ∈ map (λ sc, py_str (get_or "id" VNone sc)) schools →
  ∃ uid item w1 w2 stored,
    uid = uuid_of w (uuid_next w) ∧
    item = build_item uid sid category material qty now u ∧
    add_another_item sid category material qty now u (Session [] ∅) w
    = (Ok (Session [item] {[uid]}), w1) ∧
    tables w1 = tables w ∧
    (∃ stored1, files w1 !! FILES "requests" = Some (Json (VList (map VDict stored1))) ∧
                item ∈ stored1) ∧
    submit_request schools (Session [item] {[uid]}) w1
    = (Ok (Stored 1 1 None, Session [] ∅), w2) ∧
    files w2 !! FILES "requests" = Some (Json (VList (map VDict stored))) ∧
    item ∈ stored ∧
    project_get request_fields item ∈ table_rows "requests" w2.
Proof.
  intros Hsup Hq Hfile Hqty Hsid Hvalid.
  set (uid := uuid_of w (uuid_next w)).
  set (item := build_item uid sid category material qty now u).
  assert (uid ≠ "") as Hne by apply uuid_str_nonempty.
  assert (complete_request item) as Hitem.
  { apply build_item_complete; [apply uuid_str_strip|done]. }
  assert (row_id_text item = uid) as Hrid.
  { unfold row_id_text. change (py_str (get_or "id" (VStr "") item)) with uid.
    apply uuid_str_strip. }
  set (wa := with_uuid_next (S (uuid_next w)) w).
  destruct (persist_one_complete item wa Hitem Hfile) as (by0 & Hp1).
  rewrite Hrid in Hp1.
  set (stored1 := od_values (od_set uid item by0)) in *.
  set (ws := after_save _ _ wa) in Hp1.
  rewrite (push_payload_fails _ 1 ws (false :: fl)) in Hp1 by done.
  set (w1 := emit _ (with_faults (false :: fl) ws)) in Hp1.
  assert (files w1 !! FILES "requests" = Some (Json (VList (map VDict stored1)))) as Hf1.
  { unfold w1, ws. simpl. apply lookup_insert_eq. }
  assert (item ∈ stored1) as Hin1.
  { apply (od_get_values uid). apply od_get_set_eq. }
  assert (rows_file (files w1 !! FILES "requests")) as Hfile1.
  { rewrite Hf1. simpl. apply Forall_map, Forall_true. intros r. by exists r. }
  destruct (persist_one_complete item w1 Hitem Hfile1) as (by1 & Hp2).
  rewrite Hrid in Hp2.
  set (stored := od_values (od_set uid item by1)) in *.
  set (ws2 := after_save _ _ w1) in Hp2.
  destruct (push_payload_succeeds [project_get request_fields item] 1 ws2)
    as (w2 & Hrun2 & _ & Hf2 & Ht2); [done..|].
  rewrite Hrun2 in Hp2.
  exists uid, item, w1, w2, stored. split; [done|]. split; [done|].
  split; [|split; [done|split; [by exists stored1|split; [|split; [|split]]]]].
  - unfold add_another_item. unfold mbind at 1, M_bind at 1, bind at 1, uuid4.
    fold uid wa. cbv zeta. fold item.
    unfold mbind, M_bind, bind. rewrite Hp1. cbn [error app pending_items
      unsynced_request_ids]. unfold ret.
    by rewrite (right_id_L (∅ : gset string) (∪) {[uid]}).
  - unfold submit_request. cbn [pending_items unsynced_request_ids map foldr].
    unfold item. rewrite item_errors_build by done. fold item.
    cbn [Nat.add]. rewrite bool_decide_eq_true_2 by done. cbn [negb].
    unfold mbind, M_bind, bind. rewrite Hp2. cbn [error saved synced length]. unfold ret.
    unfold item. rewrite batch_id_set_build by done.
    by rewrite (difference_diag_L ({[uid]} : gset string)).
  - rewrite Hf2. unfold ws2. simpl. apply lookup_insert_eq.
  - apply (od_get_values uid). apply od_get_set_eq.
  - rewrite Ht2. cbn [foldl]. by apply (upsert_row_in "id" (VStr uid)).
Qed.

Lemma add_then_submit_retries_witness :
  ∃ uid item w1 w2,
    add_another_item "1565" (VStr "Kimono") "Kimono A1" 2 "2025-11-09 10:00:00" coach_ps1
      (Session [] ∅) retry_world = (Ok (Session [item] {[uid]}), w1) ∧
    submit_request [school_a] (Session [item] {[uid]}) w1
    = (Ok (Stored 1 1 None, Session [] ∅), w2) ∧
    project_get request_fields item ∈ table_rows "requests" w2.
Proof.
  destruct (add_then_submit_retries "1565" (VStr "Kimono") "Kimono A1" 2
              "2025-11-09 10:00:00" coach_ps1 [school_a] [] retry_world)
    as (uid & item & w1 & w2 & stored & _ & _ & Hadd & _ & _ & Hsub & _ & _ & Hremote).
  - reflexivity.
  - reflexivity.
  - vm_compute. repeat econstructor.
  - done.
  - vm_compute. discriminate.
  - vm_compute. find_elem.
  - by exists uid, item, w1, w2.
Defined.
